(** * Authentication and session consistency of the storefront

    A shallow embedding of the customer flow ([UserAuthProvider]:
    [signup], [verifyOtp], [login], [logout], ...), of the admin flow
    ([OwnerAuthProvider]: [login], [logout], [handleStorage] and the
    auth-state listener) and of the profile helpers of
    [firebase-services] ([ensureUserProfileExists], [saveUserProfile],
    [getUserProfileData], [findUserByPhoneNumber]).

    Conventions of the embedding:
    - a JavaScript string is a [string] of code units below 256;
    - a JavaScript number that holds an instant or a counter is a [Z];
    - a JavaScript object (a Firestore document, a profile) is a finite
      map from field names to values, so that object spread and
      [setDoc(..., { merge: true })] are unions of maps;
    - an [async] function is a state transformer that may throw; what the
      outside world answers during one call (clock, credential checks,
      failing reads and writes) is an explicit [Env] argument;
    - React state is read at the start of a call as the last rendered
      state, calls do not interleave. *)

From Stdlib Require Import ZArith Lia Bool List Ascii String.
From stdpp Require Import gmap strings list fin_maps.
Import ListNotations.

Open Scope string_scope.
Open Scope Z_scope.

(** ** JavaScript strings: [trim], character classes, regular expressions *)

Module Js.

(** White space and line terminators of ECMAScript among the code units
    below 256: TAB, LF, VT, FF, CR, SPACE and NBSP.  This is what
    [String.prototype.trim] strips and what [\s] matches. *)
Definition is_space (c : ascii) : bool :=
  let n := Z.of_nat (nat_of_ascii c) in
  ((9 <=? n) && (n <=? 13)) || (n =? 32) || (n =? 160).

Fixpoint trimStart (s : string) : string :=
  match s with
  | EmptyString => EmptyString
  | String c s' => if is_space c then trimStart s' else s
  end.

Fixpoint trimEnd (s : string) : string :=
  match s with
  | EmptyString => EmptyString
  | String c s' =>
      match trimEnd s' with
      | EmptyString => if is_space c then EmptyString else String c EmptyString
      | t => String c t
      end
  end.

Definition trim (s : string) : string := trimEnd (trimStart s).

(** [s.replace(/[...]/g, '')]: every character of the class is removed. *)
Fixpoint remove_all (p : ascii -> bool) (s : string) : string :=
  match s with
  | EmptyString => EmptyString
  | String c s' => if p c then remove_all p s' else String c (remove_all p s')
  end.

Definition in_range (lo hi c : ascii) : bool :=
  (nat_of_ascii lo <=? nat_of_ascii c)%nat && (nat_of_ascii c <=? nat_of_ascii hi)%nat.

Fixpoint one_of (chars : string) (c : ascii) : bool :=
  match chars with
  | EmptyString => false
  | String x rest => Ascii.eqb x c || one_of rest c
  end.

Definition digit : ascii -> bool := in_range "0" "9".
Definition alpha (c : ascii) : bool := in_range "a" "z" c || in_range "A" "Z" c.
Definition alnum (c : ascii) : bool := alpha c || digit c.

(** Regular expressions.  The three expressions of the source are
    anchored at both ends ([^...$], no [m] flag), so [re.test(s)] is a
    match of the whole string. *)
Inductive regex : Type :=
| Void
| Eps
| Cls (p : ascii -> bool)
| Seq (r1 r2 : regex)
| Alt (r1 r2 : regex)
| Star (r : regex).

Fixpoint nullable (r : regex) : bool :=
  match r with
  | Void => false
  | Eps => true
  | Cls _ => false
  | Seq r1 r2 => nullable r1 && nullable r2
  | Alt r1 r2 => nullable r1 || nullable r2
  | Star _ => true
  end.

Fixpoint deriv (c : ascii) (r : regex) : regex :=
  match r with
  | Void => Void
  | Eps => Void
  | Cls p => if p c then Eps else Void
  | Seq r1 r2 =>
      if nullable r1
      then Alt (Seq (deriv c r1) r2) (deriv c r2)
      else Seq (deriv c r1) r2
  | Alt r1 r2 => Alt (deriv c r1) (deriv c r2)
  | Star r1 => Seq (deriv c r1) (Star r1)
  end.

Fixpoint test (r : regex) (s : string) : bool :=
  match s with
  | EmptyString => nullable r
  | String c s' => test (deriv c r) s'
  end.

(** [r+], [r{n}] and [r{n,}] *)
Definition Plus (r : regex) : regex := Seq r (Star r).

Fixpoint Rep (n : nat) (r : regex) : regex :=
  match n with
  | O => Eps
  | S n' => Seq r (Rep n' r)
  end.

Definition AtLeast (n : nat) (r : regex) : regex := Seq (Rep n r) (Star r).

End Js.

(** ** The code hasher: SHA-256 of the UTF-8 bytes, in lower-case hex *)

Module Sha256.

Definition w32 (x : Z) : Z := Z.land x 4294967295.
Definition add32 (x y : Z) : Z := w32 (x + y).
Definition not32 (x : Z) : Z := Z.lxor x 4294967295.
Definition rotr (n x : Z) : Z := Z.lor (Z.shiftr x n) (w32 (Z.shiftl x (32 - n))).

Definition Ch (x y z : Z) : Z := Z.lxor (Z.land x y) (Z.land (not32 x) z).
Definition Maj (x y z : Z) : Z :=
  Z.lxor (Z.lxor (Z.land x y) (Z.land x z)) (Z.land y z).
Definition Sigma0 (x : Z) : Z := Z.lxor (Z.lxor (rotr 2 x) (rotr 13 x)) (rotr 22 x).
Definition Sigma1 (x : Z) : Z := Z.lxor (Z.lxor (rotr 6 x) (rotr 11 x)) (rotr 25 x).
Definition sigma0 (x : Z) : Z := Z.lxor (Z.lxor (rotr 7 x) (rotr 18 x)) (Z.shiftr x 3).
Definition sigma1 (x : Z) : Z := Z.lxor (Z.lxor (rotr 17 x) (rotr 19 x)) (Z.shiftr x 10).

(** The round constants and the initial hash value are the first 32
    bits of the fractional parts of the cube roots of the first 64
    primes, and of the square roots of the first 8. *)
Definition is_prime (n : Z) : bool :=
  List.forallb (fun d => negb (n mod Z.of_nat d =? 0)) (List.seq 2 (Z.to_nat n - 2)).

Definition primes (count : nat) : list Z :=
  List.firstn count (List.filter is_prime (List.map Z.of_nat (List.seq 2 310))).

Fixpoint cbrt_bits (n : nat) (x r : Z) : Z :=
  match n with
  | O => r
  | S n' =>
      let c := r + Z.shiftl 1 (Z.of_nat n') in
      if c * c * c <=? x then cbrt_bits n' x c else cbrt_bits n' x r
  end.

Definition K : list Z :=
  List.map (fun p => w32 (cbrt_bits 36 (Z.shiftl p 96) 0)) (primes 64).

Definition H0 : list Z :=
  List.map (fun p => w32 (Z.sqrt (Z.shiftl p 64))) (primes 8).

(** Big-endian bytes of the [n] low-order bytes of [x]. *)
Fixpoint be_bytes (n : nat) (x : Z) : list Z :=
  match n with
  | O => []
  | S n' => Z.land (Z.shiftr x (8 * Z.of_nat n')) 255 :: be_bytes n' x
  end.

Definition pad (msg : list Z) : list Z :=
  let len := Z.of_nat (List.length msg) in
  let zeros := Z.to_nat ((55 - len) mod 64) in
  msg ++ [128] ++ List.repeat 0 zeros ++ be_bytes 8 (8 * len).

Fixpoint words (n : nat) (bytes : list Z) : list Z :=
  match n, bytes with
  | S n', b0 :: b1 :: b2 :: b3 :: rest =>
      (Z.shiftl b0 24 + Z.shiftl b1 16 + Z.shiftl b2 8 + b3) :: words n' rest
  | _, _ => []
  end.

(** Message schedule, most recent word first. *)
Fixpoint extend (n : nat) (rw : list Z) : list Z :=
  match n with
  | O => rw
  | S n' =>
      let w := add32 (add32 (sigma1 (nth 1 rw 0)) (nth 6 rw 0))
                     (add32 (sigma0 (nth 14 rw 0)) (nth 15 rw 0)) in
      extend n' (w :: rw)
  end.

Definition round (st : list Z) (kw : Z * Z) : list Z :=
  match st with
  | [a; b; c; d; e; f; g; h] =>
      let t1 := add32 (add32 (add32 h (Sigma1 e)) (add32 (Ch e f g) (fst kw))) (snd kw) in
      let t2 := add32 (Sigma0 a) (Maj a b c) in
      [add32 t1 t2; a; b; c; add32 d t1; e; f; g]
  | _ => st
  end.

Definition compress (h : list Z) (block : list Z) : list Z :=
  let w := List.rev (extend 48 (List.rev (words 16 block))) in
  let st := List.fold_left round (List.combine K w) h in
  List.map (fun p => add32 (fst p) (snd p)) (List.combine h st).

Fixpoint blocks (n : nat) (bytes : list Z) (h : list Z) : list Z :=
  match n with
  | O => h
  | S n' => blocks n' (List.skipn 64 bytes) (compress h (List.firstn 64 bytes))
  end.

Definition digest (msg : list Z) : list Z :=
  let p := pad msg in
  List.concat (List.map (be_bytes 4) (blocks (Nat.div (List.length p) 64) p H0)).

End Sha256.

(** [new TextEncoder().encode(s)] for code units below 256 *)
Fixpoint encode (s : string) : list Z :=
  match s with
  | EmptyString => []
  | String c s' =>
      let n := Z.of_nat (nat_of_ascii c) in
      if n <? 128 then n :: encode s'
      else (192 + Z.shiftr n 6) :: (128 + Z.land n 63) :: encode s'
  end.

Definition hex_digit (n : Z) : ascii :=
  ascii_of_nat (Z.to_nat (if n <? 10 then 48 + n else 87 + n)).

(** [byte.toString(16).padStart(2, "0")], joined *)
Fixpoint bufferToHex (bytes : list Z) : string :=
  match bytes with
  | [] => EmptyString
  | b :: rest =>
      String (hex_digit (Z.shiftr b 4)) (String (hex_digit (Z.land b 15)) (bufferToHex rest))
  end.

Definition hashOtp (otp : string) : string :=
  bufferToHex (Sha256.digest (encode otp)).

Arguments hashOtp : simpl never.

Definition TEST_OTP : string := "123456".

Definition EMAIL_RE : Js.regex :=
  Js.Seq (Js.Plus (Js.Cls (fun c => Js.alnum c || Js.one_of "_!#$%&'*+/=?`{|}~^.-" c)))
  (Js.Seq (Js.Cls (Ascii.eqb "@"))
  (Js.Seq (Js.Plus (Js.Seq (Js.Plus (Js.Cls (fun c => Js.alnum c || Ascii.eqb c "-")))
                           (Js.Cls (Ascii.eqb "."))))
          (Js.AtLeast 2 (Js.Cls Js.alpha)))).

Definition isValidEmail (value : string) : bool :=
  Js.test EMAIL_RE (Js.trim value).

Definition PHONE_RE : Js.regex :=
  Js.Seq (Js.Cls (Js.in_range "6" "9")) (Js.Rep 9 (Js.Cls Js.digit)).

Definition isValidPhone (value : string) : bool :=
  Js.test PHONE_RE
    (Js.remove_all (fun c => Js.is_space c || Ascii.eqb c "-") (Js.trim value)).

Definition OTP_RE : Js.regex := Js.Rep 6 (Js.Cls (Js.in_range "0" "9")).

(** ** Values, objects, errors *)

(** Field values of the documents of [user_profiles]: strings, booleans
    and timestamps (a resolved [serverTimestamp()]). *)
Inductive Value : Type :=
| VStr (s : string)
| VBool (b : bool)
| VTime (t : Z).

#[global] Instance Value_eq_dec : EqDecision Value.
Proof. solve_decision. Defined.

(** A JavaScript object: field name to value.  A property that is read
    and absent is [undefined], here [None]. *)
Abbreviation Doc := (gmap string Value).
Abbreviation JsValue := (option Value).

(** [Boolean(v)] *)
Definition truthy (v : JsValue) : bool :=
  match v with
  | None => false
  | Some (VBool b) => b
  | Some (VStr s) => negb (String.eqb s "")
  | Some (VTime _) => true
  end.

(** [v ?? d] *)
Definition nullish (v : JsValue) (d : Value) : Value :=
  match v with
  | Some x => x
  | None => d
  end.

(** Object literals [{ k: v, ...o, k': v' }]: later properties win. *)
Inductive PropDef : Type :=
| Field (k : string) (v : Value)
| Spread (o : Doc).

Definition define (acc : Doc) (p : PropDef) : Doc :=
  match p with
  | Field k v => <[k := v]> acc
  | Spread o => o ∪ acc
  end.

Definition object (ps : list PropDef) : Doc := List.fold_left define ps ∅.

(** A thrown value: [new Error(message)], or a backend error with a [code]. *)
Record JsError : Type := mkError { err_code : option string; err_message : string }.

Definition Error (msg : string) : JsError := mkError None msg.

(** [error.message || fallback] *)
Definition message_or (e : JsError) (fallback : string) : string :=
  if String.eqb (err_message e) "" then fallback else err_message e.

Inductive Outcome (A : Type) : Type :=
| Returned (a : A)
| Thrown (e : JsError).
Arguments Returned {A} a.
Arguments Thrown {A} e.

(** ** Asynchronous functions as state transformers that may throw *)

Definition M (S A : Type) : Type := S -> S * Outcome A.

Definition ret {S A} (a : A) : M S A := fun s => (s, Returned a).

Definition throw {S A} (e : JsError) : M S A := fun s => (s, Thrown e).

Definition bind {S A B} (m : M S A) (k : A -> M S B) : M S B :=
  fun s =>
    match m s with
    | (s', Returned a) => k a s'
    | (s', Thrown e) => (s', Thrown e)
    end.

(** [try { m } catch (error) { h error }] *)
Definition try_catch {S A} (m : M S A) (h : JsError -> M S A) : M S A :=
  fun s =>
    match m s with
    | (s', Returned a) => (s', Returned a)
    | (s', Thrown e) => h e s'
    end.

(** [try { m } finally { f }] *)
Definition try_finally {S A} (m : M S A) (f : M S unit) : M S A :=
  fun s =>
    match m s with
    | (s', r) =>
        match f s' with
        | (s'', Returned _) => (s'', r)
        | (s'', Thrown e) => (s'', Thrown e)
        end
    end.

Definition modify {S} (f : S -> S) : M S unit := fun s => (f s, Returned tt).

(** Run a computation on the second component of the state. *)
Definition liftW {C W A} (m : M W A) : M (C * W) A :=
  fun s =>
    match m (snd s) with
    | (w', r) => ((fst s, w'), r)
    end.

Declare Scope js_scope.
Delimit Scope js_scope with js.
Notation "'let*' x ':=' m 'in' k" := (bind m (fun x => k))
  (at level 10, x name, m at level 100, k at level 200) : js_scope.
Notation "m '>>' k" := (bind m (fun _ => k))
  (at level 90, right associativity) : js_scope.
Open Scope js_scope.

(** ** The world outside the providers *)

Inductive ToastKind : Type := ToastSuccess | ToastError | ToastInfo.

(** A toast: its kind and its title (descriptions are left out). *)
Record Toast : Type := mkToast { toast_kind : ToastKind; toast_text : string }.

(** A string kept in [localStorage]: plain text, or the JSON text of a
    profile or of the pending-verification trace ([JSON.stringify]
    followed by [JSON.parse] gives the object back).  [LSText] is for
    text that is not such JSON. *)
Inductive LSValue : Type :=
| LSText (s : string)
| LSProfile (profile : Doc)
| LSPendingOtp (userId phoneNumber : string).

#[global] Instance LSValue_eq_dec : EqDecision LSValue.
Proof. solve_decision. Defined.

(** Calls to the backend authentication primitive, oldest first. *)
Inductive AuthCall : Type :=
| CreateUser (email password : string)
| SignIn (email : JsValue) (password : string)
| SignOut.

Record World : Type := mkWorld {
  user_profiles : gmap string Doc;
  currentUser : option string;
  localStorage : gmap string LSValue;
  toasts : list Toast;
  authCalls : list AuthCall
}.

Definition with_user_profiles (x : gmap string Doc) (w : World) : World :=
  mkWorld x (currentUser w) (localStorage w) (toasts w) (authCalls w).
Definition with_currentUser (x : option string) (w : World) : World :=
  mkWorld (user_profiles w) x (localStorage w) (toasts w) (authCalls w).
Definition with_localStorage (x : gmap string LSValue) (w : World) : World :=
  mkWorld (user_profiles w) (currentUser w) x (toasts w) (authCalls w).
Definition with_toasts (x : list Toast) (w : World) : World :=
  mkWorld (user_profiles w) (currentUser w) (localStorage w) x (authCalls w).
Definition with_authCalls (x : list AuthCall) (w : World) : World :=
  mkWorld (user_profiles w) (currentUser w) (localStorage w) (toasts w) x.

(** What the outside answers during one call. *)
Record Env : Type := mkEnv {
  Date_now : Z;
  serverTimestamp : Z;
  createUserWithEmailAndPassword : string -> string -> Outcome string;
  signInWithEmailAndPassword : JsValue -> string -> Outcome string;
  signOut_rejects : option JsError;
  setDoc_rejects : option JsError;
  getDoc_rejects : option JsError;
  getDocs_rejects : option JsError;
  getIdToken : Outcome string;
  fetchUserOrders : string -> list Doc;
  fetchUserInquiries : string -> list Doc
}.

Definition toast (kind : ToastKind) (text : string) : M World unit :=
  modify (fun w => with_toasts (toasts w ++ [mkToast kind text]) w).

Definition localStorage_setItem (key : string) (v : LSValue) : M World unit :=
  modify (fun w => with_localStorage (<[key := v]> (localStorage w)) w).

Definition localStorage_removeItem (key : string) : M World unit :=
  modify (fun w => with_localStorage (delete key (localStorage w)) w).

Definition record_call (c : AuthCall) : M World unit :=
  modify (fun w => with_authCalls (authCalls w ++ [c]) w).

Definition auth_createUser (env : Env) (email password : string) : M World string :=
  record_call (CreateUser email password) >>
  match createUserWithEmailAndPassword env email password with
  | Returned uid => modify (with_currentUser (Some uid)) >> ret uid
  | Thrown e => throw e
  end.

Definition auth_signIn (env : Env) (email : JsValue) (password : string) : M World string :=
  record_call (SignIn email password) >>
  match signInWithEmailAndPassword env email password with
  | Returned uid => modify (with_currentUser (Some uid)) >> ret uid
  | Thrown e => throw e
  end.

Definition auth_signOut (env : Env) : M World unit :=
  record_call SignOut >>
  match signOut_rejects env with
  | None => modify (with_currentUser None)
  | Some e => throw e
  end.

(** ** The profile helpers of [firebase-services] *)

Module FirebaseServices.

Definition ADMIN_UID : string := "IlrRPiSdkJdtwHpnmTk1E0Q2X3f1".

(** [setDoc(doc(db, 'user_profiles', id), data, { merge: true })]: the
    fields of [data] are written, every other field of an existing
    document is kept. *)
Definition merge_into (id : string) (data : Doc) (profiles : gmap string Doc)
  : gmap string Doc :=
  <[id := data ∪ default ∅ (profiles !! id)]> profiles.

Definition setDoc_merge (env : Env) (id : string) (data : Doc) : M World unit :=
  match setDoc_rejects env with
  | Some e => throw e
  | None => modify (fun w => with_user_profiles (merge_into id data (user_profiles w)) w)
  end.

(** [getDoc(doc(db, 'user_profiles', id))]; [None] when the snapshot
    does not exist. *)
Definition getDoc (env : Env) (id : string) : M World (option Doc) :=
  match getDoc_rejects env with
  | Some e => throw e
  | None => fun w => (w, Returned (user_profiles w !! id))
  end.

Definition ensureUserProfileExists_data
  (env : Env) (userId : string) (profileData : option Doc) : Doc :=
  object [ Field "uid" (VStr userId);
           Spread (default ∅ profileData);
           Field "verified"
             (nullish (default ∅ profileData !! "verified") (VBool false));
           Field "updatedAt" (VTime (serverTimestamp env));
           Field "createdAt" (VTime (serverTimestamp env)) ].

Definition ensureUserProfileExists
  (env : Env) (userId : string) (profileData : option Doc) : M World unit :=
  try_catch
    (setDoc_merge env userId (ensureUserProfileExists_data env userId profileData))
    (fun error => throw error).

Definition saveUserProfile_data (env : Env) (userId : string) (profileData : Doc) : Doc :=
  object [ Field "uid" (VStr userId);
           Spread profileData;
           Field "updatedAt" (VTime (serverTimestamp env)) ].

Definition saveUserProfile
  (env : Env) (userId : string) (profileData : Doc) : M World unit :=
  try_catch
    (setDoc_merge env userId (saveUserProfile_data env userId profileData))
    (fun error => throw error).

Definition getUserProfileData (env : Env) (userId : string) : M World (option Doc) :=
  try_catch (getDoc env userId) (fun _ => ret None).

(** The documents of [user_profiles] whose [phoneNumber] is the given
    string, as [query(..., where('phoneNumber', '==', phoneNumber))]
    selects them. *)
Definition where_phoneNumber (phoneNumber : string) (profiles : gmap string Doc)
  : list (string * Doc) :=
  List.filter
    (fun p => bool_decide (snd p !! "phoneNumber" = Some (VStr phoneNumber)))
    (map_to_list profiles).

(** [querySnapshot.docs[0]]: without [orderBy] the documents come in the
    order of their ids. *)
Fixpoint first_doc (docs : list (string * Doc)) : option (string * Doc) :=
  match docs with
  | [] => None
  | p :: rest =>
      match first_doc rest with
      | None => Some p
      | Some q => if String.ltb (fst q) (fst p) then Some q else Some p
      end
  end.

Record FoundUser : Type := mkFound { found_uid : JsValue; found_email : JsValue }.

Definition findUserByPhoneNumber (env : Env) (phoneNumber : string)
  : M World (option FoundUser) :=
  try_catch
    (match getDocs_rejects env with
     | Some e => throw e
     | None =>
         fun w =>
           (w, Returned
                 match first_doc (where_phoneNumber phoneNumber (user_profiles w)) with
                 | None => None
                 | Some (id, data) =>
                     Some (mkFound
                             (if truthy (data !! "uid") then data !! "uid"
                              else Some (VStr id))
                             (data !! "email"))
                 end)
     end)
    (fun _ => ret None).

(** [isUserAdmin]: the privilege mark of a Profile Record; a missing
    record and a failed read both answer [false]. *)
Definition isUserAdmin (env : Env) (userId : string) : M World bool :=
  try_catch
    (let* profileSnap := getDoc env userId in
     match profileSnap with
     | Some data =>
         ret (bool_decide (data !! "role" = Some (VStr "admin"))
              || bool_decide (data !! "isAdmin" = Some (VBool true)))
     | None => ret false
     end)
    (fun _ => ret false).

End FirebaseServices.

(** ** The account helpers of [auth-helpers] *)

Module AuthHelpers.
Import FirebaseServices.

Record SignUpData : Type := mkSignUpData {
  sd_email : string;
  sd_password : string;
  sd_phoneNumber : string
}.

Record SignInData : Type := mkSignInData {
  si_email : string;
  si_password : string
}.

(** [setDoc(doc(db, 'user_profiles', id), data)] without [merge]: the
    document becomes [data]. *)
Definition setDoc (env : Env) (id : string) (data : Doc) : M World unit :=
  match setDoc_rejects env with
  | Some e => throw e
  | None => modify (fun w => with_user_profiles (<[id := data]> (user_profiles w)) w)
  end.

(** The [catch] of [signUpUser]. *)
Definition signUp_error (error : JsError) : JsError :=
  if bool_decide (err_code error = Some "auth/email-already-in-use") then
    Error "Email already registered. Please sign in instead."
  else if bool_decide (err_code error = Some "auth/weak-password") then
    Error "Password is too weak. Please use at least 6 characters."
  else if bool_decide (err_code error = Some "auth/invalid-email") then
    Error "Invalid email address."
  else if bool_decide (err_code error = Some "auth/network-request-failed") then
    Error "Network error. Please check your internet connection."
  else Error (message_or error "Sign up failed. Please try again.").

(** [signUpUser]; the credential it returns is represented by its
    identifier. *)
Definition signUpUser (env : Env) (data : SignUpData) : M World string :=
  try_catch
    (if String.eqb (sd_email data) "" || String.eqb (sd_password data) ""
        || String.eqb (sd_phoneNumber data) ""
     then throw (Error "Email, password, and phone number are required")
     else
       let* uid := auth_createUser env (Js.trim (sd_email data)) (sd_password data) in
       setDoc env uid
         (object [ Field "uid" (VStr uid);
                   Field "email" (VStr (Js.trim (sd_email data)));
                   Field "phoneNumber" (VStr (Js.trim (sd_phoneNumber data)));
                   Field "createdAt" (VTime (serverTimestamp env));
                   Field "updatedAt" (VTime (serverTimestamp env)) ]) >>
       toast ToastSuccess "Account created successfully!" >>
       ret uid)
    (fun error => throw (signUp_error error)).

(** The [catch] of [signInUser]. *)
Definition signIn_error (error : JsError) : JsError :=
  if bool_decide (err_code error = Some "auth/user-not-found")
     || bool_decide (err_code error = Some "auth/wrong-password") then
    Error "Invalid email or password."
  else if bool_decide (err_code error = Some "auth/invalid-email") then
    Error "Invalid email address."
  else if bool_decide (err_code error = Some "auth/network-request-failed") then
    Error "Network error. Please check your internet connection."
  else Error (message_or error "Sign in failed. Please try again.").

Definition NoAccountError : JsError := Error "No account found. Please sign up first.".

Definition signInUser (env : Env) (data : SignInData) : M World string :=
  try_catch
    (if String.eqb (si_email data) "" || String.eqb (si_password data) ""
     then throw (Error "Email and password are required")
     else
       let* uid := auth_signIn env (Some (VStr (Js.trim (si_email data)))) (si_password data) in
       let* userSnap := getDoc env uid in
       match userSnap with
       | None => auth_signOut env >> throw NoAccountError
       | Some _ => toast ToastSuccess "Signed in successfully!" >> ret uid
       end)
    (fun error => throw (signIn_error error)).

Definition getUserProfileFromFirestore (env : Env) (uid : string) : M World (option Doc) :=
  try_catch (getDoc env uid) (fun _ => ret None).

Definition signOutUser (env : Env) : M World unit :=
  try_catch
    (auth_signOut env >> toast ToastSuccess "Signed out successfully!")
    (fun _ => throw (Error "Failed to sign out.")).

End AuthHelpers.

(** ** The customer flow: [UserAuthProvider] *)

Module UserAuthContext.
Import FirebaseServices.

Definition USER_AUTH_STORAGE_KEY : string := "wirebazaar-user".
Definition USER_OTP_STORAGE_KEY : string := "wirebazaar-otp".

Record PendingOTP : Type := mkPendingOTP {
  otpHash : string;
  expiresAt : Z;
  attempts : Z;
  userId : string;
  phoneNumber : string
}.

Record SignupData : Type := mkSignupData {
  su_fullName : string;
  su_email : string;
  su_password : string;
  su_phoneNumber : string
}.

(** The React state of the provider. *)
Record UserAuth : Type := mkUserAuth {
  user : option Doc;
  pendingOtp : option PendingOTP;
  isInitialized : bool;
  isSignup : bool;
  orders : list Doc;
  inquiries : list Doc;
  isLoadingUserData : bool
}.

Definition initial : UserAuth := mkUserAuth None None false false [] [] false.

Abbreviation St := (UserAuth * World)%type.

Definition put_user (x : option Doc) (c : UserAuth) : UserAuth :=
  mkUserAuth x (pendingOtp c) (isInitialized c) (isSignup c)
             (orders c) (inquiries c) (isLoadingUserData c).
Definition put_pendingOtp (x : option PendingOTP) (c : UserAuth) : UserAuth :=
  mkUserAuth (user c) x (isInitialized c) (isSignup c)
             (orders c) (inquiries c) (isLoadingUserData c).
Definition put_isInitialized (x : bool) (c : UserAuth) : UserAuth :=
  mkUserAuth (user c) (pendingOtp c) x (isSignup c)
             (orders c) (inquiries c) (isLoadingUserData c).
Definition put_isSignup (x : bool) (c : UserAuth) : UserAuth :=
  mkUserAuth (user c) (pendingOtp c) (isInitialized c) x
             (orders c) (inquiries c) (isLoadingUserData c).
Definition put_orders (x : list Doc) (c : UserAuth) : UserAuth :=
  mkUserAuth (user c) (pendingOtp c) (isInitialized c) (isSignup c)
             x (inquiries c) (isLoadingUserData c).
Definition put_inquiries (x : list Doc) (c : UserAuth) : UserAuth :=
  mkUserAuth (user c) (pendingOtp c) (isInitialized c) (isSignup c)
             (orders c) x (isLoadingUserData c).
Definition put_isLoadingUserData (x : bool) (c : UserAuth) : UserAuth :=
  mkUserAuth (user c) (pendingOtp c) (isInitialized c) (isSignup c)
             (orders c) (inquiries c) x.

Definition setUser (x : option Doc) : M St unit :=
  modify (fun s => (put_user x s.1, s.2)).
(** [setPendingOtp(prev => f(prev))] *)
Definition updatePendingOtp (f : option PendingOTP -> option PendingOTP) : M St unit :=
  modify (fun s => (put_pendingOtp (f (pendingOtp s.1)) s.1, s.2)).
Definition setPendingOtp (x : option PendingOTP) : M St unit :=
  modify (fun s => (put_pendingOtp x s.1, s.2)).
Definition setIsInitialized (x : bool) : M St unit :=
  modify (fun s => (put_isInitialized x s.1, s.2)).
Definition setIsSignup (x : bool) : M St unit :=
  modify (fun s => (put_isSignup x s.1, s.2)).
Definition setOrders (x : list Doc) : M St unit :=
  modify (fun s => (put_orders x s.1, s.2)).
Definition setInquiries (x : list Doc) : M St unit :=
  modify (fun s => (put_inquiries x s.1, s.2)).
Definition setIsLoadingUserData (x : bool) : M St unit :=
  modify (fun s => (put_isLoadingUserData x s.1, s.2)).

(** [isAuthenticated: Boolean(user && user.verified)] *)
Definition isAuthenticated (c : UserAuth) : bool :=
  match user c with
  | None => false
  | Some u => truthy (u !! "verified")
  end.

(** The two queries of [firebase-services] catch their own failures and
    return what they fetched, so [Promise.all] never rejects here. *)
Definition loadUserData (env : Env) (uid : string) : M St unit :=
  setIsLoadingUserData true >>
  try_finally
    (setOrders (fetchUserOrders env uid) >>
     setInquiries (fetchUserInquiries env uid))
    (setIsLoadingUserData false).

(** [{ id: uid, ...profileData }] *)
Definition profile_of (uid : string) (profileData : Doc) : Doc :=
  object [ Field "id" (VStr uid); Spread profileData ].

(** The callback registered with [onAuthStateChanged]. *)
Definition onAuthStateChanged (env : Env) (firebaseUser : option string) : M St unit :=
  match firebaseUser with
  | None => setOrders [] >> setInquiries [] >> setUser None
  | Some uid =>
      try_catch
        (let* profileData := liftW (getUserProfileData env uid) in
         match profileData with
         | Some d =>
             setUser (Some (profile_of uid d)) >>
             liftW (localStorage_setItem USER_AUTH_STORAGE_KEY (LSProfile (profile_of uid d))) >>
             loadUserData env uid
         | None => ret tt
         end)
        (fun _ => ret tt)
  end.

(** [10 * 60 * 1000] milliseconds *)
Definition OTP_LIFETIME : Z := 10 * 60 * 1000.

Definition signup (env : Env) (data : SignupData) : M St unit :=
  if negb (isValidEmail (su_email data)) then
    throw (Error "Please enter a valid email address.")
  else if negb (isValidPhone (su_phoneNumber data)) then
    throw (Error "Please enter a valid 10-digit phone number (India).")
  else if Z.of_nat (String.length (su_password data)) <? 6 then
    throw (Error "Password must be at least 6 characters.")
  else
    try_finally
      (try_catch
         (setIsSignup true >>
          let* uid :=
            try_catch
              (liftW (auth_createUser env (su_email data) (su_password data)))
              (fun error =>
                 if bool_decide (err_code error = Some "auth/email-already-in-use") then
                   try_catch
                     (liftW (auth_signIn env (Some (VStr (su_email data))) (su_password data)))
                     (fun _ =>
                        throw (Error "This email is already registered. Please log in with your password instead."))
                 else throw error) in
          liftW (ensureUserProfileExists env uid
                   (Some (object [ Field "fullName" (VStr (su_fullName data));
                                   Field "email" (VStr (su_email data));
                                   Field "phoneNumber" (VStr (su_phoneNumber data));
                                   Field "verified" (VBool false) ]))) >>
          setPendingOtp
            (Some (mkPendingOTP (hashOtp TEST_OTP) (Date_now env + OTP_LIFETIME) 0
                                uid (su_phoneNumber data))) >>
          liftW (localStorage_setItem USER_OTP_STORAGE_KEY
                   (LSPendingOtp uid (su_phoneNumber data))) >>
          liftW (toast ToastSuccess "OTP sent! Please verify your phone number."))
         (fun error => throw (Error (message_or error "Signup failed. Please try again."))))
      (setIsSignup false).

Definition NoPendingError : JsError := Error "No pending OTP verification.".
Definition ExpiredError : JsError := Error "OTP has expired. Please sign up again.".
Definition TooManyAttemptsError : JsError :=
  Error "Too many incorrect attempts. Please sign up again.".
Definition FormatError : JsError := Error "Enter the 6-digit OTP.".
Definition IncorrectCodeError : JsError := Error "Incorrect OTP. Please try again.".

Definition bump_attempts (prev : option PendingOTP) : option PendingOTP :=
  match prev with
  | Some p =>
      Some (mkPendingOTP (otpHash p) (expiresAt p) (attempts p + 1) (userId p) (phoneNumber p))
  | None => None
  end.

Definition verifyOtp (env : Env) (otp : string) : M St unit :=
  fun s =>
    match pendingOtp s.1 with
    | None => throw NoPendingError s
    | Some pending =>
        (if expiresAt pending <? Date_now env then
           setPendingOtp None >> throw ExpiredError
         else if 4 <=? attempts pending then
           setPendingOtp None >> throw TooManyAttemptsError
         else if negb (Js.test OTP_RE (Js.trim otp)) then
           throw FormatError
         else
           try_catch
             (let candidateHash := hashOtp (Js.trim otp) in
              (if negb (String.eqb candidateHash (otpHash pending)) then
                 updatePendingOtp bump_attempts >> throw IncorrectCodeError
               else ret tt) >>
              liftW (ensureUserProfileExists env (userId pending)
                       (Some (object [ Field "phoneNumber" (VStr (phoneNumber pending));
                                       Field "verified" (VBool true) ]))) >>
              let* profileData := liftW (getUserProfileData env (userId pending)) in
              match profileData with
              | Some d =>
                  setUser (Some (profile_of (userId pending) d)) >>
                  liftW (localStorage_setItem USER_AUTH_STORAGE_KEY
                           (LSProfile (profile_of (userId pending) d)))
              | None => ret tt
              end >>
              loadUserData env (userId pending) >>
              setPendingOtp None >>
              liftW (localStorage_removeItem USER_OTP_STORAGE_KEY) >>
              liftW (toast ToastSuccess "Phone verified successfully!"))
             (fun error => throw error)) s
    end.

Definition NotFoundError : JsError :=
  Error "No account found with this phone number. Please sign up first.".
Definition InvalidCredentialsError : JsError :=
  Error "Invalid email/phone number or password.".

Definition login (env : Env) (emailOrPhone password : string) : M St unit :=
  try_catch
    (let* email :=
       if negb (isValidEmail emailOrPhone) then
         if isValidPhone emailOrPhone then
           let* foundUser := liftW (findUserByPhoneNumber env (Js.trim emailOrPhone)) in
           match foundUser with
           | None => throw NotFoundError
           | Some found => ret (found_email found)
           end
         else throw (Error "Please enter a valid email address or phone number.")
       else ret (Some (VStr (Js.trim emailOrPhone))) in
     let* uid := liftW (auth_signIn env email password) in
     let* profileData := liftW (getUserProfileData env uid) in
     match profileData with
     | Some d =>
         if truthy (d !! "verified") then
           setUser (Some (profile_of uid d)) >>
           liftW (localStorage_setItem USER_AUTH_STORAGE_KEY (LSProfile (profile_of uid d))) >>
           loadUserData env uid
         else ret tt
     | None => ret tt
     end >>
     liftW (toast ToastSuccess "Login successful!"))
    (fun error =>
       if bool_decide (err_code error = Some "auth/user-not-found")
          || bool_decide (err_code error = Some "auth/wrong-password")
       then throw InvalidCredentialsError
       else throw (Error (message_or error "Login failed. Please try again."))).

(** [signOut(auth).catch(() => {})]: a failed sign-out is swallowed. *)
Definition logout (env : Env) : M St unit :=
  setUser None >>
  setOrders [] >>
  setInquiries [] >>
  setPendingOtp None >>
  liftW (localStorage_removeItem USER_AUTH_STORAGE_KEY) >>
  liftW (localStorage_removeItem USER_OTP_STORAGE_KEY) >>
  liftW (try_catch (auth_signOut env) (fun _ => ret tt)) >>
  liftW (toast ToastInfo "You have been logged out.").

End UserAuthContext.

(** ** The admin flow: [OwnerAuthProvider] (in a browser: [window] is defined) *)

Module OwnerAuthContext.
Import FirebaseServices.

Definition OWNER_AUTH_STORAGE_KEY : string := "owner-dashboard-authenticated".
Definition OWNER_UID_KEY : string := "owner-uid".
Definition ID_TOKEN_KEY : string := "firebase_id_token".

(** The React state of the provider.  [userId] is a string read from
    [localStorage] or a storage event, or [ADMIN_UID]. *)
Record OwnerAuth : Type := mkOwnerAuth {
  isAuthenticated : bool;
  userId : option LSValue;
  isInitialized : bool
}.

Abbreviation St := (OwnerAuth * World)%type.

Definition put_isAuthenticated (x : bool) (c : OwnerAuth) : OwnerAuth :=
  mkOwnerAuth x (userId c) (isInitialized c).
Definition put_userId (x : option LSValue) (c : OwnerAuth) : OwnerAuth :=
  mkOwnerAuth (isAuthenticated c) x (isInitialized c).
Definition put_isInitialized (x : bool) (c : OwnerAuth) : OwnerAuth :=
  mkOwnerAuth (isAuthenticated c) (userId c) x.

Definition setIsAuthenticated (x : bool) : M St unit :=
  modify (fun s => (put_isAuthenticated x s.1, s.2)).
Definition setUserId (x : option LSValue) : M St unit :=
  modify (fun s => (put_userId x s.1, s.2)).
Definition setIsInitialized (x : bool) : M St unit :=
  modify (fun s => (put_isInitialized x s.1, s.2)).

(** The initial state, from the [useState] initialisers. *)
Definition mount (w : World) : OwnerAuth :=
  mkOwnerAuth
    (bool_decide (localStorage w !! OWNER_AUTH_STORAGE_KEY = Some (LSText "true")))
    (localStorage w !! OWNER_UID_KEY)
    false.

(** [isAdmin: isAuthenticated && userId === ADMIN_UID] *)
Definition isAdmin (c : OwnerAuth) : bool :=
  isAuthenticated c && bool_decide (userId c = Some (LSText ADMIN_UID)).

Record StorageEvent : Type := mkStorageEvent {
  ev_key : option string;
  ev_newValue : option LSValue
}.

Definition handleStorage (event : StorageEvent) : M St unit :=
  (if bool_decide (ev_key event = Some OWNER_AUTH_STORAGE_KEY)
   then setIsAuthenticated (bool_decide (ev_newValue event = Some (LSText "true")))
   else ret tt) >>
  (if bool_decide (ev_key event = Some OWNER_UID_KEY)
   then setUserId (ev_newValue event)
   else ret tt).

(** [data.role === "admin" || data.isAdmin === true] *)
Definition marked_admin (data : Doc) : bool :=
  bool_decide (data !! "role" = Some (VStr "admin"))
  || bool_decide (data !! "isAdmin" = Some (VBool true)).

(** [getIdToken()] with its own [try]/[catch]: a token is cached when
    there is one, a failure is only logged. *)
Definition cache_id_token (env : Env) : M St unit :=
  try_catch
    (match getIdToken env with
     | Returned idToken =>
         if negb (String.eqb idToken "")
         then liftW (localStorage_setItem ID_TOKEN_KEY (LSText idToken))
         else ret tt
     | Thrown e => throw e
     end)
    (fun _ => ret tt).

(** The callback registered with [onAuthStateChanged]. *)
Definition onAuthStateChanged (env : Env) (firebaseUser : option string) : M St unit :=
  match firebaseUser with
  | None => setIsInitialized true
  | Some uid =>
      try_finally
        (try_catch
           (fun s =>
              let stored := localStorage s.2 !! OWNER_AUTH_STORAGE_KEY in
              (if bool_decide (stored = Some (LSText "true")) && String.eqb uid ADMIN_UID then
                 let* adminSnap := liftW (getDoc env ADMIN_UID) in
                 match adminSnap with
                 | Some data =>
                     if marked_admin data then
                       cache_id_token env >>
                       setUserId (Some (LSText ADMIN_UID)) >>
                       liftW (localStorage_setItem OWNER_UID_KEY (LSText ADMIN_UID)) >>
                       setIsAuthenticated true
                     else ret tt
                 | None => ret tt
                 end
               else ret tt) s)
           (fun _ => ret tt))
        (setIsInitialized true)
  end.

Definition NOT_AUTHORIZED : string :=
  "Only the admin account can access the admin dashboard.".

Definition login (env : Env) (email password : string) : M St bool :=
  try_catch
    (let* uid := liftW (auth_signIn env (Some (VStr (Js.trim email))) (Js.trim password)) in
     if negb (String.eqb uid ADMIN_UID) then
       liftW (auth_signOut env) >>
       liftW (toast ToastError NOT_AUTHORIZED) >>
       ret false
     else
       let* adminSnap := liftW (getDoc env ADMIN_UID) in
       (if match adminSnap with
           | None => true
           | Some data =>
               negb (bool_decide (data !! "role" = Some (VStr "admin")))
               && negb (bool_decide (data !! "isAdmin" = Some (VBool true)))
           end
        then
          liftW (setDoc_merge env ADMIN_UID
                   (object [ Field "uid" (VStr ADMIN_UID);
                             Field "email" (VStr (Js.trim email));
                             Field "role" (VStr "admin");
                             Field "isAdmin" (VBool true);
                             Field "createdAt" (VTime (serverTimestamp env));
                             Field "updatedAt" (VTime (serverTimestamp env)) ]))
        else
          liftW (setDoc_merge env ADMIN_UID
                   (object [ Field "uid" (VStr ADMIN_UID);
                             Field "lastLoginAt" (VTime (serverTimestamp env));
                             Field "updatedAt" (VTime (serverTimestamp env)) ]))) >>
       cache_id_token env >>
       setUserId (Some (LSText ADMIN_UID)) >>
       setIsAuthenticated true >>
       liftW (localStorage_setItem OWNER_AUTH_STORAGE_KEY (LSText "true")) >>
       liftW (localStorage_setItem OWNER_UID_KEY (LSText ADMIN_UID)) >>
       liftW (toast ToastSuccess "Admin login successful") >>
       ret true)
    (fun error =>
       (if bool_decide (err_code error = Some "auth/user-not-found")
           || bool_decide (err_code error = Some "auth/wrong-password")
        then liftW (toast ToastError "Invalid email or password.")
        else liftW (toast ToastError "Admin login failed. Please try again.")) >>
       ret false).

Definition logout (env : Env) : M St unit :=
  setIsAuthenticated false >>
  setUserId None >>
  liftW (localStorage_removeItem OWNER_AUTH_STORAGE_KEY) >>
  liftW (localStorage_removeItem OWNER_UID_KEY) >>
  liftW (localStorage_removeItem ID_TOKEN_KEY) >>
  liftW (try_catch (auth_signOut env) (fun _ => ret tt)) >>
  liftW (toast ToastInfo "Admin logged out").

(** What can happen to a mounted provider.  A change of [localStorage]
    made by another document of the same origin updates the shared
    storage area and is delivered as a storage event: one that names the
    key when an item is set or removed, one with [key = null] and
    [newValue = null] when the other document calls
    [localStorage.clear()]. *)
Inductive Event : Type :=
| Login (email password : string)
| Logout
| AuthStateChanged (firebaseUser : option string)
| StorageChanged (key : string) (newValue : option LSValue)
| StorageCleared.

Definition external_write (key : string) (newValue : option LSValue) : M World unit :=
  match newValue with
  | Some v => localStorage_setItem key v
  | None => localStorage_removeItem key
  end.

Definition external_clear : M World unit :=
  modify (with_localStorage ∅).

Definition step (env : Env) (ev : Event) (s : St) : St :=
  match ev with
  | Login email password => (login env email password s).1
  | Logout => (logout env s).1
  | AuthStateChanged firebaseUser => (onAuthStateChanged env firebaseUser s).1
  | StorageChanged key newValue =>
      ((liftW (external_write key newValue) >>
        handleStorage (mkStorageEvent (Some key) newValue)) s).1
  | StorageCleared =>
      ((liftW external_clear >> handleStorage (mkStorageEvent None None)) s).1
  end.

End OwnerAuthContext.

(** ** Vocabulary of the statements *)

Fixpoint all_chars (p : ascii -> bool) (s : string) : bool :=
  match s with
  | EmptyString => true
  | String c s' => p c && all_chars p s'
  end.

(** A string of exactly six decimal digits. *)
Definition six_digits (s : string) : bool :=
  (String.length s =? 6)%nat && all_chars Js.digit s.

(** A valid phone number written without separators: ten digits, the
    first one from 6 to 9. *)
Definition ten_digit_phone (s : string) : bool :=
  match s with
  | EmptyString => false
  | String c s' => Js.in_range "6" "9" c && (String.length s' =? 9)%nat && all_chars Js.digit s'
  end.

(** The outcomes of a series of [verifyOtp] calls, each on the state the
    previous one left. *)
Fixpoint verifyOtp_calls (calls : list (Env * string)) (s : UserAuthContext.St)
  : UserAuthContext.St * list (Outcome unit) :=
  match calls with
  | [] => (s, [])
  | (env, otp) :: rest =>
      let r := UserAuthContext.verifyOtp env otp s in
      let rs := verifyOtp_calls rest r.1 in
      (rs.1, r.2 :: rs.2)
  end.

(** A call made before the expiry with six digits that hash to something
    else than what is stored. *)
Definition wrong_call (p : UserAuthContext.PendingOTP) (call : Env * string) : Prop :=
  Date_now call.1 <= UserAuthContext.expiresAt p /\
  six_digits call.2 = true /\
  hashOtp call.2 <> UserAuthContext.otpHash p.

(** A Pending Verification issued at instant [T]. *)
Definition issued_at (T : Z) (p : UserAuthContext.PendingOTP) : Prop :=
  UserAuthContext.expiresAt p = T + UserAuthContext.OTP_LIFETIME.

(** The backend hands out [uid] for the credential of a signup: it
    creates the credential, or it reports the email as registered and
    then accepts the password. *)
Definition backend_grants (env : Env) (data : UserAuthContext.SignupData) (uid : string)
  : Prop :=
  createUserWithEmailAndPassword env
    (UserAuthContext.su_email data) (UserAuthContext.su_password data) = Returned uid
  \/
  (exists e,
     createUserWithEmailAndPassword env
       (UserAuthContext.su_email data) (UserAuthContext.su_password data) = Thrown e /\
     err_code e = Some "auth/email-already-in-use" /\
     signInWithEmailAndPassword env
       (Some (VStr (UserAuthContext.su_email data))) (UserAuthContext.su_password data)
     = Returned uid).

(** The world after the upsert that a matching [verifyOtp] makes for the
    Pending Verification [p]. *)
Definition after_verify_upsert (env : Env) (p : UserAuthContext.PendingOTP) (w : World)
  : World :=
  (FirebaseServices.ensureUserProfileExists env (UserAuthContext.userId p)
     (Some (object [ Field "phoneNumber" (VStr (UserAuthContext.phoneNumber p));
                     Field "verified" (VBool true) ])) w).1.

(** A backend in which every call succeeds: the clock reads [t], every
    credential resolves to [uid]. *)
Definition calm (t : Z) (uid : string) : Env :=
  mkEnv t t (fun _ _ => Returned uid) (fun _ _ => Returned uid)
        None None None None (Returned "token") (fun _ => []) (fun _ => []).

Definition empty_world : World := mkWorld ∅ None ∅ [] [].

Definition asha : UserAuthContext.SignupData :=
  UserAuthContext.mkSignupData "Asha" "a@b.com" "secret1" "9876543210".

(** The state right after [asha] signed up at instant 0. *)
Definition asha_signed_up : UserAuthContext.St :=
  (UserAuthContext.signup (calm 0 "uid-1") asha (UserAuthContext.initial, empty_world)).1.

(** [asha] verified one second after signing up, and then logged out. *)
Definition asha_verified : UserAuthContext.St :=
  (UserAuthContext.verifyOtp (calm 1000 "uid-1") "123456" asha_signed_up).1.

Definition asha_logged_out : UserAuthContext.St :=
  (UserAuthContext.logout (calm 2000 "uid-1") asha_verified).1.

(** A read of one field of the Profile Record [id]. *)
Definition field (profiles : gmap string Doc) (id k : string) : JsValue :=
  profiles !! id ≫= (fun d => d !! k).

(** Another account and the admin account at the backend: the admin
    address resolves to [ADMIN_UID], every other one to ["uid-2"]. *)
Definition admin_backend (t : Z) : Env :=
  mkEnv t t
        (fun _ _ => Returned "uid-2")
        (fun email _ =>
           if bool_decide (email = Some (VStr "owner@cablehq.com"))
           then Returned FirebaseServices.ADMIN_UID
           else Returned "uid-2")
        None None None None (Returned "token") (fun _ => []) (fun _ => []).

(** A freshly mounted admin provider over an empty world, and the same
    after the admin logged in. *)
Definition owner_mounted : OwnerAuthContext.St :=
  (OwnerAuthContext.mount empty_world, empty_world).

Definition owner_logged_in : OwnerAuthContext.St :=
  OwnerAuthContext.step (admin_backend 0)
    (OwnerAuthContext.Login "owner@cablehq.com" "admin-pass") owner_mounted.


(** The in-memory Admin Session Record mirrors the cached one. *)
Definition mirrors_cache (s : OwnerAuthContext.St) : Prop :=
  OwnerAuthContext.isAuthenticated s.1
  = bool_decide (localStorage s.2 !! OwnerAuthContext.OWNER_AUTH_STORAGE_KEY
                 = Some (LSText "true")) /\
  OwnerAuthContext.userId s.1 = localStorage s.2 !! OwnerAuthContext.OWNER_UID_KEY.


(** The strings a regular expression denotes. *)
Inductive Matches : Js.regex -> string -> Prop :=
| MEps : Matches Js.Eps ""
| MCls p c : p c = true -> Matches (Js.Cls p) (String c "")
| MSeq r1 r2 s1 s2 :
    Matches r1 s1 -> Matches r2 s2 -> Matches (Js.Seq r1 r2) (s1 ++ s2)
| MAltL r1 r2 s : Matches r1 s -> Matches (Js.Alt r1 r2) s
| MAltR r1 r2 s : Matches r2 s -> Matches (Js.Alt r1 r2) s
| MStar0 r : Matches (Js.Star r) ""
| MStarS r s1 s2 :
    Matches r s1 -> Matches (Js.Star r) s2 -> Matches (Js.Star r) (s1 ++ s2).

(** Every character class of [r] lies within [P]. *)
Fixpoint classes_within (P : ascii -> bool) (r : Js.regex) : Prop :=
  match r with
  | Js.Void | Js.Eps => True
  | Js.Cls p => forall c, p c = true -> P c = true
  | Js.Seq r1 r2 | Js.Alt r1 r2 => classes_within P r1 /\ classes_within P r2
  | Js.Star r1 => classes_within P r1
  end.

(** Number of occurrences of a character. *)
Fixpoint count_char (x : ascii) (s : string) : nat :=
  match s with
  | EmptyString => 0
  | String c s' => (if Ascii.eqb x c then 1 else 0) + count_char x s'
  end.

(** The 64 characters of a SHA-256 digest in lower-case hexadecimal. *)
Definition hex_char (c : ascii) : bool := Js.digit c || Js.in_range "a" "f" c.

(** * Properties *)

(** ** Strings and regular expressions *)

Section RegexFacts.
Import Js.

Lemma test_Void s : test Void s = false.
Proof. induction s as [|c s IH]; [reflexivity | exact IH]. Qed.

Lemma test_Seq_Void r s : test (Seq Void r) s = false.
Proof. induction s as [|c s IH]; [reflexivity | exact IH]. Qed.

Lemma test_Eps s : test Eps s = match s with EmptyString => true | String _ _ => false end.
Proof. destruct s as [|c s]; [reflexivity | apply test_Void]. Qed.

Lemma test_Alt r1 r2 s : test (Alt r1 r2) s = test r1 s || test r2 s.
Proof.
  revert r1 r2. induction s as [|c s IH]; intros r1 r2; cbn [test deriv nullable].
  - reflexivity.
  - apply IH.
Qed.

Lemma test_Seq_Eps r s : test (Seq Eps r) s = test r s.
Proof.
  destruct s as [|c s]; cbn [test deriv nullable andb]; [reflexivity |].
  now rewrite test_Alt, test_Seq_Void.
Qed.

Lemma test_Seq_Cls p r s :
  test (Seq (Cls p) r) s =
  match s with
  | EmptyString => false
  | String c s' => p c && test r s'
  end.
Proof.
  destruct s as [|c s]; [reflexivity |].
  cbn [test deriv nullable]. destruct (p c); cbn [andb].
  - apply test_Seq_Eps.
  - apply test_Seq_Void.
Qed.

Lemma test_Rep_Cls n p s :
  test (Rep n (Cls p)) s = (String.length s =? n)%nat && all_chars p s.
Proof.
  revert s. induction n as [|n IH]; intros s; cbn [Rep].
  - rewrite test_Eps. destruct s; reflexivity.
  - rewrite test_Seq_Cls. destruct s as [|c s]; [reflexivity |].
    rewrite IH. cbn [String.length all_chars Nat.eqb].
    destruct (p c), (String.length s =? n)%nat; reflexivity.
Qed.

Lemma digit_not_space c : digit c = true -> is_space c = false.
Proof.
  destruct c as [[] [] [] [] [] [] [] []]; vm_compute; congruence.
Qed.

Lemma trimEnd_id p s :
  (forall c, p c = true -> is_space c = false) ->
  all_chars p s = true -> trimEnd s = s.
Proof.
  intros Hp. induction s as [|c s IH]; cbn [all_chars trimEnd]; [reflexivity |].
  intros H. apply andb_prop in H as [Hc Hs].
  rewrite (IH Hs). destruct s; [| reflexivity].
  now rewrite (Hp c Hc).
Qed.

Lemma trim_id p s :
  (forall c, p c = true -> is_space c = false) ->
  all_chars p s = true -> trim s = s.
Proof.
  intros Hp H. unfold trim.
  assert (trimStart s = s) as ->.
  { destruct s as [|c s]; [reflexivity |].
    cbn [all_chars] in H. apply andb_prop in H as [Hc _].
    cbn [trimStart]. now rewrite (Hp c Hc). }
  now apply (trimEnd_id p).
Qed.

End RegexFacts.

(** The format check of [verifyOtp] accepts exactly the strings of six
    decimal digits. *)
Lemma OTP_RE_spec s : Js.test OTP_RE s = six_digits s.
Proof. unfold OTP_RE, six_digits. apply test_Rep_Cls. Qed.

Lemma trim_six_digits s : six_digits s = true -> Js.trim s = s.
Proof.
  unfold six_digits. intros H. apply andb_prop in H as [_ H].
  exact (trim_id Js.digit s digit_not_space H).
Qed.
Example hashOtp_abc :
  hashOtp "abc" = "ba7816bf8f01cfea414140de5dae2223b00361a396177a9cb410ff61f20015ad".
Proof. vm_compute. reflexivity. Qed.

Example hashOtp_two_blocks :
  hashOtp "abcdbcdecdefdefgefghfghighijhijkijkljklmklmnlmnomnopnopq"
  = "248d6a61d20638b8e5c026930c3e6039a33ce45964ff2167f6ecedd419db06c1".
Proof. vm_compute. reflexivity. Qed.

Example hashOtp_test_otp :
  hashOtp TEST_OTP = "8d969eef6ecad3c29a3a629280e686cf0c3f5d5a86aff3ca12020c923adc6c92".
Proof. vm_compute. reflexivity. Qed.

Example isValidEmail_ok : isValidEmail " a@b.com " = true.
Proof. vm_compute. reflexivity. Qed.

Example isValidEmail_short_tld : isValidEmail "a@b.c" = false.
Proof. vm_compute. reflexivity. Qed.

Example isValidEmail_no_dot : isValidEmail "a@bcom" = false.
Proof. vm_compute. reflexivity. Qed.

Example isValidPhone_ok : isValidPhone "9876543210" = true.
Proof. vm_compute. reflexivity. Qed.

Example isValidPhone_separators : isValidPhone " 98765-432 10" = true.
Proof. vm_compute. reflexivity. Qed.

Example isValidPhone_leading : isValidPhone "5876543210" = false.
Proof. vm_compute. reflexivity. Qed.


(** ** The customer flow *)

Module UserAuthFacts.
Import FirebaseServices UserAuthContext.

(** Unfolds the plumbing of a call: the monad, the setters and the
    field updates; the helpers of [firebase-services], the hasher and the
    maps stay folded. *)
Ltac run :=
  cbv beta iota zeta delta
    [bind ret throw try_catch try_finally modify liftW fst snd
     setUser updatePendingOtp setPendingOtp setIsInitialized setIsSignup
     setOrders setInquiries setIsLoadingUserData loadUserData
     put_user put_pendingOtp put_isInitialized put_isSignup
     put_orders put_inquiries put_isLoadingUserData bump_attempts
     toast localStorage_setItem localStorage_removeItem record_call
     with_user_profiles with_currentUser with_localStorage with_toasts with_authCalls];
  cbn [user pendingOtp isInitialized isSignup orders inquiries isLoadingUserData
       otpHash expiresAt attempts userId phoneNumber
       user_profiles currentUser localStorage toasts authCalls].

Lemma verifyOtp_no_pending env otp c w :
  pendingOtp c = None ->
  verifyOtp env otp (c, w) = ((c, w), Thrown NoPendingError).
Proof. intros Hp. unfold verifyOtp. cbn [fst snd]. now rewrite Hp. Qed.

Lemma verifyOtp_expired env otp c w p :
  pendingOtp c = Some p ->
  expiresAt p < Date_now env ->
  verifyOtp env otp (c, w) = ((put_pendingOtp None c, w), Thrown ExpiredError).
Proof.
  intros Hp He. unfold verifyOtp. cbn [fst snd]. rewrite Hp.
  destruct (Z.ltb_spec (expiresAt p) (Date_now env)) as [_|?]; [| lia].
  reflexivity.
Qed.

Lemma verifyOtp_too_many env otp c w p :
  pendingOtp c = Some p ->
  Date_now env <= expiresAt p ->
  4 <= attempts p ->
  verifyOtp env otp (c, w) = ((put_pendingOtp None c, w), Thrown TooManyAttemptsError).
Proof.
  intros Hp He Ha. unfold verifyOtp. cbn [fst snd]. rewrite Hp.
  destruct (Z.ltb_spec (expiresAt p) (Date_now env)) as [?|_]; [lia |].
  destruct (Z.leb_spec 4 (attempts p)) as [_|?]; [| lia].
  reflexivity.
Qed.

Lemma verifyOtp_format env otp c w p :
  pendingOtp c = Some p ->
  Date_now env <= expiresAt p ->
  attempts p < 4 ->
  Js.test OTP_RE (Js.trim otp) = false ->
  verifyOtp env otp (c, w) = ((c, w), Thrown FormatError).
Proof.
  intros Hp He Ha Hf. unfold verifyOtp. cbn [fst snd]. rewrite Hp.
  destruct (Z.ltb_spec (expiresAt p) (Date_now env)) as [?|_]; [lia |].
  destruct (Z.leb_spec 4 (attempts p)) as [?|_]; [lia |].
  rewrite Hf. reflexivity.
Qed.

Lemma verifyOtp_incorrect env otp c w p :
  pendingOtp c = Some p ->
  Date_now env <= expiresAt p ->
  attempts p < 4 ->
  Js.test OTP_RE (Js.trim otp) = true ->
  hashOtp (Js.trim otp) <> otpHash p ->
  verifyOtp env otp (c, w) =
  ((put_pendingOtp (bump_attempts (Some p)) c, w), Thrown IncorrectCodeError).
Proof.
  intros Hp He Ha Hf Hh. unfold verifyOtp. cbn [fst snd]. rewrite Hp.
  destruct (Z.ltb_spec (expiresAt p) (Date_now env)) as [?|_]; [lia |].
  destruct (Z.leb_spec 4 (attempts p)) as [?|_]; [lia |].
  rewrite Hf. apply String.eqb_neq in Hh. rewrite Hh. cbn [negb].
  cbv beta iota zeta delta
    [bind ret throw try_catch modify updatePendingOtp fst snd].
  now rewrite Hp.
Qed.

(** After the format check and with a matching hash the call can only
    fail where the directory write is rejected. *)
Lemma verifyOtp_match env otp c w p :
  pendingOtp c = Some p ->
  Date_now env <= expiresAt p ->
  attempts p < 4 ->
  Js.test OTP_RE (Js.trim otp) = true ->
  hashOtp (Js.trim otp) = otpHash p ->
  (verifyOtp env otp (c, w)).2 =
  match setDoc_rejects env with
  | Some e => Thrown e
  | None => Returned tt
  end.
Proof.
  intros Hp He Ha Hf Hh. unfold verifyOtp. cbn [fst snd]. rewrite Hp.
  destruct (Z.ltb_spec (expiresAt p) (Date_now env)) as [?|_]; [lia |].
  destruct (Z.leb_spec 4 (attempts p)) as [?|_]; [lia |].
  rewrite Hf, Hh, String.eqb_refl. cbn [negb].
  unfold ensureUserProfileExists, getUserProfileData, setDoc_merge, getDoc.
  destruct (setDoc_rejects env) as [e|]; [reflexivity |].
  destruct (getDoc_rejects env) as [e|]; [reflexivity |].
  run. unfold merge_into. rewrite lookup_insert_eq. reflexivity.
Qed.

Lemma verifyOtp_calls_wrong calls : forall c w p,
  pendingOtp c = Some p ->
  Forall (wrong_call p) calls ->
  attempts p + Z.of_nat (List.length calls) <= 4 ->
  let r := verifyOtp_calls calls (c, w) in
  r.2 = List.repeat (Thrown IncorrectCodeError) (List.length calls) /\
  r.1 = (put_pendingOtp
           (Some (mkPendingOTP (otpHash p) (expiresAt p)
                               (attempts p + Z.of_nat (List.length calls))
                               (userId p) (phoneNumber p))) c, w).
Proof.
  induction calls as [|[env otp] calls IH]; intros c w p Hp Hall Hn.
  - cbn. split; [reflexivity |].
    destruct c, p; cbn in *. subst. now rewrite Z.add_0_r.
  - apply Forall_cons in Hall as [(He & Hd & Hh) Hall]. cbn [fst snd] in He, Hd, Hh.
    cbn [List.length] in Hn.
    cbn [verifyOtp_calls].
    assert (Js.test OTP_RE (Js.trim otp) = true) as Hf
      by now rewrite (trim_six_digits otp Hd), OTP_RE_spec.
    rewrite <- (trim_six_digits otp Hd) in Hh.
    rewrite (verifyOtp_incorrect env otp c w p Hp He ltac:(lia) Hf Hh).
    cbn [fst snd bump_attempts].
    set (p' := mkPendingOTP _ _ _ _ _).
    specialize (IH (put_pendingOtp (Some p') c) w p' eq_refl).
    cbn [otpHash expiresAt attempts userId phoneNumber p'] in IH.
    destruct IH as [IH1 IH2]; [exact Hall | lia |].
    cbv zeta. cbn [fst snd]. rewrite IH1, IH2. cbn [List.length List.repeat].
    split; [reflexivity |].
    f_equal. unfold put_pendingOtp. cbn [user isInitialized isSignup orders inquiries isLoadingUserData].
    replace (attempts p + 1 + Z.of_nat (List.length calls))
      with (attempts p + Z.of_nat (S (List.length calls))) by lia.
    reflexivity.
Qed.

Lemma pendingOtp_put_pendingOtp x c : pendingOtp (put_pendingOtp x c) = x.
Proof. reflexivity. Qed.

Lemma user_put_pendingOtp x c : user (put_pendingOtp x c) = user c.
Proof. reflexivity. Qed.

Lemma isAuthenticated_put_pendingOtp x c :
  isAuthenticated (put_pendingOtp x c) = isAuthenticated c.
Proof. reflexivity. Qed.

(** C3, as the code has it.  Starting from a fresh Pending Verification,
    four consecutive [verifyOtp] calls with well-formed wrong codes each
    fail with [IncorrectCodeError] and leave the Pending Verification in
    place with four recorded attempts.  It is the fifth call, whatever
    its code, that fails with [TooManyAttemptsError] and discards the
    Pending Verification; only the sixth call fails with "no pending
    verification". *)
Theorem four_wrong_codes_then_too_many calls env5 otp5 env6 otp6 s p :
  pendingOtp s.1 = Some p ->
  attempts p = 0 ->
  List.length calls = 4%nat ->
  Forall (wrong_call p) calls ->
  Date_now env5 <= expiresAt p ->
  let r4 := verifyOtp_calls calls s in
  let r5 := verifyOtp env5 otp5 r4.1 in
  let r6 := verifyOtp env6 otp6 r5.1 in
  r4.2 = List.repeat (Thrown IncorrectCodeError) 4 /\
  pendingOtp r4.1.1 =
    Some (mkPendingOTP (otpHash p) (expiresAt p) 4 (userId p) (phoneNumber p)) /\
  r5.2 = Thrown TooManyAttemptsError /\
  pendingOtp r5.1.1 = None /\
  r6.2 = Thrown NoPendingError.
Proof.
  destruct s as [c w]. cbn [fst]. intros Hp H0 Hlen Hall He5.
  destruct (verifyOtp_calls_wrong calls c w p Hp Hall ltac:(lia)) as [H1 H2].
  rewrite Hlen in H1. rewrite Hlen, H0 in H2.
  change (0 + Z.of_nat 4) with 4 in H2.
  cbv zeta. rewrite H1, H2. cbn [fst snd].
  split; [reflexivity |]. split; [reflexivity |].
  set (p4 := mkPendingOTP _ _ _ _ _).
  rewrite (verifyOtp_too_many env5 otp5 (put_pendingOtp (Some p4) c) w p4 eq_refl He5)
    by (cbn; lia).
  cbn [fst snd]. split; [reflexivity |]. split; [reflexivity |].
  now rewrite verifyOtp_no_pending.
Qed.

Lemma four_wrong_codes_then_too_many_witness :
  let p := mkPendingOTP (hashOtp TEST_OTP) 600000 0 "uid-1" "9876543210" in
  let calls := List.repeat (calm 5 "uid-1", "000000") 4 in
  let r4 := verifyOtp_calls calls asha_signed_up in
  let r5 := verifyOtp (calm 6 "uid-1") "123456" r4.1 in
  let r6 := verifyOtp (calm 7 "uid-1") "123456" r5.1 in
  r4.2 = List.repeat (Thrown IncorrectCodeError) 4 /\
  pendingOtp r4.1.1 =
    Some (mkPendingOTP (otpHash p) (expiresAt p) 4 (userId p) (phoneNumber p)) /\
  r5.2 = Thrown TooManyAttemptsError /\
  pendingOtp r5.1.1 = None /\
  r6.2 = Thrown NoPendingError.
Proof.
  intros p calls.
  apply (four_wrong_codes_then_too_many calls
           (calm 6 "uid-1") "123456" (calm 7 "uid-1") "123456" asha_signed_up p).
  - vm_compute. reflexivity.
  - reflexivity.
  - reflexivity.
  - repeat apply Forall_cons_2; [..| apply Forall_nil_2];
      (split; [vm_compute; congruence | split; [reflexivity | vm_compute; congruence]]).
  - vm_compute. congruence.
Defined.

(** C3 as stated fails: after four wrong codes the Pending Verification
    is still there, and the fifth call does not report "no pending
    verification". *)
Lemma four_wrong_codes_keep_pending :
  let r4 := verifyOtp_calls (List.repeat (calm 5 "uid-1", "000000") 4) asha_signed_up in
  let r5 := verifyOtp (calm 6 "uid-1") "000000" r4.1 in
  r4.2 = List.repeat (Thrown IncorrectCodeError) 4 /\
  pendingOtp r4.1.1 <> None /\
  r5.2 = Thrown TooManyAttemptsError /\
  r5.2 <> Thrown NoPendingError.
Proof.
  vm_compute. repeat split; congruence.
Qed.

(** C4, as the code has it.  A Pending Verification issued at instant
    [T] makes every [verifyOtp] call at an instant strictly later than
    [T] plus ten minutes fail with [ExpiredError], whatever the code, and
    that call discards it.  ([signup] issues it with the instant of the
    call, see [signup_issues_pending].) *)
Theorem verifyOtp_after_expiry env otp s p T :
  pendingOtp s.1 = Some p ->
  issued_at T p ->
  T + 10 * 60 * 1000 < Date_now env ->
  let r := verifyOtp env otp s in
  r.2 = Thrown ExpiredError /\ pendingOtp r.1.1 = None.
Proof.
  destruct s as [c w]. cbn [fst]. intros Hp Hi Ht. unfold issued_at in Hi.
  cbv zeta. rewrite (verifyOtp_expired env otp c w p Hp).
  - split; reflexivity.
  - rewrite Hi. unfold OTP_LIFETIME. lia.
Qed.

Lemma verifyOtp_after_expiry_witness :
  let p := mkPendingOTP (hashOtp TEST_OTP) 600000 0 "uid-1" "9876543210" in
  let r := verifyOtp (calm 600001 "uid-1") "123456" asha_signed_up in
  r.2 = Thrown ExpiredError /\ pendingOtp r.1.1 = None.
Proof.
  intros p.
  apply (verifyOtp_after_expiry (calm 600001 "uid-1") "123456" asha_signed_up p 0).
  - vm_compute. reflexivity.
  - reflexivity.
  - vm_compute. reflexivity.
Defined.

(** C4 as stated fails at the boundary: ten minutes to the millisecond
    after the issuance the right code is still accepted. *)
Lemma verifyOtp_at_expiry_instant :
  let r := verifyOtp (calm (0 + 10 * 60 * 1000) "uid-1") "123456" asha_signed_up in
  (exists p, pendingOtp asha_signed_up.1 = Some p /\ issued_at 0 p) /\
  r.2 = Returned tt /\
  r.2 <> Thrown ExpiredError.
Proof.
  split; [| vm_compute; split; congruence].
  eexists. split; [vm_compute; reflexivity | reflexivity].
Qed.

(** C8.  On an unexpired Pending Verification with fewer than four
    recorded attempts, a well-formed six-digit code whose hash differs
    from the stored one makes [verifyOtp] fail with [IncorrectCodeError];
    the attempt counter grows by exactly one (to 1 on a fresh Pending
    Verification), the hash, expiry, identifier and phone number are
    kept, and the user, hence the authenticated boolean, is untouched. *)
Theorem verifyOtp_wrong_code env otp s p :
  pendingOtp s.1 = Some p ->
  Date_now env <= expiresAt p ->
  attempts p < 4 ->
  six_digits otp = true ->
  hashOtp otp <> otpHash p ->
  let r := verifyOtp env otp s in
  r.2 = Thrown IncorrectCodeError /\
  pendingOtp r.1.1 =
    Some (mkPendingOTP (otpHash p) (expiresAt p) (attempts p + 1)
                       (userId p) (phoneNumber p)) /\
  (attempts p = 0 -> attempts <$> pendingOtp r.1.1 = Some 1) /\
  user r.1.1 = user s.1 /\
  isAuthenticated r.1.1 = isAuthenticated s.1 /\
  (isAuthenticated s.1 = false -> isAuthenticated r.1.1 = false) /\
  r.1.2 = s.2.
Proof.
  destruct s as [c w]. cbn [fst snd]. intros Hp He Ha Hd Hh.
  assert (Js.test OTP_RE (Js.trim otp) = true) as Hf
    by now rewrite (trim_six_digits otp Hd), OTP_RE_spec.
  rewrite <- (trim_six_digits otp Hd) in Hh.
  cbv zeta. rewrite (verifyOtp_incorrect env otp c w p Hp He Ha Hf Hh).
  cbn [fst snd bump_attempts].
  rewrite pendingOtp_put_pendingOtp, user_put_pendingOtp, isAuthenticated_put_pendingOtp.
  repeat split; try reflexivity.
  - intros H0. cbn. now rewrite H0.
  - auto.
Qed.

Lemma verifyOtp_wrong_code_witness :
  let p := mkPendingOTP (hashOtp TEST_OTP) 600000 0 "uid-1" "9876543210" in
  let s := asha_signed_up in
  let r := verifyOtp (calm 5 "uid-1") "000000" s in
  r.2 = Thrown IncorrectCodeError /\
  pendingOtp r.1.1 =
    Some (mkPendingOTP (otpHash p) (expiresAt p) (attempts p + 1)
                       (userId p) (phoneNumber p)) /\
  (attempts p = 0 -> attempts <$> pendingOtp r.1.1 = Some 1) /\
  user r.1.1 = user s.1 /\
  isAuthenticated r.1.1 = isAuthenticated s.1 /\
  (isAuthenticated s.1 = false -> isAuthenticated r.1.1 = false) /\
  r.1.2 = s.2.
Proof.
  intros p s.
  apply (verifyOtp_wrong_code (calm 5 "uid-1") "000000" s p).
  - vm_compute. reflexivity.
  - vm_compute. congruence.
  - reflexivity.
  - reflexivity.
  - vm_compute. congruence.
Defined.

(** C9, as the code has it.  On an unexpired Pending Verification with
    fewer than four recorded attempts, [verifyOtp] fails with
    [FormatError] exactly when the submitted string, once its
    surrounding white space is trimmed, is not a string of six decimal
    digits; that failure changes nothing: no attempt is consumed and the
    Pending Verification stays.  (The directory is assumed not to reject
    the upsert with that very error.) *)
Theorem verifyOtp_format_error env otp s p :
  pendingOtp s.1 = Some p ->
  Date_now env <= expiresAt p ->
  attempts p < 4 ->
  setDoc_rejects env <> Some FormatError ->
  let r := verifyOtp env otp s in
  (r.2 = Thrown FormatError <-> six_digits (Js.trim otp) = false) /\
  (six_digits (Js.trim otp) = false -> r.1 = s).
Proof.
  destruct s as [c w]. cbn [fst snd]. intros Hp He Ha Hw. cbv zeta.
  destruct (six_digits (Js.trim otp)) eqn:Hd.
  - assert (Js.test OTP_RE (Js.trim otp) = true) as Hf by now rewrite OTP_RE_spec.
    split; [| discriminate]. split; [| discriminate]. intros Hr. exfalso.
    destruct (String.eqb_spec (hashOtp (Js.trim otp)) (otpHash p)) as [Hh|Hh].
    + rewrite (verifyOtp_match env otp c w p Hp He Ha Hf Hh) in Hr.
      destruct (setDoc_rejects env) as [e|]; [| discriminate].
      apply Hw. congruence.
    + rewrite (verifyOtp_incorrect env otp c w p Hp He Ha Hf Hh) in Hr.
      discriminate.
  - assert (Js.test OTP_RE (Js.trim otp) = false) as Hf by now rewrite OTP_RE_spec.
    rewrite (verifyOtp_format env otp c w p Hp He Ha Hf).
    split; [split |]; reflexivity.
Qed.

Lemma verifyOtp_format_error_witness :
  let p := mkPendingOTP (hashOtp TEST_OTP) 600000 0 "uid-1" "9876543210" in
  let s := asha_signed_up in
  let r := verifyOtp (calm 5 "uid-1") "12345" s in
  (r.2 = Thrown FormatError <-> six_digits (Js.trim "12345") = false) /\
  (six_digits (Js.trim "12345") = false -> r.1 = s).
Proof.
  intros p s.
  apply (verifyOtp_format_error (calm 5 "uid-1") "12345" s p).
  - vm_compute. reflexivity.
  - vm_compute. congruence.
  - reflexivity.
  - vm_compute. congruence.
Defined.

(** C9 as stated fails: [" 123456"] is not a string of exactly six
    decimal digits, yet it passes the format check and is verified. *)
Lemma verifyOtp_padded_code_accepted :
  six_digits " 123456" = false /\
  (verifyOtp (calm 5 "uid-1") " 123456" asha_signed_up).2 = Returned tt /\
  (verifyOtp (calm 5 "uid-1") " 123456" asha_signed_up).2 <> Thrown FormatError.
Proof.
  vm_compute. repeat split; congruence.
Qed.

Lemma after_verify_upsert_lookup env p w :
  setDoc_rejects env = None ->
  exists d,
    user_profiles (after_verify_upsert env p w) !! userId p = Some d /\
    d !! "verified" = Some (VBool true) /\
    d !! "phoneNumber" = Some (VStr (phoneNumber p)).
Proof.
  intros Hw. unfold after_verify_upsert, ensureUserProfileExists, setDoc_merge.
  rewrite Hw. run. unfold merge_into. rewrite lookup_insert_eq.
  eexists. split; [reflexivity |].
  unfold ensureUserProfileExists_data, object.
  cbn [List.fold_left define default nullish].
  split.
  - rewrite lookup_union_l'; [| by simplify_map_eq].
    by simplify_map_eq.
  - rewrite lookup_union_l'; [| by simplify_map_eq].
    by simplify_map_eq.
Qed.

(** The matching path of [verifyOtp], once the upsert went through. *)
Lemma verifyOtp_verified env otp c w p :
  pendingOtp c = Some p ->
  Date_now env <= expiresAt p ->
  attempts p < 4 ->
  Js.test OTP_RE (Js.trim otp) = true ->
  hashOtp (Js.trim otp) = otpHash p ->
  setDoc_rejects env = None ->
  let r := verifyOtp env otp (c, w) in
  let w1 := after_verify_upsert env p w in
  r.2 = Returned tt /\
  pendingOtp r.1.1 = None /\
  user_profiles r.1.2 = user_profiles w1 /\
  localStorage r.1.2 !! USER_OTP_STORAGE_KEY = None /\
  match (getUserProfileData env (userId p) w1).2 with
  | Returned (Some d) =>
      user r.1.1 = Some (profile_of (userId p) d) /\
      localStorage r.1.2 !! USER_AUTH_STORAGE_KEY = Some (LSProfile (profile_of (userId p) d))
  | _ =>
      user r.1.1 = user c /\
      localStorage r.1.2 !! USER_AUTH_STORAGE_KEY = localStorage w !! USER_AUTH_STORAGE_KEY
  end.
Proof.
  intros Hp He Ha Hf Hh Hw. unfold verifyOtp. cbn [fst snd]. rewrite Hp.
  destruct (Z.ltb_spec (expiresAt p) (Date_now env)) as [?|_]; [lia |].
  destruct (Z.leb_spec 4 (attempts p)) as [?|_]; [lia |].
  rewrite Hf, Hh, String.eqb_refl. cbn [negb].
  unfold after_verify_upsert, ensureUserProfileExists, getUserProfileData,
    setDoc_merge, getDoc.
  rewrite Hw.
  destruct (getDoc_rejects env) as [e|].
  - run. repeat split; try reflexivity.
    apply lookup_delete_eq.
    rewrite lookup_delete_ne; [reflexivity | discriminate].
  - run. unfold merge_into. rewrite lookup_insert_eq. run.
    repeat split; try reflexivity.
    + apply lookup_delete_eq.
    + rewrite lookup_delete_ne by discriminate. apply lookup_insert_eq.
Qed.

(** C10.  When the code matches and the upsert goes through but the
    read of the profile that follows returns no record, [verifyOtp]
    still completes: the Pending Verification is discarded and its
    local-storage trace removed, while the user (and the cached Session
    Record) stay as they were; a user that was unset stays unset and the
    authenticated boolean stays false. *)
Theorem verifyOtp_profile_not_read env otp s p :
  pendingOtp s.1 = Some p ->
  Date_now env <= expiresAt p ->
  attempts p < 4 ->
  six_digits (Js.trim otp) = true ->
  hashOtp (Js.trim otp) = otpHash p ->
  setDoc_rejects env = None ->
  (getUserProfileData env (userId p) (after_verify_upsert env p s.2)).2 = Returned None ->
  let r := verifyOtp env otp s in
  r.2 = Returned tt /\
  pendingOtp r.1.1 = None /\
  localStorage r.1.2 !! USER_OTP_STORAGE_KEY = None /\
  localStorage r.1.2 !! USER_AUTH_STORAGE_KEY = localStorage s.2 !! USER_AUTH_STORAGE_KEY /\
  user r.1.1 = user s.1 /\
  isAuthenticated r.1.1 = isAuthenticated s.1 /\
  (user s.1 = None -> user r.1.1 = None /\ isAuthenticated r.1.1 = false).
Proof.
  destruct s as [c w]. cbn [fst snd]. intros Hp He Ha Hd Hh Hw Hr.
  assert (Js.test OTP_RE (Js.trim otp) = true) as Hf by now rewrite OTP_RE_spec.
  destruct (verifyOtp_verified env otp c w p Hp He Ha Hf Hh Hw)
    as (H1 & H2 & _ & H4 & H5).
  rewrite Hr in H5. destruct H5 as [H5 H6]. cbv zeta.
  assert (isAuthenticated (verifyOtp env otp (c, w)).1.1 = isAuthenticated c) as H7
    by (unfold isAuthenticated; now rewrite H5).
  do 6 (split; [assumption |]).
  intros Hu. split.
  - now rewrite H5.
  - rewrite H7. unfold isAuthenticated. now rewrite Hu.
Qed.

Lemma verifyOtp_profile_not_read_witness :
  let env :=
    mkEnv 5 5 (fun _ _ => Returned "uid-1") (fun _ _ => Returned "uid-1")
          None None (Some (mkError (Some "unavailable") "offline")) None
          (Returned "token") (fun _ => []) (fun _ => []) in
  let p := mkPendingOTP (hashOtp TEST_OTP) 600000 0 "uid-1" "9876543210" in
  let s := asha_signed_up in
  let r := verifyOtp env "123456" s in
  r.2 = Returned tt /\
  pendingOtp r.1.1 = None /\
  localStorage r.1.2 !! USER_OTP_STORAGE_KEY = None /\
  localStorage r.1.2 !! USER_AUTH_STORAGE_KEY = localStorage s.2 !! USER_AUTH_STORAGE_KEY /\
  user r.1.1 = user s.1 /\
  isAuthenticated r.1.1 = isAuthenticated s.1 /\
  (user s.1 = None -> user r.1.1 = None /\ isAuthenticated r.1.1 = false).
Proof.
  intros env p s.
  apply (verifyOtp_profile_not_read env "123456" s p).
  - vm_compute. reflexivity.
  - vm_compute. congruence.
  - reflexivity.
  - reflexivity.
  - vm_compute. reflexivity.
  - reflexivity.
  - reflexivity.
Defined.

(** A signup that returns has issued a fresh Pending Verification with
    the instant of the call. *)
Lemma signup_issues_pending env data s :
  (signup env data s).2 = Returned tt ->
  exists p,
    pendingOtp (signup env data s).1.1 = Some p /\
    issued_at (Date_now env) p /\
    attempts p = 0 /\
    otpHash p = hashOtp TEST_OTP /\
    phoneNumber p = su_phoneNumber data.
Proof.
  destruct s as [c w]. unfold signup, issued_at.
  destruct (isValidEmail (su_email data)); cbn [negb]; [| discriminate].
  destruct (isValidPhone (su_phoneNumber data)); cbn [negb]; [| discriminate].
  destruct (Z.of_nat (String.length (su_password data)) <? 6); [discriminate |].
  unfold auth_createUser, auth_signIn, ensureUserProfileExists, setDoc_merge.
  destruct (createUserWithEmailAndPassword env (su_email data) (su_password data))
    as [uid|e].
  - destruct (setDoc_rejects env) as [e'|]; run; [discriminate |].
    intros _. eexists. repeat split; reflexivity.
  - run.
    destruct (bool_decide (err_code e = Some "auth/email-already-in-use")); run;
      [| discriminate].
    destruct (signInWithEmailAndPassword env (Some (VStr (su_email data)))
                (su_password data)) as [uid|e2]; run; [| discriminate].
    destruct (setDoc_rejects env) as [e'|]; run; [discriminate |].
    intros _. eexists. repeat split; reflexivity.
Qed.

Lemma signup_granted env data c w uid :
  isValidEmail (su_email data) = true ->
  isValidPhone (su_phoneNumber data) = true ->
  6 <= Z.of_nat (String.length (su_password data)) ->
  backend_grants env data uid ->
  setDoc_rejects env = None ->
  let r := signup env data (c, w) in
  r.2 = Returned tt /\
  pendingOtp r.1.1 =
    Some (mkPendingOTP (hashOtp TEST_OTP) (Date_now env + OTP_LIFETIME) 0
                       uid (su_phoneNumber data)) /\
  user r.1.1 = user c /\
  (exists d, user_profiles r.1.2 !! uid = Some d /\ d !! "verified" = Some (VBool false)) /\
  localStorage r.1.2 !! USER_OTP_STORAGE_KEY = Some (LSPendingOtp uid (su_phoneNumber data)).
Proof.
  intros Hm Hph Hpw Hg Hw. unfold signup. rewrite Hm, Hph. cbn [negb].
  destruct (Z.ltb_spec (Z.of_nat (String.length (su_password data))) 6) as [?|_]; [lia |].
  unfold auth_createUser, auth_signIn, ensureUserProfileExists, setDoc_merge.
  rewrite Hw.
  assert (forall profiles : gmap string Doc, exists d,
    merge_into uid
      (ensureUserProfileExists_data env uid
         (Some (object [ Field "fullName" (VStr (su_fullName data));
                         Field "email" (VStr (su_email data));
                         Field "phoneNumber" (VStr (su_phoneNumber data));
                         Field "verified" (VBool false) ]))) profiles !! uid = Some d /\
    d !! "verified" = Some (VBool false)) as Hdir.
  { intros profiles. unfold merge_into. rewrite lookup_insert_eq.
    eexists. split; [reflexivity |].
    unfold ensureUserProfileExists_data, object.
    cbn [List.fold_left define default nullish].
    rewrite lookup_union_l'; [| by simplify_map_eq].
    by simplify_map_eq. }
  destruct Hg as [Hc | (e & Hc & Hcode & Hs)]; rewrite Hc; run.
  - repeat split; try reflexivity; [apply Hdir | apply lookup_insert_eq].
  - rewrite Hcode. rewrite bool_decide_eq_true_2 by reflexivity. run.
    rewrite Hs. run.
    repeat split; try reflexivity; [apply Hdir | apply lookup_insert_eq].
Qed.

Lemma profile_of_lookup uid d k v :
  d !! k = Some v -> profile_of uid d !! k = Some v.
Proof.
  intros H. unfold profile_of, object. cbn [List.fold_left define].
  rewrite lookup_union_l'; [exact H | by rewrite H].
Qed.

(** [verifyOtp] with the test code on a fresh Pending Verification that
    holds the hash [h] of the test code. *)
Lemma verifyOtp_test_code env c w h e uid ph :
  pendingOtp c = Some (mkPendingOTP h e 0 uid ph) ->
  h = hashOtp TEST_OTP ->
  Date_now env <= e ->
  setDoc_rejects env = None ->
  getDoc_rejects env = None ->
  let r := verifyOtp env TEST_OTP (c, w) in
  r.2 = Returned tt /\
  isAuthenticated r.1.1 = true /\
  exists d,
    user_profiles r.1.2 !! uid = Some d /\ d !! "verified" = Some (VBool true).
Proof.
  intros Hp Hh He Hw Hr. cbv zeta.
  assert (Js.test OTP_RE (Js.trim TEST_OTP) = true) as Hf by (vm_compute; reflexivity).
  assert (Js.trim TEST_OTP = TEST_OTP) as Htrim by (vm_compute; reflexivity).
  destruct (verifyOtp_verified env TEST_OTP c w _ Hp) as (H2 & _ & H3 & _ & H4);
    [exact He | reflexivity | exact Hf
     | cbn [otpHash]; rewrite Htrim; symmetry; exact Hh | exact Hw |].
  destruct (after_verify_upsert_lookup env (mkPendingOTP h e 0 uid ph) w Hw)
    as (d & Hd & Hv & _).
  cbn [userId] in Hd, H4.
  unfold getUserProfileData, getDoc in H4. rewrite Hr in H4.
  cbv beta iota zeta delta [try_catch snd] in H4.
  rewrite Hd in H4. destruct H4 as [Hu _].
  split; [exact H2 |]. split.
  - unfold isAuthenticated. rewrite Hu.
    now rewrite (profile_of_lookup _ d "verified" (VBool true) Hv).
  - exists d. rewrite H3. now split.
Qed.

(** C1.  For a signup with a valid email, a valid phone number and a
    password of at least six characters, for which the backend hands out
    an Account Identifier and the directory accepts the writes and
    answers the read: [signup] returns, [verifyOtp] with the test code,
    called before the ten minutes have passed, returns as well, the
    authenticated boolean is then true and the Profile Record stored for
    that identifier has [verified = true]. *)
Theorem signup_then_verifyOtp env1 env2 data s uid :
  isValidEmail (su_email data) = true ->
  isValidPhone (su_phoneNumber data) = true ->
  6 <= Z.of_nat (String.length (su_password data)) ->
  backend_grants env1 data uid ->
  setDoc_rejects env1 = None ->
  Date_now env2 <= Date_now env1 + 10 * 60 * 1000 ->
  setDoc_rejects env2 = None ->
  getDoc_rejects env2 = None ->
  let r1 := signup env1 data s in
  let r2 := verifyOtp env2 TEST_OTP r1.1 in
  r1.2 = Returned tt /\
  r2.2 = Returned tt /\
  isAuthenticated r2.1.1 = true /\
  exists d,
    user_profiles r2.1.2 !! uid = Some d /\ d !! "verified" = Some (VBool true).
Proof.
  destruct s as [c w]. intros Hm Hph Hpw Hg Hw1 Ht Hw2 Hr2. cbv zeta.
  destruct (signup_granted env1 data c w uid Hm Hph Hpw Hg Hw1)
    as (H1 & Hp & _ & _ & _).
  destruct (signup env1 data (c, w)) as [[c1 w1] o1]. cbn [fst snd] in *.
  split; [exact H1 |].
  apply (verifyOtp_test_code env2 c1 w1 (hashOtp TEST_OTP)
           (Date_now env1 + OTP_LIFETIME) uid (su_phoneNumber data) Hp eq_refl);
    [unfold OTP_LIFETIME; lia | exact Hw2 | exact Hr2].
Qed.

Lemma signup_then_verifyOtp_witness :
  let s := (initial, empty_world) in
  let r1 := signup (calm 0 "uid-1") asha s in
  let r2 := verifyOtp (calm 1000 "uid-1") TEST_OTP r1.1 in
  r1.2 = Returned tt /\
  r2.2 = Returned tt /\
  isAuthenticated r2.1.1 = true /\
  exists d,
    user_profiles r2.1.2 !! "uid-1" = Some d /\ d !! "verified" = Some (VBool true).
Proof.
  intros s.
  apply (signup_then_verifyOtp (calm 0 "uid-1") (calm 1000 "uid-1") asha s "uid-1").
  - vm_compute. reflexivity.
  - vm_compute. reflexivity.
  - vm_compute. congruence.
  - left. reflexivity.
  - reflexivity.
  - vm_compute. congruence.
  - reflexivity.
  - reflexivity.
Defined.

(** The auth-state listener may fire between two calls; it never touches
    the Pending Verification. *)
Lemma onAuthStateChanged_keeps_pending env firebaseUser s :
  pendingOtp (onAuthStateChanged env firebaseUser s).1.1 = pendingOtp s.1.
Proof.
  destruct s as [c w]. unfold onAuthStateChanged, getUserProfileData, getDoc.
  destruct firebaseUser as [uid|]; run; [| reflexivity].
  destruct (getDoc_rejects env) as [e|]; run; [reflexivity |].
  destruct (user_profiles w !! uid) as [d|]; run; reflexivity.
Qed.

(** The second scenario of the specification, evaluated: a wrong code
    against a fresh Pending Verification. *)
Example scenario_wrong_code :
  let r := verifyOtp (calm 1000 "uid-1") "000000" asha_signed_up in
  r.2 = Thrown IncorrectCodeError /\
  attempts <$> pendingOtp r.1.1 = Some 1 /\
  isAuthenticated r.1.1 = false.
Proof. vm_compute. repeat split; reflexivity. Qed.

(** The first scenario of the specification, evaluated. *)
Example scenario_signup_verify :
  isAuthenticated
    (verifyOtp (calm 1000 "uid-1") "123456" asha_signed_up).1.1 = true.
Proof. vm_compute. reflexivity. Qed.

(** *** Login with a phone number *)

Lemma remove_all_id (p q : ascii -> bool) s :
  (forall c, p c = true -> q c = false) ->
  all_chars p s = true -> Js.remove_all q s = s.
Proof.
  intros Hpq. induction s as [|c s IH]; cbn [all_chars Js.remove_all]; [reflexivity |].
  intros H. apply andb_prop in H as [Hc Hs].
  now rewrite (Hpq c Hc), (IH Hs).
Qed.

Lemma digit_not_separator c :
  Js.digit c = true -> Js.is_space c || Ascii.eqb c "-" = false.
Proof.
  destruct c as [[] [] [] [] [] [] [] []]; vm_compute; congruence.
Qed.

Lemma leading_digit_is_digit c : Js.in_range "6" "9" c = true -> Js.digit c = true.
Proof.
  destruct c as [[] [] [] [] [] [] [] []]; vm_compute; congruence.
Qed.

(** Ten digits with a leading 6 to 9 pass the phone check as they are. *)
Lemma ten_digit_phone_valid s :
  ten_digit_phone s = true -> isValidPhone s = true /\ Js.trim s = s.
Proof.
  destruct s as [|c s]; [discriminate |]. cbn [ten_digit_phone].
  intros H. apply andb_prop in H as [H Hs]. apply andb_prop in H as [Hc Hlen].
  assert (all_chars Js.digit (String c s) = true) as Hall
    by (cbn [all_chars]; now rewrite (leading_digit_is_digit c Hc), Hs).
  assert (Js.trim (String c s) = String c s) as Htrim
    by exact (trim_id Js.digit _ digit_not_space Hall).
  split; [| exact Htrim].
  unfold isValidPhone. rewrite Htrim.
  rewrite (remove_all_id Js.digit _ _ digit_not_separator Hall).
  unfold PHONE_RE. rewrite test_Seq_Cls, test_Rep_Cls.
  now rewrite Hc, Hlen, Hs.
Qed.

Lemma first_doc_None docs : first_doc docs = None -> docs = [].
Proof.
  destruct docs as [|p rest]; [reflexivity |]. cbn [first_doc].
  destruct (first_doc rest) as [q|]; [| discriminate].
  destruct (String.ltb q.1 p.1); discriminate.
Qed.

Lemma first_doc_In docs x : first_doc docs = Some x -> In x docs.
Proof.
  revert x. induction docs as [|p rest IH]; intros x; cbn [first_doc]; [discriminate |].
  destruct (first_doc rest) as [q|].
  - destruct (String.ltb q.1 p.1); intros [= <-]; [right; now apply IH | now left].
  - intros [= <-]. now left.
Qed.

Lemma where_phoneNumber_In ph (profiles : gmap string Doc) id d :
  In (id, d) (where_phoneNumber ph profiles) <->
  profiles !! id = Some d /\ d !! "phoneNumber" = Some (VStr ph).
Proof.
  unfold where_phoneNumber. rewrite filter_In. cbn [snd].
  rewrite <- list_elem_of_In, elem_of_map_to_list, bool_decide_eq_true.
  reflexivity.
Qed.

(** The lookup finds a record exactly when some record has the number,
    and what it finds is such a record. *)
Lemma first_doc_where_phoneNumber ph (profiles : gmap string Doc) :
  match first_doc (where_phoneNumber ph profiles) with
  | Some (id, d) => profiles !! id = Some d /\ d !! "phoneNumber" = Some (VStr ph)
  | None => forall id d, profiles !! id = Some d -> d !! "phoneNumber" <> Some (VStr ph)
  end.
Proof.
  destruct (first_doc (where_phoneNumber ph profiles)) as [[id d]|] eqn:Hf.
  - now apply where_phoneNumber_In, first_doc_In.
  - intros id d Hl Hp. apply first_doc_None in Hf.
    assert (In (id, d) (where_phoneNumber ph profiles)) as Hin
      by now apply where_phoneNumber_In.
    rewrite Hf in Hin. destruct Hin.
Qed.

(** What [login] does once the email to authenticate with is known. *)
Lemma login_resolved env input password c w id d :
  isValidEmail input = false ->
  isValidPhone input = true ->
  getDocs_rejects env = None ->
  first_doc (where_phoneNumber (Js.trim input) (user_profiles w)) = Some (id, d) ->
  let r := login env input password (c, w) in
  authCalls r.1.2 = (authCalls w ++ [SignIn (d !! "email") password])%list /\
  forall e,
    d !! "email" = Some (VStr e) ->
    isValidEmail e = true ->
    Js.trim e = e ->
    r = login env e password (c, w).
Proof.
  intros Hm Hph Hq Hf. cbv zeta. split.
  - unfold login, findUserByPhoneNumber, auth_signIn, getUserProfileData, getDoc.
    rewrite Hm, Hph, Hq. cbn [negb]. run. rewrite Hf. cbn [found_email]. run.
    destruct (signInWithEmailAndPassword env (d !! "email") password) as [uid|e0]; run.
    + destruct (getDoc_rejects env) as [e1|]; run; [reflexivity |].
      destruct (user_profiles w !! uid) as [d'|]; run; [| reflexivity].
      destruct (truthy (d' !! "verified")); run; reflexivity.
    + destruct (bool_decide (err_code e0 = Some "auth/user-not-found")
                || bool_decide (err_code e0 = Some "auth/wrong-password"));
        reflexivity.
  - intros e He Hv Ht.
    unfold login, findUserByPhoneNumber.
    rewrite Hm, Hph, Hq, Hv, Ht. cbn [negb].
    cbv beta iota zeta delta [bind ret liftW try_catch fst snd].
    rewrite Hf. cbn [found_email]. rewrite He. reflexivity.
Qed.

(** C6, as the code has it.  For a login whose input is not a valid
    email and is a valid ten-digit phone number: when some Profile
    Record has that number and the directory answers the lookup, [login]
    picks a record with that number and makes exactly one backend
    authentication attempt, with that record's email as it is stored and
    the given password; when the email on file is a string that [login]
    accepts as a valid email and that has no white space around it, the
    whole call is the call of [login] with that email.  When no Profile
    Record has the number, [login] fails with [NotFoundError], no backend
    authentication attempt is made and nothing changes. *)
Theorem login_with_phone env input password s :
  isValidEmail input = false ->
  ten_digit_phone input = true ->
  let r := login env input password s in
  ((exists id d, user_profiles s.2 !! id = Some d /\
                 d !! "phoneNumber" = Some (VStr input)) ->
   getDocs_rejects env = None ->
   exists id d,
     user_profiles s.2 !! id = Some d /\
     d !! "phoneNumber" = Some (VStr input) /\
     authCalls r.1.2 = (authCalls s.2 ++ [SignIn (d !! "email") password])%list /\
     forall e,
       d !! "email" = Some (VStr e) ->
       isValidEmail e = true ->
       Js.trim e = e ->
       r = login env e password s)
  /\
  ((forall id d, user_profiles s.2 !! id = Some d ->
                 d !! "phoneNumber" <> Some (VStr input)) ->
   r.2 = Thrown NotFoundError /\ authCalls r.1.2 = authCalls s.2 /\ r.1 = s).
Proof.
  destruct s as [c w]. cbn [fst snd]. intros Hm Hten.
  destruct (ten_digit_phone_valid input Hten) as [Hph Htrim]. cbv zeta.
  pose proof (first_doc_where_phoneNumber input (user_profiles w)) as Hlook.
  split.
  - intros (id0 & d0 & Hl0 & Hp0) Hq.
    destruct (first_doc (where_phoneNumber input (user_profiles w))) as [[id d]|] eqn:Hf.
    + destruct Hlook as [Hl Hp]. exists id, d.
      split; [exact Hl |]. split; [exact Hp |].
      rewrite <- Htrim in Hf.
      exact (login_resolved env input password c w id d Hm Hph Hq Hf).
    + exfalso. exact (Hlook id0 d0 Hl0 Hp0).
  - intros Hnone.
    assert (first_doc (where_phoneNumber (Js.trim input) (user_profiles w)) = None) as Hf.
    { rewrite Htrim.
      destruct (first_doc (where_phoneNumber input (user_profiles w))) as [[id d]|];
        [| reflexivity].
      destruct Hlook as [Hl Hp]. exfalso. exact (Hnone id d Hl Hp). }
    unfold login, findUserByPhoneNumber. rewrite Hm, Hph. cbn [negb].
    destruct (getDocs_rejects env) as [e|];
      cbv beta iota zeta delta [bind ret throw liftW try_catch fst snd];
      rewrite ?Hf; repeat split; reflexivity.
Qed.

Lemma login_with_phone_witness :
  let env := calm 3000 "uid-1" in
  let s := asha_logged_out in
  let input := "9876543210" in
  let password := "secret1" in
  let r := login env input password s in
  ((exists id d, user_profiles s.2 !! id = Some d /\
                 d !! "phoneNumber" = Some (VStr input)) ->
   getDocs_rejects env = None ->
   exists id d,
     user_profiles s.2 !! id = Some d /\
     d !! "phoneNumber" = Some (VStr input) /\
     authCalls r.1.2 = (authCalls s.2 ++ [SignIn (d !! "email") password])%list /\
     forall e,
       d !! "email" = Some (VStr e) ->
       isValidEmail e = true ->
       Js.trim e = e ->
       r = login env e password s)
  /\
  ((forall id d, user_profiles s.2 !! id = Some d ->
                 d !! "phoneNumber" <> Some (VStr input)) ->
   r.2 = Thrown NotFoundError /\ authCalls r.1.2 = authCalls s.2 /\ r.1 = s).
Proof.
  intros env s input password.
  apply (login_with_phone env input password s).
  - vm_compute. reflexivity.
  - vm_compute. reflexivity.
Defined.

(** The registered number logs in as the email on file does. *)
Example login_registered_phone :
  login (calm 3000 "uid-1") "9876543210" "secret1" asha_logged_out
  = login (calm 3000 "uid-1") "a@b.com" "secret1" asha_logged_out /\
  (login (calm 3000 "uid-1") "9876543210" "secret1" asha_logged_out).2 = Returned tt /\
  isAuthenticated
    (login (calm 3000 "uid-1") "9876543210" "secret1" asha_logged_out).1.1 = true.
Proof. vm_compute. repeat split; reflexivity. Qed.

(** A number nobody registered: no call reaches the backend. *)
Example login_unregistered_phone :
  let r := login (calm 3000 "uid-1") "9123456789" "secret1" asha_logged_out in
  r.2 = Thrown NotFoundError /\ authCalls r.1.2 = authCalls asha_logged_out.2.
Proof. vm_compute. split; reflexivity. Qed.

(** The phone check strips separators, the lookup does not: the same
    number typed with a hyphen is accepted as a phone number and then
    not found. *)
Example login_phone_with_separator :
  isValidPhone "98765-43210" = true /\
  (login (calm 3000 "uid-1") "98765-43210" "secret1" asha_logged_out).2
  = Thrown NotFoundError.
Proof. vm_compute. split; reflexivity. Qed.

(** C6 as stated fails: the email on file reaches the backend as it is
    stored, without the validation and the trimming that [login] applies
    to an email typed in.  A verified user whose Profile Record holds
    the address ["a@b.c"] (saved through [saveUserProfile], which checks
    nothing) logs in with the phone number and is authenticated, while a
    [login] with that email and the same password is refused as not a
    valid email, before any backend authentication attempt. *)
Lemma login_with_phone_differs :
  let env := calm 3000 "uid-1" in
  let w := (saveUserProfile (calm 2500 "uid-1") "uid-1"
              (object [ Field "email" (VStr "a@b.c") ]) asha_logged_out.2).1 in
  let s := (asha_logged_out.1, w) in
  let by_phone := login env "9876543210" "secret1" s in
  let by_email := login env "a@b.c" "secret1" s in
  isValidEmail "9876543210" = false /\
  isValidPhone "9876543210" = true /\
  field (user_profiles w) "uid-1" "phoneNumber" = Some (VStr "9876543210") /\
  field (user_profiles w) "uid-1" "email" = Some (VStr "a@b.c") /\
  by_phone.2 = Returned tt /\
  isAuthenticated by_phone.1.1 = true /\
  authCalls by_phone.1.2 = (authCalls w ++ [SignIn (Some (VStr "a@b.c")) "secret1"])%list /\
  by_email.2 = Thrown (Error "Please enter a valid email address or phone number.") /\
  isAuthenticated by_email.1.1 = false /\
  authCalls by_email.1.2 = authCalls w.
Proof. vm_compute. repeat split; reflexivity. Qed.

(** The same with an address stored with white space around it, as
    [signup] stores what was typed: the phone login hands the backend
    the padded address, the email login the trimmed one. *)
Example login_with_phone_untrimmed :
  let s0 :=
    (signup (calm 0 "uid-1") (mkSignupData "Asha" " a@b.com " "secret1" "9876543210")
            (initial, empty_world)).1 in
  let s := (logout (calm 2000 "uid-1") (verifyOtp (calm 1000 "uid-1") "123456" s0).1).1 in
  let env := calm 3000 "uid-1" in
  field (user_profiles s.2) "uid-1" "email" = Some (VStr " a@b.com ") /\
  authCalls (login env "9876543210" "secret1" s).1.2
  = (authCalls s.2 ++ [SignIn (Some (VStr " a@b.com ")) "secret1"])%list /\
  authCalls (login env " a@b.com " "secret1" s).1.2
  = (authCalls s.2 ++ [SignIn (Some (VStr "a@b.com")) "secret1"])%list.
Proof. vm_compute. repeat split; reflexivity. Qed.
(** *** More on [verifyOtp] *)

Lemma verifyOtp_returned env otp c w :
  (verifyOtp env otp (c, w)).2 = Returned tt ->
  exists p,
    pendingOtp c = Some p /\
    Date_now env <= expiresAt p /\
    attempts p < 4 /\
    six_digits (Js.trim otp) = true /\
    hashOtp (Js.trim otp) = otpHash p /\
    setDoc_rejects env = None.
Proof.
  intros Hr. destruct (pendingOtp c) as [p|] eqn:Hp;
    [| rewrite (verifyOtp_no_pending env otp c w Hp) in Hr; discriminate].
  exists p. split; [reflexivity |].
  destruct (Z.le_gt_cases (Date_now env) (expiresAt p)) as [He|He];
    [| rewrite (verifyOtp_expired env otp c w p Hp) in Hr by lia; discriminate].
  destruct (Z.lt_ge_cases (attempts p) 4) as [Ha|Ha];
    [| rewrite (verifyOtp_too_many env otp c w p Hp He Ha) in Hr; discriminate].
  destruct (Js.test OTP_RE (Js.trim otp)) eqn:Hf;
    [| rewrite (verifyOtp_format env otp c w p Hp He Ha Hf) in Hr; discriminate].
  destruct (String.eqb_spec (hashOtp (Js.trim otp)) (otpHash p)) as [Hh|Hh];
    [| rewrite (verifyOtp_incorrect env otp c w p Hp He Ha Hf Hh) in Hr; discriminate].
  rewrite (verifyOtp_match env otp c w p Hp He Ha Hf Hh) in Hr.
  rewrite <- OTP_RE_spec.
  destruct (setDoc_rejects env); [discriminate | auto].
Qed.

(** [verifyOtp] returns exactly when there is a Pending Verification
    that has not expired and has fewer than four recorded attempts, the
    trimmed code is six digits that hash to the stored hash, and the
    directory accepts the upsert. *)
Theorem verifyOtp_returns_iff env otp s :
  (verifyOtp env otp s).2 = Returned tt <->
  exists p,
    pendingOtp s.1 = Some p /\
    Date_now env <= expiresAt p /\
    attempts p < 4 /\
    six_digits (Js.trim otp) = true /\
    hashOtp (Js.trim otp) = otpHash p /\
    setDoc_rejects env = None.
Proof.
  destruct s as [c w]. cbn [fst]. split.
  - apply verifyOtp_returned.
  - intros (p & Hp & He & Ha & Hd & Hh & Hw).
    rewrite <- OTP_RE_spec in Hd.
    now rewrite (verifyOtp_match env otp c w p Hp He Ha Hd Hh), Hw.
Qed.

(** A [verifyOtp] that throws has failed in one of six ways, and has
    changed nothing but, possibly, the Pending Verification: the
    directory, the local storage, the toasts, the user and the loaded
    orders and inquiries are as before. *)
Theorem verifyOtp_failure_frame env otp s e :
  (verifyOtp env otp s).2 = Thrown e ->
  let s' := (verifyOtp env otp s).1 in
  (e = NoPendingError \/ e = ExpiredError \/ e = TooManyAttemptsError \/
   e = FormatError \/ e = IncorrectCodeError \/ setDoc_rejects env = Some e) /\
  s'.2 = s.2 /\
  user s'.1 = user s.1 /\
  orders s'.1 = orders s.1 /\
  inquiries s'.1 = inquiries s.1 /\
  isAuthenticated s'.1 = isAuthenticated s.1 /\
  (pendingOtp s'.1 = None \/
   pendingOtp s'.1 = pendingOtp s.1 \/
   pendingOtp s'.1 = bump_attempts (pendingOtp s.1)).
Proof.
  destruct s as [c w]. cbn [fst snd]. cbv zeta.
  destruct (pendingOtp c) as [p|] eqn:Hp.
  2:{ rewrite (verifyOtp_no_pending env otp c w Hp). cbn [fst snd].
      intros [= <-]. rewrite Hp. tauto. }
  destruct (Z.le_gt_cases (Date_now env) (expiresAt p)) as [He|He].
  2:{ rewrite (verifyOtp_expired env otp c w p Hp) by lia. cbn [fst snd].
      intros [= <-]. repeat split; tauto. }
  destruct (Z.lt_ge_cases (attempts p) 4) as [Ha|Ha].
  2:{ rewrite (verifyOtp_too_many env otp c w p Hp He Ha). cbn [fst snd].
      intros [= <-]. repeat split; tauto. }
  destruct (Js.test OTP_RE (Js.trim otp)) eqn:Hf.
  2:{ rewrite (verifyOtp_format env otp c w p Hp He Ha Hf). cbn [fst snd].
      intros [= <-]. rewrite Hp. tauto. }
  destruct (String.eqb_spec (hashOtp (Js.trim otp)) (otpHash p)) as [Hh|Hh].
  2:{ rewrite (verifyOtp_incorrect env otp c w p Hp He Ha Hf Hh). cbn [fst snd].
      intros [= <-]. repeat split; tauto. }
  unfold verifyOtp. cbn [fst snd]. rewrite Hp.
  destruct (Z.ltb_spec (expiresAt p) (Date_now env)) as [?|_]; [lia |].
  destruct (Z.leb_spec 4 (attempts p)) as [?|_]; [lia |].
  rewrite Hf, Hh, String.eqb_refl. cbn [negb].
  unfold ensureUserProfileExists, getUserProfileData, setDoc_merge, getDoc.
  destruct (setDoc_rejects env) as [e'|].
  - run. intros [= <-]. rewrite Hp. tauto.
  - destruct (getDoc_rejects env) as [e'|]; run; [discriminate |].
    unfold merge_into. rewrite lookup_insert_eq. run. discriminate.
Qed.

Lemma verifyOtp_failure_frame_witness :
  let env := calm 5 "uid-1" in
  let s := asha_signed_up in
  let e := IncorrectCodeError in
  let s' := (verifyOtp env "000000" s).1 in
  (e = NoPendingError \/ e = ExpiredError \/ e = TooManyAttemptsError \/
   e = FormatError \/ e = IncorrectCodeError \/ setDoc_rejects env = Some e) /\
  s'.2 = s.2 /\
  user s'.1 = user s.1 /\
  orders s'.1 = orders s.1 /\
  inquiries s'.1 = inquiries s.1 /\
  isAuthenticated s'.1 = isAuthenticated s.1 /\
  (pendingOtp s'.1 = None \/
   pendingOtp s'.1 = pendingOtp s.1 \/
   pendingOtp s'.1 = bump_attempts (pendingOtp s.1)).
Proof.
  intros env s e.
  apply (verifyOtp_failure_frame env "000000" s e).
  vm_compute. reflexivity.
Defined.

(** *** More on [signup] *)

(** The three input checks come first and in this order; a signup that
    fails one of them throws the matching message and leaves the
    provider state and the world as they were: no backend call is made
    and the [isSignup] flag is not raised. *)
Theorem signup_rejects_invalid_input env data s :
  (isValidEmail (su_email data) = false ->
   signup env data s = (s, Thrown (Error "Please enter a valid email address.")))
  /\
  (isValidEmail (su_email data) = true ->
   isValidPhone (su_phoneNumber data) = false ->
   signup env data s
   = (s, Thrown (Error "Please enter a valid 10-digit phone number (India).")))
  /\
  (isValidEmail (su_email data) = true ->
   isValidPhone (su_phoneNumber data) = true ->
   Z.of_nat (String.length (su_password data)) < 6 ->
   signup env data s = (s, Thrown (Error "Password must be at least 6 characters."))).
Proof.
  unfold signup. repeat split.
  - intros ->. reflexivity.
  - intros -> ->. reflexivity.
  - intros -> -> Hlen. cbn [negb].
    destruct (Z.ltb_spec (Z.of_nat (String.length (su_password data))) 6); [reflexivity | lia].
Qed.

Lemma signup_rejects_invalid_input_witness :
  let env := calm 0 "uid-1" in
  let s := asha_logged_out in
  signup env (mkSignupData "Asha" "a@b" "secret1" "9876543210") s
  = (s, Thrown (Error "Please enter a valid email address.")) /\
  signup env (mkSignupData "Asha" "a@b.com" "secret1" "1234567890") s
  = (s, Thrown (Error "Please enter a valid 10-digit phone number (India).")) /\
  signup env (mkSignupData "Asha" "a@b.com" "12345" "9876543210") s
  = (s, Thrown (Error "Password must be at least 6 characters.")).
Proof.
  intros env s. split; [| split].
  - apply (signup_rejects_invalid_input env
             (mkSignupData "Asha" "a@b" "secret1" "9876543210") s).
    vm_compute. reflexivity.
  - apply (signup_rejects_invalid_input env
             (mkSignupData "Asha" "a@b.com" "secret1" "1234567890") s).
    + vm_compute. reflexivity.
    + vm_compute. reflexivity.
  - apply (signup_rejects_invalid_input env
             (mkSignupData "Asha" "a@b.com" "12345" "9876543210") s).
    + vm_compute. reflexivity.
    + vm_compute. reflexivity.
    + vm_compute. reflexivity.
Defined.

(** A signup that throws has issued no Pending Verification and written
    nothing: the Pending Verification, the user, the directory, the
    local storage and the toasts are as before; what it throws is a
    plain [Error] (the backend's error code is dropped). *)
Theorem signup_failure_frame env data s e :
  (signup env data s).2 = Thrown e ->
  let s' := (signup env data s).1 in
  err_code e = None /\
  pendingOtp s'.1 = pendingOtp s.1 /\
  user s'.1 = user s.1 /\
  user_profiles s'.2 = user_profiles s.2 /\
  localStorage s'.2 = localStorage s.2 /\
  toasts s'.2 = toasts s.2.
Proof.
  destruct s as [c w]. cbv zeta. unfold signup.
  destruct (isValidEmail (su_email data)); cbn [negb];
    [| intros [= <-]; repeat split; reflexivity].
  destruct (isValidPhone (su_phoneNumber data)); cbn [negb];
    [| intros [= <-]; repeat split; reflexivity].
  destruct (Z.of_nat (String.length (su_password data)) <? 6);
    [intros [= <-]; repeat split; reflexivity |].
  unfold auth_createUser, auth_signIn, ensureUserProfileExists, setDoc_merge.
  destruct (createUserWithEmailAndPassword env (su_email data) (su_password data))
    as [uid|e0].
  - destruct (setDoc_rejects env) as [e'|]; run; [| discriminate].
    intros [= <-]. repeat split; reflexivity.
  - run.
    destruct (bool_decide (err_code e0 = Some "auth/email-already-in-use")); run;
      [| intros [= <-]; repeat split; reflexivity].
    destruct (signInWithEmailAndPassword env (Some (VStr (su_email data)))
                (su_password data)) as [uid|e2]; run;
      [| intros [= <-]; repeat split; reflexivity].
    destruct (setDoc_rejects env) as [e'|]; run; [| discriminate].
    intros [= <-]. repeat split; reflexivity.
Qed.

Lemma signup_failure_frame_witness :
  let env := calm 0 "uid-1" in
  let data := mkSignupData "Asha" "not-an-email" "secret1" "9876543210" in
  let s := asha_verified in
  let e := Error "Please enter a valid email address." in
  let s' := (signup env data s).1 in
  err_code e = None /\
  pendingOtp s'.1 = pendingOtp s.1 /\
  user s'.1 = user s.1 /\
  user_profiles s'.2 = user_profiles s.2 /\
  localStorage s'.2 = localStorage s.2 /\
  toasts s'.2 = toasts s.2.
Proof.
  intros env data s e.
  apply (signup_failure_frame env data s e).
  vm_compute. reflexivity.
Defined.

(** An email the backend reports as registered, with a password the
    backend then refuses: [signup] fails asking to log in instead, after
    exactly two backend calls, and leaves the backend session alone. *)
Theorem signup_already_registered env data s e1 e2 :
  isValidEmail (su_email data) = true ->
  isValidPhone (su_phoneNumber data) = true ->
  6 <= Z.of_nat (String.length (su_password data)) ->
  createUserWithEmailAndPassword env (su_email data) (su_password data) = Thrown e1 ->
  err_code e1 = Some "auth/email-already-in-use" ->
  signInWithEmailAndPassword env (Some (VStr (su_email data))) (su_password data)
  = Thrown e2 ->
  let r := signup env data s in
  r.2 = Thrown (Error "This email is already registered. Please log in with your password instead.") /\
  authCalls r.1.2 =
    ((authCalls s.2 ++ [CreateUser (su_email data) (su_password data)])
     ++ [SignIn (Some (VStr (su_email data))) (su_password data)])%list /\
  currentUser r.1.2 = currentUser s.2 /\
  isSignup r.1.1 = false.
Proof.
  destruct s as [c w]. intros Hm Hph Hpw Hc Hcode Hs. cbv zeta.
  unfold signup. rewrite Hm, Hph. cbn [negb].
  destruct (Z.ltb_spec (Z.of_nat (String.length (su_password data))) 6) as [?|_]; [lia |].
  unfold auth_createUser, auth_signIn. rewrite Hc. run.
  rewrite Hcode, bool_decide_eq_true_2 by reflexivity. run. rewrite Hs. run.
  repeat split; reflexivity.
Qed.

Lemma signup_already_registered_witness :
  let taken := mkError (Some "auth/email-already-in-use") "The email address is already in use." in
  let wrong := mkError (Some "auth/wrong-password") "The password is invalid." in
  let env :=
    mkEnv 0 0 (fun _ _ => Thrown taken) (fun _ _ => Thrown wrong)
          None None None None (Returned "token") (fun _ => []) (fun _ => []) in
  let data := asha in
  let s := asha_logged_out in
  let r := signup env data s in
  r.2 = Thrown (Error "This email is already registered. Please log in with your password instead.") /\
  authCalls r.1.2 =
    ((authCalls s.2 ++ [CreateUser (su_email data) (su_password data)])
     ++ [SignIn (Some (VStr (su_email data))) (su_password data)])%list /\
  currentUser r.1.2 = currentUser s.2 /\
  isSignup r.1.1 = false.
Proof.
  intros taken wrong env data s.
  apply (signup_already_registered env data s taken wrong).
  - vm_compute. reflexivity.
  - vm_compute. reflexivity.
  - vm_compute. congruence.
  - reflexivity.
  - reflexivity.
  - reflexivity.
Defined.

(** A signup that goes through writes [verified = false] and a new
    creation timestamp into the Profile Record whatever it held, so a
    returning user who was verified is unverified again; the fields the
    signup does not name are kept. *)
Theorem signup_resets_verified env data s uid :
  isValidEmail (su_email data) = true ->
  isValidPhone (su_phoneNumber data) = true ->
  6 <= Z.of_nat (String.length (su_password data)) ->
  backend_grants env data uid ->
  setDoc_rejects env = None ->
  let profiles' := user_profiles (signup env data s).1.2 in
  field profiles' uid "verified" = Some (VBool false) /\
  field profiles' uid "createdAt" = Some (VTime (serverTimestamp env)) /\
  field profiles' uid "email" = Some (VStr (su_email data)) /\
  field profiles' uid "phoneNumber" = Some (VStr (su_phoneNumber data)) /\
  (forall k,
     k <> "uid" -> k <> "fullName" -> k <> "email" -> k <> "phoneNumber" ->
     k <> "verified" -> k <> "updatedAt" -> k <> "createdAt" ->
     field profiles' uid k = field (user_profiles s.2) uid k) /\
  (forall id, id <> uid -> profiles' !! id = user_profiles s.2 !! id).
Proof.
  destruct s as [c w]. intros Hm Hph Hpw Hg Hw. cbv zeta.
  set (data' := ensureUserProfileExists_data env uid
         (Some (object [ Field "fullName" (VStr (su_fullName data));
                         Field "email" (VStr (su_email data));
                         Field "phoneNumber" (VStr (su_phoneNumber data));
                         Field "verified" (VBool false) ]))).
  assert (user_profiles (signup env data (c, w)).1.2
          = merge_into uid data' (user_profiles w)) as ->.
  { unfold signup. rewrite Hm, Hph. cbn [negb].
    destruct (Z.ltb_spec (Z.of_nat (String.length (su_password data))) 6) as [?|_];
      [lia |].
    unfold auth_createUser, auth_signIn, ensureUserProfileExists, setDoc_merge.
    rewrite Hw.
    destruct Hg as [Hc | (e & Hc & Hcode & Hs)]; rewrite Hc; run; [reflexivity |].
    rewrite Hcode, bool_decide_eq_true_2 by reflexivity. run. rewrite Hs. run.
    reflexivity. }
  cbn [snd].
  assert (forall (dat : Doc) k,
            field (merge_into uid dat (user_profiles w)) uid k =
            match dat !! k with
            | Some v => Some v
            | None => field (user_profiles w) uid k
            end) as Hgen.
  { intros dat k. unfold field, merge_into. rewrite lookup_insert_eq. cbn.
    rewrite lookup_union. destruct (dat !! k) as [v|].
    - destruct (default ∅ (user_profiles w !! uid) !! k); reflexivity.
    - destruct (user_profiles w !! uid) as [d|]; cbn.
      + destruct (d !! k); reflexivity.
      + now rewrite lookup_empty. }
  pose proof (Hgen data') as Hfield. clear Hgen.
  unfold data', ensureUserProfileExists_data, object in Hfield.
  cbn [List.fold_left define default nullish] in Hfield. unfold id in Hfield.
  repeat split.
  - rewrite Hfield. by simplify_map_eq.
  - rewrite Hfield. by simplify_map_eq.
  - rewrite Hfield. rewrite !lookup_insert_ne by discriminate.
    rewrite lookup_union_l'; by simplify_map_eq.
  - rewrite Hfield. rewrite !lookup_insert_ne by discriminate.
    rewrite lookup_union_l'; by simplify_map_eq.
  - intros k ? ? ? ? ? ? ?. rewrite Hfield.
    rewrite !lookup_insert_ne by congruence.
    rewrite lookup_union. rewrite !lookup_insert_ne by congruence.
    now rewrite !lookup_empty.
  - intros id Hid. unfold merge_into. now rewrite lookup_insert_ne.
Qed.

Lemma signup_resets_verified_witness :
  let env := calm 5000 "uid-1" in
  let data := asha in
  let s := asha_logged_out in
  let uid := "uid-1" in
  let profiles' := user_profiles (signup env data s).1.2 in
  field profiles' uid "verified" = Some (VBool false) /\
  field profiles' uid "createdAt" = Some (VTime (serverTimestamp env)) /\
  field profiles' uid "email" = Some (VStr (su_email data)) /\
  field profiles' uid "phoneNumber" = Some (VStr (su_phoneNumber data)) /\
  (forall k,
     k <> "uid" -> k <> "fullName" -> k <> "email" -> k <> "phoneNumber" ->
     k <> "verified" -> k <> "updatedAt" -> k <> "createdAt" ->
     field profiles' uid k = field (user_profiles s.2) uid k) /\
  (forall id, id <> uid -> profiles' !! id = user_profiles s.2 !! id).
Proof.
  intros env data s uid.
  apply (signup_resets_verified env data s uid).
  - vm_compute. reflexivity.
  - vm_compute. reflexivity.
  - vm_compute. congruence.
  - left. reflexivity.
  - reflexivity.
Defined.

(** *** More on [login] and [logout] *)

Lemma login_verified env input password s uid d :
  isValidEmail input = true ->
  signInWithEmailAndPassword env (Some (VStr (Js.trim input))) password = Returned uid ->
  getDoc_rejects env = None ->
  user_profiles s.2 !! uid = Some d ->
  truthy (d !! "verified") = true ->
  let r := login env input password s in
  r.2 = Returned tt /\
  user r.1.1 = Some (profile_of uid d) /\
  isAuthenticated r.1.1 = true /\
  localStorage r.1.2 !! USER_AUTH_STORAGE_KEY = Some (LSProfile (profile_of uid d)) /\
  orders r.1.1 = fetchUserOrders env uid /\
  inquiries r.1.1 = fetchUserInquiries env uid /\
  currentUser r.1.2 = Some uid /\
  user_profiles r.1.2 = user_profiles s.2.
Proof.
  destruct s as [c w]. cbn [fst snd]. intros Hm Hs Hr Hd Hv. cbv zeta.
  unfold login, auth_signIn, getUserProfileData, getDoc.
  rewrite Hm. cbn [negb]. run. rewrite Hs. run. rewrite Hr. run.
  rewrite Hd. run. rewrite Hv. run.
  repeat split; try reflexivity.
  - unfold isAuthenticated. cbn [user].
    destruct (d !! "verified") as [v|] eqn:Hdv; [| discriminate].
    now rewrite (profile_of_lookup uid d "verified" v Hdv).
  - apply lookup_insert_eq.
Qed.

(** [login] with an email the backend accepts, for a Profile Record that
    is read and verified: the call returns, the user and the cached
    Session Record are that record with its identifier, the orders and
    inquiries of that identifier are loaded and the authenticated
    boolean is true. *)
Theorem login_verified_profile env input password s uid d :
  isValidEmail input = true ->
  signInWithEmailAndPassword env (Some (VStr (Js.trim input))) password = Returned uid ->
  getDoc_rejects env = None ->
  user_profiles s.2 !! uid = Some d ->
  truthy (d !! "verified") = true ->
  let r := login env input password s in
  r.2 = Returned tt /\
  user r.1.1 = Some (profile_of uid d) /\
  isAuthenticated r.1.1 = true /\
  localStorage r.1.2 !! USER_AUTH_STORAGE_KEY = Some (LSProfile (profile_of uid d)) /\
  orders r.1.1 = fetchUserOrders env uid /\
  inquiries r.1.1 = fetchUserInquiries env uid /\
  currentUser r.1.2 = Some uid /\
  user_profiles r.1.2 = user_profiles s.2.
Proof. exact (login_verified env input password s uid d). Qed.

Lemma login_verified_profile_witness :
  let env := calm 3000 "uid-1" in
  let s := asha_logged_out in
  let uid := "uid-1" in
  let d :=
    object [ Field "uid" (VStr "uid-1"); Field "fullName" (VStr "Asha");
             Field "email" (VStr "a@b.com"); Field "phoneNumber" (VStr "9876543210");
             Field "verified" (VBool true); Field "updatedAt" (VTime 1000);
             Field "createdAt" (VTime 1000) ] in
  let r := login env " a@b.com " "secret1" s in
  r.2 = Returned tt /\
  user r.1.1 = Some (profile_of uid d) /\
  isAuthenticated r.1.1 = true /\
  localStorage r.1.2 !! USER_AUTH_STORAGE_KEY = Some (LSProfile (profile_of uid d)) /\
  orders r.1.1 = fetchUserOrders env uid /\
  inquiries r.1.1 = fetchUserInquiries env uid /\
  currentUser r.1.2 = Some uid /\
  user_profiles r.1.2 = user_profiles s.2.
Proof.
  intros env s uid d.
  apply (login_verified_profile env " a@b.com " "secret1" s uid d).
  - vm_compute. reflexivity.
  - reflexivity.
  - reflexivity.
  - vm_compute. reflexivity.
  - vm_compute. reflexivity.
Defined.

Lemma login_unverified env input password s uid :
  isValidEmail input = true ->
  signInWithEmailAndPassword env (Some (VStr (Js.trim input))) password = Returned uid ->
  (getDoc_rejects env <> None \/
   match user_profiles s.2 !! uid with
   | Some d => truthy (d !! "verified") = false
   | None => True
   end) ->
  let r := login env input password s in
  r.2 = Returned tt /\
  r.1.1 = s.1 /\
  localStorage r.1.2 = localStorage s.2 /\
  user_profiles r.1.2 = user_profiles s.2 /\
  currentUser r.1.2 = Some uid /\
  toasts r.1.2 = (toasts s.2 ++ [mkToast ToastSuccess "Login successful!"])%list.
Proof.
  destruct s as [c w]. cbn [fst snd]. intros Hm Hs Hcase. cbv zeta.
  unfold login, auth_signIn, getUserProfileData, getDoc.
  rewrite Hm. cbn [negb]. run. rewrite Hs. run.
  destruct (getDoc_rejects env) as [e|]; run.
  - destruct c; repeat split; reflexivity.
  - destruct Hcase as [Hcase|Hcase]; [congruence |].
    destruct (user_profiles w !! uid) as [d|]; run.
    + rewrite Hcase. run. destruct c; repeat split; reflexivity.
    + destruct c; repeat split; reflexivity.
Qed.

(** [login] with an email the backend accepts, for a Profile Record that
    is missing, unverified or cannot be read: the call still returns and
    announces a successful login, the backend session is open, but the
    provider state and the local storage are untouched, so the
    authenticated boolean is what it was. *)
Theorem login_unverified_profile env input password s uid :
  isValidEmail input = true ->
  signInWithEmailAndPassword env (Some (VStr (Js.trim input))) password = Returned uid ->
  (getDoc_rejects env <> None \/
   match user_profiles s.2 !! uid with
   | Some d => truthy (d !! "verified") = false
   | None => True
   end) ->
  let r := login env input password s in
  r.2 = Returned tt /\
  r.1.1 = s.1 /\
  localStorage r.1.2 = localStorage s.2 /\
  user_profiles r.1.2 = user_profiles s.2 /\
  currentUser r.1.2 = Some uid /\
  toasts r.1.2 = (toasts s.2 ++ [mkToast ToastSuccess "Login successful!"])%list.
Proof. exact (login_unverified env input password s uid). Qed.

Lemma login_unverified_profile_witness :
  let env := calm 100 "uid-1" in
  let s := (logout (calm 50 "uid-1") asha_signed_up).1 in
  let r := login env "a@b.com" "secret1" s in
  r.2 = Returned tt /\
  r.1.1 = s.1 /\
  localStorage r.1.2 = localStorage s.2 /\
  user_profiles r.1.2 = user_profiles s.2 /\
  currentUser r.1.2 = Some "uid-1" /\
  toasts r.1.2 = (toasts s.2 ++ [mkToast ToastSuccess "Login successful!"])%list.
Proof.
  intros env s.
  apply (login_unverified_profile env "a@b.com" "secret1" s "uid-1").
  - vm_compute. reflexivity.
  - reflexivity.
  - right. vm_compute. reflexivity.
Defined.

(** [login] with an email the backend refuses: the codes
    [auth/user-not-found] and [auth/wrong-password] become
    [InvalidCredentialsError]; any other error keeps its message, or
    gets the fallback message when it has none.  Nothing but the record
    of the backend call changes. *)
Theorem login_refused env input password s e :
  isValidEmail input = true ->
  signInWithEmailAndPassword env (Some (VStr (Js.trim input))) password = Thrown e ->
  let r := login env input password s in
  r.2 = Thrown
          (if bool_decide (err_code e = Some "auth/user-not-found")
              || bool_decide (err_code e = Some "auth/wrong-password")
           then InvalidCredentialsError
           else Error (message_or e "Login failed. Please try again.")) /\
  r.1.1 = s.1 /\
  localStorage r.1.2 = localStorage s.2 /\
  user_profiles r.1.2 = user_profiles s.2 /\
  currentUser r.1.2 = currentUser s.2 /\
  toasts r.1.2 = toasts s.2.
Proof.
  destruct s as [c w]. cbn [fst snd]. intros Hm Hs. cbv zeta.
  unfold login, auth_signIn. rewrite Hm. cbn [negb]. run. rewrite Hs. run.
  destruct (bool_decide (err_code e = Some "auth/user-not-found")
            || bool_decide (err_code e = Some "auth/wrong-password"));
    destruct c; repeat split; reflexivity.
Qed.

Lemma login_refused_witness :
  let wrong := mkError (Some "auth/wrong-password") "The password is invalid." in
  let env :=
    mkEnv 0 0 (fun _ _ => Thrown wrong) (fun _ _ => Thrown wrong)
          None None None None (Returned "token") (fun _ => []) (fun _ => []) in
  let s := asha_logged_out in
  let e := wrong in
  let r := login env "a@b.com" "guess" s in
  r.2 = Thrown
          (if bool_decide (err_code e = Some "auth/user-not-found")
              || bool_decide (err_code e = Some "auth/wrong-password")
           then InvalidCredentialsError
           else Error (message_or e "Login failed. Please try again.")) /\
  r.1.1 = s.1 /\
  localStorage r.1.2 = localStorage s.2 /\
  user_profiles r.1.2 = user_profiles s.2 /\
  currentUser r.1.2 = currentUser s.2 /\
  toasts r.1.2 = toasts s.2.
Proof.
  intros wrong env s e.
  apply (login_refused env "a@b.com" "guess" s e).
  - vm_compute. reflexivity.
  - reflexivity.
Defined.

(** Whatever its input and its outcome, [login] writes nothing to the
    directory and never touches the Pending Verification. *)
Theorem login_frame env input password s :
  user_profiles (login env input password s).1.2 = user_profiles s.2 /\
  pendingOtp (login env input password s).1.1 = pendingOtp s.1.
Proof.
  destruct s as [c w]. cbn [fst snd].
  assert (forall (email : JsValue) (k : JsError -> M St unit),
            (forall e st, user_profiles (k e st).1.2 = user_profiles st.2 /\
                          pendingOtp (k e st).1.1 = pendingOtp st.1) ->
            let r :=
              try_catch
                (let* uid := liftW (auth_signIn env email password) in
                 let* profileData := liftW (getUserProfileData env uid) in
                 match profileData with
                 | Some d =>
                     if truthy (d !! "verified") then
                       setUser (Some (profile_of uid d)) >>
                       liftW (localStorage_setItem USER_AUTH_STORAGE_KEY
                                (LSProfile (profile_of uid d))) >>
                       loadUserData env uid
                     else ret tt
                 | None => ret tt
                 end >>
                 liftW (toast ToastSuccess "Login successful!")) k (c, w) in
            user_profiles r.1.2 = user_profiles w /\ pendingOtp r.1.1 = pendingOtp c)
    as Htail.
  { intros email k Hk. cbv zeta.
    unfold auth_signIn, getUserProfileData, getDoc.
    destruct (signInWithEmailAndPassword env email password) as [uid|e]; run.
    - destruct (getDoc_rejects env) as [e|]; run; [split; reflexivity |].
      destruct (user_profiles w !! uid) as [d|]; run; [| split; reflexivity].
      destruct (truthy (d !! "verified")); run; split; reflexivity.
    - match goal with
      | |- context [k e ?st] =>
          pose proof (Hk e st) as H; destruct (k e st) as [[c' w'] o]
      end.
      cbn [fst snd user_profiles] in H. exact H. }
  assert (forall e st,
            user_profiles
              ((if bool_decide (err_code e = Some "auth/user-not-found")
                   || bool_decide (err_code e = Some "auth/wrong-password")
                then throw InvalidCredentialsError
                else throw (Error (message_or e "Login failed. Please try again.")))
                 st : St * Outcome unit).1.2 = user_profiles st.2 /\
            pendingOtp
              ((if bool_decide (err_code e = Some "auth/user-not-found")
                   || bool_decide (err_code e = Some "auth/wrong-password")
                then throw InvalidCredentialsError
                else throw (Error (message_or e "Login failed. Please try again.")))
                 st : St * Outcome unit).1.1 = pendingOtp st.1) as Hk.
  { intros e st.
    destruct (bool_decide (err_code e = Some "auth/user-not-found")
              || bool_decide (err_code e = Some "auth/wrong-password"));
      split; reflexivity. }
  unfold login, findUserByPhoneNumber.
  destruct (isValidEmail input); cbn [negb].
  - exact (Htail (Some (VStr (Js.trim input))) _ Hk).
  - destruct (isValidPhone input).
    + destruct (getDocs_rejects env) as [e|].
      * cbv beta iota zeta delta [bind ret throw liftW try_catch fst snd].
        apply (Hk _ (c, w)).
      * destruct (first_doc (where_phoneNumber (Js.trim input) (user_profiles w)))
          as [[id d]|] eqn:Hf.
        -- pose proof (Htail (d !! "email") _ Hk) as H. cbv zeta in H.
           revert H.
           cbv beta iota zeta delta [bind ret throw liftW try_catch fst snd].
           rewrite Hf. cbn [found_email]. exact (fun H => H).
        -- cbv beta iota zeta delta [bind ret throw liftW try_catch fst snd].
           rewrite Hf. apply (Hk _ (c, w)).
    + cbv beta iota zeta delta [bind ret throw liftW try_catch fst snd].
      apply (Hk _ (c, w)).
Qed.

Lemma logout_run env s :
  let r := logout env s in
  r.2 = Returned tt /\
  user r.1.1 = None /\
  pendingOtp r.1.1 = None /\
  orders r.1.1 = [] /\
  inquiries r.1.1 = [] /\
  isAuthenticated r.1.1 = false /\
  localStorage r.1.2 !! USER_AUTH_STORAGE_KEY = None /\
  localStorage r.1.2 !! USER_OTP_STORAGE_KEY = None /\
  user_profiles r.1.2 = user_profiles s.2 /\
  (signOut_rejects env = None -> currentUser r.1.2 = None).
Proof.
  destruct s as [c w]. cbv zeta. unfold logout, auth_signOut.
  destruct (signOut_rejects env) as [e|]; run.
  - repeat split; try reflexivity.
    + rewrite lookup_delete_ne by discriminate. apply lookup_delete_eq.
    + apply lookup_delete_eq.
    + discriminate.
  - repeat split; try reflexivity.
    + rewrite lookup_delete_ne by discriminate. apply lookup_delete_eq.
    + apply lookup_delete_eq.
Qed.

(** [logout] always returns, even when the backend sign-out is
    rejected: user, Pending Verification, orders and inquiries are
    cleared, both cache entries are removed, the authenticated boolean
    is false, and the directory is left alone. *)
Theorem logout_clears env s :
  let r := logout env s in
  r.2 = Returned tt /\
  user r.1.1 = None /\
  pendingOtp r.1.1 = None /\
  orders r.1.1 = [] /\
  inquiries r.1.1 = [] /\
  isAuthenticated r.1.1 = false /\
  localStorage r.1.2 !! USER_AUTH_STORAGE_KEY = None /\
  localStorage r.1.2 !! USER_OTP_STORAGE_KEY = None /\
  user_profiles r.1.2 = user_profiles s.2 /\
  (signOut_rejects env = None -> currentUser r.1.2 = None).
Proof. exact (logout_run env s). Qed.

(** Logging out and logging in again with the same credentials, the
    backend resolving them as before, gives back the same user and the
    same cached Session Record, from the same Profile Record. *)
Theorem logout_then_login env env' input password s uid d :
  isValidEmail input = true ->
  signInWithEmailAndPassword env (Some (VStr (Js.trim input))) password = Returned uid ->
  getDoc_rejects env = None ->
  user_profiles s.2 !! uid = Some d ->
  truthy (d !! "verified") = true ->
  let s1 := (login env input password s).1 in
  let s2 := (logout env' s1).1 in
  let r3 := login env input password s2 in
  isAuthenticated s2.1 = false /\
  r3.2 = Returned tt /\
  user r3.1.1 = user s1.1 /\
  isAuthenticated r3.1.1 = true /\
  localStorage r3.1.2 !! USER_AUTH_STORAGE_KEY = localStorage s1.2 !! USER_AUTH_STORAGE_KEY /\
  user_profiles r3.1.2 = user_profiles s.2.
Proof.
  intros Hm Hs Hr Hd Hv. cbv zeta.
  destruct (login_verified env input password s uid d Hm Hs Hr Hd Hv)
    as (_ & Hu1 & _ & Hl1 & _ & _ & _ & Hp1).
  set (s1 := (login env input password s).1) in *.
  destruct (logout_run env' s1) as (_ & _ & _ & _ & _ & Ha2 & _ & _ & Hp2 & _).
  set (s2 := (logout env' s1).1) in *.
  assert (user_profiles s2.2 !! uid = Some d) as Hd2 by now rewrite Hp2, Hp1.
  destruct (login_verified env input password s2 uid d Hm Hs Hr Hd2 Hv)
    as (H3 & Hu3 & Ha3 & Hl3 & _ & _ & _ & Hp3).
  split; [exact Ha2 |]. split; [exact H3 |]. split; [now rewrite Hu3, Hu1 |].
  split; [exact Ha3 |]. split; [now rewrite Hl3, Hl1 |].
  now rewrite Hp3, Hp2, Hp1.
Qed.

Lemma logout_then_login_witness :
  let env := calm 3000 "uid-1" in
  let env' := calm 4000 "uid-1" in
  let s := asha_logged_out in
  let s1 := (login env "a@b.com" "secret1" s).1 in
  let s2 := (logout env' s1).1 in
  let r3 := login env "a@b.com" "secret1" s2 in
  isAuthenticated s2.1 = false /\
  r3.2 = Returned tt /\
  user r3.1.1 = user s1.1 /\
  isAuthenticated r3.1.1 = true /\
  localStorage r3.1.2 !! USER_AUTH_STORAGE_KEY = localStorage s1.2 !! USER_AUTH_STORAGE_KEY /\
  user_profiles r3.1.2 = user_profiles s.2.
Proof.
  intros env env' s.
  apply (logout_then_login env env' "a@b.com" "secret1" s "uid-1"
           (object [ Field "uid" (VStr "uid-1"); Field "fullName" (VStr "Asha");
                     Field "email" (VStr "a@b.com");
                     Field "phoneNumber" (VStr "9876543210");
                     Field "verified" (VBool true); Field "updatedAt" (VTime 1000);
                     Field "createdAt" (VTime 1000) ])).
  - vm_compute. reflexivity.
  - reflexivity.
  - reflexivity.
  - vm_compute. reflexivity.
  - vm_compute. reflexivity.
Defined.

(** *** The auth-state listener *)

(** What the listener does when the notified identifier has a Profile
    Record that can be read. *)
Lemma onAuthStateChanged_found env uid c w d :
  getDoc_rejects env = None ->
  user_profiles w !! uid = Some d ->
  onAuthStateChanged env (Some uid) (c, w) =
  ((mkUserAuth (Some (profile_of uid d)) (pendingOtp c) (isInitialized c) (isSignup c)
               (fetchUserOrders env uid) (fetchUserInquiries env uid) false,
    with_localStorage
      (<[USER_AUTH_STORAGE_KEY := LSProfile (profile_of uid d)]> (localStorage w)) w),
   Returned tt).
Proof.
  intros Hr Hd. unfold onAuthStateChanged, getUserProfileData, getDoc.
  rewrite Hr. run. rewrite Hd. run. reflexivity.
Qed.

(** The listener is idempotent: notified twice of the same thing, with
    the same answers from the outside, it leaves what the first
    notification left. *)
Theorem onAuthStateChanged_idempotent env firebaseUser s :
  onAuthStateChanged env firebaseUser (onAuthStateChanged env firebaseUser s).1
  = onAuthStateChanged env firebaseUser s.
Proof.
  destruct s as [c w]. destruct firebaseUser as [uid|].
  - destruct (getDoc_rejects env) as [e|] eqn:Hr.
    + unfold onAuthStateChanged, getUserProfileData, getDoc. rewrite Hr. run.
      reflexivity.
    + destruct (user_profiles w !! uid) as [d|] eqn:Hd.
      * rewrite (onAuthStateChanged_found env uid c w d Hr Hd). cbn [fst].
        rewrite (onAuthStateChanged_found env uid _
                   (with_localStorage
                      (<[USER_AUTH_STORAGE_KEY := LSProfile (profile_of uid d)]>
                         (localStorage w)) w) d Hr Hd).
        cbn [pendingOtp isInitialized isSignup].
        unfold with_localStorage.
        cbn [user_profiles currentUser localStorage toasts authCalls].
        now rewrite insert_insert_eq.
      * unfold onAuthStateChanged, getUserProfileData, getDoc. rewrite Hr. run.
        rewrite Hd. run. rewrite Hd. reflexivity.
  - unfold onAuthStateChanged. run. reflexivity.
Qed.

(** The listener agrees with the explicit flow.  After a [verifyOtp]
    that returned and whose own read of the profile the directory
    answered, the listener fired for the verified identifier, its read
    answered too, returns and leaves the user, the authenticated
    boolean, the cached Session Record, the directory and the
    (discarded) Pending Verification as [verifyOtp] left them. *)
Theorem onAuthStateChanged_after_verifyOtp env env' otp s p :
  pendingOtp s.1 = Some p ->
  (verifyOtp env otp s).2 = Returned tt ->
  getDoc_rejects env = None ->
  getDoc_rejects env' = None ->
  let s1 := (verifyOtp env otp s).1 in
  let r2 := onAuthStateChanged env' (Some (userId p)) s1 in
  r2.2 = Returned tt /\
  user r2.1.1 = user s1.1 /\
  isAuthenticated r2.1.1 = isAuthenticated s1.1 /\
  pendingOtp r2.1.1 = None /\
  localStorage r2.1.2 = localStorage s1.2 /\
  user_profiles r2.1.2 = user_profiles s1.2.
Proof.
  destruct s as [c w]. cbn [fst]. intros Hp Hret Hr Hr'. cbv zeta.
  apply verifyOtp_returned in Hret as (p' & Hp' & He & Ha & Hd & Hh & Hw).
  rewrite Hp in Hp'. injection Hp' as <-.
  rewrite <- OTP_RE_spec in Hd.
  destruct (verifyOtp_verified env otp c w p Hp He Ha Hd Hh Hw)
    as (_ & Hpend & Hprof & _ & Hread).
  destruct (after_verify_upsert_lookup env p w Hw) as (d & Hlook & _ & _).
  unfold getUserProfileData, getDoc in Hread. rewrite Hr in Hread.
  cbv beta iota zeta delta [try_catch snd] in Hread.
  rewrite Hlook in Hread. destruct Hread as [Hu Hls].
  destruct (verifyOtp env otp (c, w)) as [[c1 w1] o1]. cbn [fst snd] in *.
  rewrite <- Hprof in Hlook.
  rewrite (onAuthStateChanged_found env' (userId p) c1 w1 d Hr' Hlook).
  cbn [fst snd user pendingOtp]. unfold isAuthenticated. cbn [user].
  rewrite Hu. unfold with_localStorage.
  cbn [user_profiles localStorage].
  repeat split; try reflexivity; try assumption.
  now apply insert_id.
Qed.

Lemma onAuthStateChanged_after_verifyOtp_witness :
  let env := calm 1000 "uid-1" in
  let env' := calm 1001 "uid-1" in
  let p := mkPendingOTP (hashOtp TEST_OTP) 600000 0 "uid-1" "9876543210" in
  let s := asha_signed_up in
  let s1 := (verifyOtp env "123456" s).1 in
  let r2 := onAuthStateChanged env' (Some (userId p)) s1 in
  r2.2 = Returned tt /\
  user r2.1.1 = user s1.1 /\
  isAuthenticated r2.1.1 = isAuthenticated s1.1 /\
  pendingOtp r2.1.1 = None /\
  localStorage r2.1.2 = localStorage s1.2 /\
  user_profiles r2.1.2 = user_profiles s1.2.
Proof.
  intros env env' p s.
  apply (onAuthStateChanged_after_verifyOtp env env' "123456" s p).
  - vm_compute. reflexivity.
  - vm_compute. reflexivity.
  - reflexivity.
  - reflexivity.
Defined.

(** When [verifyOtp] returned without its read of the profile being
    answered, the user is still unset, and it is the listener that sets
    it: the authenticated boolean goes from false to true. *)
Example onAuthStateChanged_after_unread_verifyOtp :
  let env :=
    mkEnv 5 5 (fun _ _ => Returned "uid-1") (fun _ _ => Returned "uid-1")
          None None (Some (mkError (Some "unavailable") "offline")) None
          (Returned "token") (fun _ => []) (fun _ => []) in
  let s1 := (verifyOtp env "123456" asha_signed_up).1 in
  let r2 := onAuthStateChanged (calm 6 "uid-1") (Some "uid-1") s1 in
  (verifyOtp env "123456" asha_signed_up).2 = Returned tt /\
  isAuthenticated s1.1 = false /\
  r2.2 = Returned tt /\
  isAuthenticated r2.1.1 = true.
Proof. vm_compute. repeat split; reflexivity. Qed.

End UserAuthFacts.

(** ** The Identity Directory *)

Module FirebaseFacts.
Import FirebaseServices.

Lemma merge_into_other id id' data (profiles : gmap string Doc) :
  id <> id' -> merge_into id data profiles !! id' = profiles !! id'.
Proof. intros H. unfold merge_into. now rewrite lookup_insert_ne. Qed.

(** Round trip of a merge-write: a field named by the write reads as
    written, every other field reads as before. *)
Lemma merge_into_field id data (profiles : gmap string Doc) k :
  field (merge_into id data profiles) id k =
  match data !! k with
  | Some v => Some v
  | None => field profiles id k
  end.
Proof.
  unfold field, merge_into. rewrite lookup_insert_eq. cbn.
  rewrite lookup_union. destruct (data !! k) as [v|] eqn:Hd.
  - destruct (default ∅ (profiles !! id) !! k); reflexivity.
  - destruct (profiles !! id) as [d|]; cbn.
    + destruct (d !! k); reflexivity.
    + now rewrite lookup_empty.
Qed.

Lemma setDoc_merge_field env id data w k :
  setDoc_rejects env = None ->
  field (user_profiles (setDoc_merge env id data w).1) id k =
  match data !! k with
  | Some v => Some v
  | None => field (user_profiles w) id k
  end.
Proof.
  intros Hw. unfold setDoc_merge. rewrite Hw. cbn.
  apply merge_into_field.
Qed.

(** [saveUserProfile] leaves the creation timestamp alone unless the
    caller passes one. *)
Lemma saveUserProfile_keeps_createdAt env userId profileData w :
  setDoc_rejects env = None ->
  profileData !! "createdAt" = None ->
  field (user_profiles (saveUserProfile env userId profileData w).1) userId "createdAt"
  = field (user_profiles w) userId "createdAt".
Proof.
  intros Hw Hc. unfold saveUserProfile.
  pose proof (setDoc_merge_field env userId
                (saveUserProfile_data env userId profileData) w "createdAt" Hw) as H.
  unfold setDoc_merge in *. rewrite Hw in *. cbn in *. rewrite H.
  unfold saveUserProfile_data, object. cbn [List.fold_left define].
  rewrite lookup_insert_ne by discriminate.
  rewrite lookup_union, Hc. now rewrite lookup_insert_ne, lookup_empty by discriminate.
Qed.

(** [ensureUserProfileExists] writes the creation timestamp and the
    verified flag on every call, whatever the record held. *)
Lemma ensureUserProfileExists_rewrites env userId profileData w :
  setDoc_rejects env = None ->
  let w' := (ensureUserProfileExists env userId profileData w).1 in
  field (user_profiles w') userId "createdAt" = Some (VTime (serverTimestamp env)) /\
  field (user_profiles w') userId "verified"
  = Some (nullish (default ∅ profileData !! "verified") (VBool false)).
Proof.
  intros Hw. cbv zeta. unfold ensureUserProfileExists.
  pose proof (setDoc_merge_field env userId
                (ensureUserProfileExists_data env userId profileData) w) as H.
  unfold setDoc_merge in *. rewrite Hw in *. cbn in *. rewrite !H by reflexivity.
  unfold ensureUserProfileExists_data, object. cbn [List.fold_left define].
  split; by simplify_map_eq.
Qed.

(** C5, where the code departs from it.  [asha] signs up at instant 0
    and the record is created with that creation timestamp; the upsert
    of her successful code-verification, one second later, replaces it
    with the instant of the verification. *)
Theorem verifyOtp_rewrites_createdAt :
  field (user_profiles asha_signed_up.2) "uid-1" "createdAt" = Some (VTime 0) /\
  (UserAuthContext.verifyOtp (calm 1000 "uid-1") "123456" asha_signed_up).2 = Returned tt /\
  field (user_profiles asha_verified.2) "uid-1" "createdAt" = Some (VTime 1000) /\
  field (user_profiles asha_verified.2) "uid-1" "fullName" = Some (VStr "Asha").
Proof. vm_compute. repeat split; reflexivity. Qed.

(** Round trip of [saveUserProfile]: after a save that the directory
    accepts, a field named by the caller reads as given, [updatedAt]
    reads as the server time, [uid] reads as the identifier unless the
    caller named another, every other field of the record reads as
    before, and the other records are untouched. *)
Theorem saveUserProfile_round_trip env userId profileData w :
  setDoc_rejects env = None ->
  let r := saveUserProfile env userId profileData w in
  let profiles' := user_profiles r.1 in
  r.2 = Returned tt /\
  field profiles' userId "updatedAt" = Some (VTime (serverTimestamp env)) /\
  (forall k v, k <> "updatedAt" -> profileData !! k = Some v ->
               field profiles' userId k = Some v) /\
  (profileData !! "uid" = None -> field profiles' userId "uid" = Some (VStr userId)) /\
  (forall k, k <> "updatedAt" -> k <> "uid" -> profileData !! k = None ->
             field profiles' userId k = field (user_profiles w) userId k) /\
  (forall id, id <> userId -> profiles' !! id = user_profiles w !! id) /\
  localStorage r.1 = localStorage w.
Proof.
  intros Hw. cbv zeta.
  assert (saveUserProfile env userId profileData w
          = (with_user_profiles
               (merge_into userId (saveUserProfile_data env userId profileData)
                           (user_profiles w)) w, Returned tt)) as ->.
  { unfold saveUserProfile, setDoc_merge. rewrite Hw. reflexivity. }
  cbn [fst snd]. unfold with_user_profiles. cbn [user_profiles localStorage].
  split; [reflexivity |].
  assert (forall k,
            saveUserProfile_data env userId profileData !! k =
            if decide (k = "updatedAt") then Some (VTime (serverTimestamp env))
            else match profileData !! k with
                 | Some v => Some v
                 | None => if decide (k = "uid") then Some (VStr userId) else None
                 end) as Hdata.
  { intros k. unfold saveUserProfile_data, object. cbn [List.fold_left define].
    destruct (decide (k = "updatedAt")) as [->|Hk].
    - apply lookup_insert_eq.
    - rewrite lookup_insert_ne by congruence. rewrite lookup_union.
      destruct (profileData !! k) as [v|].
      + destruct (<["uid":=VStr userId]> (∅ : Doc) !! k); reflexivity.
      + destruct (decide (k = "uid")) as [->|Hu].
        * now rewrite lookup_insert_eq.
        * now rewrite lookup_insert_ne, lookup_empty by congruence. }
  repeat split.
  - rewrite merge_into_field, Hdata. now rewrite decide_True.
  - intros k v Hk Hv. rewrite merge_into_field, Hdata.
    now rewrite decide_False, Hv.
  - intros Hu. rewrite merge_into_field, Hdata.
    rewrite decide_False by discriminate. rewrite Hu. now rewrite decide_True.
  - intros k Hk Hu Hn. rewrite merge_into_field, Hdata.
    now rewrite decide_False, Hn, decide_False.
  - intros id Hid. now apply merge_into_other.
Qed.

Lemma saveUserProfile_round_trip_witness :
  let env := calm 7000 "uid-1" in
  let userId := "uid-1" in
  let profileData : Doc := object [ Field "city" (VStr "Pune") ] in
  let w := asha_verified.2 in
  let r := saveUserProfile env userId profileData w in
  let profiles' := user_profiles r.1 in
  r.2 = Returned tt /\
  field profiles' userId "updatedAt" = Some (VTime (serverTimestamp env)) /\
  (forall k v, k <> "updatedAt" -> profileData !! k = Some v ->
               field profiles' userId k = Some v) /\
  (profileData !! "uid" = None -> field profiles' userId "uid" = Some (VStr userId)) /\
  (forall k, k <> "updatedAt" -> k <> "uid" -> profileData !! k = None ->
             field profiles' userId k = field (user_profiles w) userId k) /\
  (forall id, id <> userId -> profiles' !! id = user_profiles w !! id) /\
  localStorage r.1 = localStorage w.
Proof.
  intros env userId profileData w.
  apply (saveUserProfile_round_trip env userId profileData w).
  reflexivity.
Defined.

Lemma ensureUserProfileExists_rewrites_witness :
  let env := calm 1000 "uid-1" in
  let userId := "uid-1" in
  let profileData : option Doc := None in
  let w := asha_verified.2 in
  let w' := (ensureUserProfileExists env userId profileData w).1 in
  field (user_profiles w') userId "createdAt" = Some (VTime (serverTimestamp env)) /\
  field (user_profiles w') userId "verified"
  = Some (nullish (default ∅ profileData !! "verified") (VBool false)).
Proof.
  intros env userId profileData w.
  apply (ensureUserProfileExists_rewrites env userId profileData w).
  reflexivity.
Defined.

(** *** The lookup by phone number *)

Lemma ascii_compare_lt_trans a b c :
  Ascii.compare a b = Lt -> Ascii.compare b c = Lt -> Ascii.compare a c = Lt.
Proof.
  unfold Ascii.compare. rewrite !N.compare_lt_iff. apply N.lt_trans.
Qed.

Lemma string_compare_lt_trans a : forall b c,
  String.compare a b = Lt -> String.compare b c = Lt -> String.compare a c = Lt.
Proof.
  induction a as [|x a IH]; intros [|y b] [|z c]; cbn [String.compare];
    try discriminate; try reflexivity.
  destruct (Ascii.compare x y) eqn:Hxy; try discriminate;
    destruct (Ascii.compare y z) eqn:Hyz; try discriminate; intros H1 H2.
  - apply Ascii.compare_eq_iff in Hxy as ->. rewrite Hyz. now apply (IH b c).
  - apply Ascii.compare_eq_iff in Hxy as ->. now rewrite Hyz.
  - apply Ascii.compare_eq_iff in Hyz as <-. now rewrite Hxy.
  - now rewrite (ascii_compare_lt_trans x y z Hxy Hyz).
Qed.

(** [first_doc] picks a document with the least id. *)
Lemma first_doc_least docs : forall p,
  first_doc docs = Some p ->
  forall q, In q docs -> String.ltb q.1 p.1 = false.
Proof.
  induction docs as [|x rest IH]; intros p; cbn [first_doc]; [discriminate |].
  assert (forall a b : string, String.ltb a b = true -> String.ltb b a = false) as Hasym.
  { intros a b. unfold String.ltb. rewrite (String.compare_antisym a b).
    destruct (String.compare b a); cbn; congruence. }
  assert (forall a : string, String.ltb a a = false) as Hirr.
  { intros a. unfold String.ltb.
    destruct (String.compare a a) eqn:H; try reflexivity.
    pose proof (String.compare_antisym a a) as Ha. rewrite H in Ha. discriminate. }
  destruct (first_doc rest) as [m|] eqn:Hm.
  - destruct (String.ltb m.1 x.1) eqn:Hlt; intros [= <-] q [<-|Hq].
    + now apply Hasym.
    + now apply (IH m eq_refl).
    + apply Hirr.
    + pose proof (IH m eq_refl q Hq) as Hqm.
      destruct (String.ltb q.1 x.1) eqn:Hqx; [| reflexivity]. exfalso.
      unfold String.ltb in *.
      destruct (String.compare q.1 x.1) eqn:C1; try discriminate.
      destruct (String.compare m.1 x.1) eqn:C2.
      * apply String.compare_eq_iff in C2. rewrite C2, C1 in Hqm. discriminate.
      * discriminate.
      * rewrite (String.compare_antisym m.1 x.1) in C2.
        destruct (String.compare x.1 m.1) eqn:C3; try discriminate.
        rewrite (string_compare_lt_trans _ _ _ C1 C3) in Hqm. discriminate.
  - intros [= <-] q [<-|Hq]; [apply Hirr |].
    apply UserAuthFacts.first_doc_None in Hm. subst rest. destruct Hq.
Qed.

(** [findUserByPhoneNumber] never throws and changes nothing.  It
    answers [null] exactly when the query is rejected or no Profile
    Record has the number; otherwise it answers with the email of a
    record that has the number, the one with the least document id when
    several do, and with that record's [uid] field, or the document id
    when the field is missing or falsy. *)
Theorem findUserByPhoneNumber_spec env phoneNumber w :
  let r := findUserByPhoneNumber env phoneNumber w in
  r.1 = w /\
  ((r.2 = Returned None /\
    (getDocs_rejects env <> None \/
     forall id d, user_profiles w !! id = Some d ->
                  d !! "phoneNumber" <> Some (VStr phoneNumber)))
   \/
   (exists id d,
      getDocs_rejects env = None /\
      user_profiles w !! id = Some d /\
      d !! "phoneNumber" = Some (VStr phoneNumber) /\
      (forall id' d', user_profiles w !! id' = Some d' ->
                      d' !! "phoneNumber" = Some (VStr phoneNumber) ->
                      String.ltb id' id = false) /\
      r.2 = Returned (Some (mkFound (if truthy (d !! "uid") then d !! "uid"
                                     else Some (VStr id))
                                    (d !! "email"))))).
Proof.
  cbv zeta. unfold findUserByPhoneNumber.
  destruct (getDocs_rejects env) as [e|] eqn:Hq.
  - cbv beta iota zeta delta [try_catch throw ret fst snd].
    split; [reflexivity |]. left. split; [reflexivity |]. left. discriminate.
  - cbv beta iota zeta delta [try_catch throw ret fst snd].
    split; [reflexivity |].
    pose proof (UserAuthFacts.first_doc_where_phoneNumber phoneNumber (user_profiles w))
      as Hlook.
    destruct (first_doc (where_phoneNumber phoneNumber (user_profiles w)))
      as [[id d]|] eqn:Hf.
    + right. destruct Hlook as [Hl Hp]. exists id, d.
      repeat split; try assumption.
      intros id' d' Hl' Hp'.
      apply (first_doc_least _ (id, d) Hf (id', d')).
      now apply UserAuthFacts.where_phoneNumber_In.
    + left. split; [reflexivity |]. right. exact Hlook.
Qed.

(** Two records with the same phone number: the lookup answers with the
    one whose document id comes first. *)
Example findUserByPhoneNumber_duplicate :
  let a : Doc :=
    object [ Field "email" (VStr "a@x.com"); Field "phoneNumber" (VStr "9876543210") ] in
  let b : Doc :=
    object [ Field "email" (VStr "b@x.com"); Field "phoneNumber" (VStr "9876543210") ] in
  let profiles : gmap string Doc := <["uid-b" := b]> (<["uid-a" := a]> ∅) in
  (findUserByPhoneNumber (calm 0 "uid-a") "9876543210"
     (with_user_profiles profiles empty_world)).2
  = Returned (Some (mkFound (Some (VStr "uid-a")) (Some (VStr "a@x.com")))).
Proof. vm_compute. reflexivity. Qed.

End FirebaseFacts.

(** ** The admin flow *)

Module OwnerAuthFacts.
Import FirebaseServices OwnerAuthContext.

Ltac run :=
  cbv beta iota zeta delta
    [bind ret throw try_catch try_finally modify liftW fst snd
     setIsAuthenticated setUserId setIsInitialized
     put_isAuthenticated put_userId put_isInitialized
     toast localStorage_setItem localStorage_removeItem record_call
     with_user_profiles with_currentUser with_localStorage with_toasts with_authCalls];
  cbn [isAuthenticated userId isInitialized
       user_profiles currentUser localStorage toasts authCalls].

(** [login] with credentials of another account: the call signs out and
    reports the refusal, and touches nothing else. *)
Lemma login_other_account env email password c w uid :
  signInWithEmailAndPassword env (Some (VStr (Js.trim email))) (Js.trim password)
  = Returned uid ->
  uid <> ADMIN_UID ->
  signOut_rejects env = None ->
  login env email password (c, w) =
  ((c, mkWorld (user_profiles w) None (localStorage w)
               (toasts w ++ [mkToast ToastError NOT_AUTHORIZED])
               ((authCalls w ++ [SignIn (Some (VStr (Js.trim email))) (Js.trim password)])
                ++ [SignOut])),
   Returned false).
Proof.
  intros Hs Hne Ho. unfold login, auth_signIn, auth_signOut. rewrite Hs, Ho.
  apply String.eqb_neq in Hne. run. rewrite Hne. cbn [negb]. run. reflexivity.
Qed.

(** [login] leaves the flag alone unless the backend resolved the
    credentials to [ADMIN_UID]. *)
Lemma login_sets_flag env email password c w :
  isAuthenticated c = false ->
  isAuthenticated (login env email password (c, w)).1.1 = true ->
  signInWithEmailAndPassword env (Some (VStr (Js.trim email))) (Js.trim password)
  = Returned ADMIN_UID.
Proof.
  intros Hc. unfold login, auth_signIn, auth_signOut, getDoc, setDoc_merge, cache_id_token.
  destruct (signInWithEmailAndPassword env (Some (VStr (Js.trim email))) (Js.trim password))
    as [uid|e]; run.
  - destruct (String.eqb_spec uid ADMIN_UID) as [->|Hne]; [reflexivity |].
    cbn [negb]. destruct (signOut_rejects env) as [e|]; run.
    + destruct (bool_decide (err_code e = Some "auth/user-not-found")
                || bool_decide (err_code e = Some "auth/wrong-password"));
        run; congruence.
    + congruence.
  - destruct (bool_decide (err_code e = Some "auth/user-not-found")
              || bool_decide (err_code e = Some "auth/wrong-password"));
      run; congruence.
Qed.

(** The auth-state listener sets the flag only after its three checks. *)
Lemma onAuthStateChanged_sets_flag env firebaseUser c w :
  isAuthenticated c = false ->
  isAuthenticated (onAuthStateChanged env firebaseUser (c, w)).1.1 = true ->
  firebaseUser = Some ADMIN_UID /\
  localStorage w !! OWNER_AUTH_STORAGE_KEY = Some (LSText "true") /\
  getDoc_rejects env = None /\
  exists data, user_profiles w !! ADMIN_UID = Some data /\ marked_admin data = true.
Proof.
  intros Hc. unfold onAuthStateChanged, getDoc, cache_id_token.
  destruct firebaseUser as [uid|]; run; [| congruence].
  destruct (bool_decide_reflect
              (localStorage w !! OWNER_AUTH_STORAGE_KEY = Some (LSText "true")))
    as [Hflag|_]; cbn [andb]; [| run; congruence].
  destruct (String.eqb_spec uid ADMIN_UID) as [->|_]; [| run; congruence].
  destruct (getDoc_rejects env) as [e|]; run; [congruence |].
  destruct (user_profiles w !! ADMIN_UID) as [data|]; run; [| congruence].
  destruct (marked_admin data) eqn:Hm; run; [| congruence].
  intros _. repeat split; try assumption. now exists data.
Qed.

(** A storage event sets the flag exactly when it is about the flag's
    key and carries ["true"]. *)
Lemma handleStorage_sets_flag event c w :
  isAuthenticated c = false ->
  isAuthenticated (handleStorage event (c, w)).1.1 = true ->
  ev_key event = Some OWNER_AUTH_STORAGE_KEY /\
  ev_newValue event = Some (LSText "true").
Proof.
  intros Hc. unfold handleStorage.
  destruct (bool_decide_reflect (ev_key event = Some OWNER_AUTH_STORAGE_KEY)) as [Hk|_].
  - destruct (bool_decide_reflect (ev_newValue event = Some (LSText "true"))) as [Hv|_];
      destruct (bool_decide (ev_key event = Some OWNER_UID_KEY)); run;
      solve [now split | congruence].
  - destruct (bool_decide (ev_key event = Some OWNER_UID_KEY)); run; congruence.
Qed.

Lemma mount_reads_flag w :
  isAuthenticated (mount w) = true <->
  localStorage w !! OWNER_AUTH_STORAGE_KEY = Some (LSText "true").
Proof. unfold mount. cbn [isAuthenticated]. apply bool_decide_eq_true. Qed.

(** C2, as the code has it.  A transition of the admin provider takes
    the authenticated flag from false to true only if it is a [login]
    whose credentials the backend resolved to the fixed privileged
    identifier, or the auth-state listener notified of that identifier
    while the cached flag is ["true"] and the Profile Record carries the
    privilege mark, or a storage event that sets the cached flag to
    ["true"].  (A provider that mounts starts with the flag read from
    the cache, see [mount_reads_flag].) *)
Theorem flag_raised_only_by env ev s :
  isAuthenticated s.1 = false ->
  isAuthenticated (step env ev s).1 = true ->
  (exists email password,
     ev = Login email password /\
     signInWithEmailAndPassword env (Some (VStr (Js.trim email))) (Js.trim password)
     = Returned ADMIN_UID)
  \/
  (ev = AuthStateChanged (Some ADMIN_UID) /\
   localStorage s.2 !! OWNER_AUTH_STORAGE_KEY = Some (LSText "true") /\
   exists data, user_profiles s.2 !! ADMIN_UID = Some data /\ marked_admin data = true)
  \/
  ev = StorageChanged OWNER_AUTH_STORAGE_KEY (Some (LSText "true")).
Proof.
  destruct s as [c w]. cbn [fst snd]. intros Hc Hstep.
  destruct ev as [email password | | firebaseUser | key newValue |]; cbn [step] in Hstep.
  - left. exists email, password. split; [reflexivity |].
    exact (login_sets_flag env email password c w Hc Hstep).
  - exfalso. revert Hstep. unfold logout, auth_signOut.
    destruct (signOut_rejects env); run; congruence.
  - right. left.
    destruct (onAuthStateChanged_sets_flag env firebaseUser c w Hc Hstep)
      as (-> & Hflag & _ & Hdata).
    auto.
  - right. right.
    revert Hstep. unfold external_write.
    destruct newValue as [v|];
      cbv beta iota zeta delta [bind liftW modify localStorage_setItem
                                localStorage_removeItem fst snd];
      intros Hstep;
      apply (handleStorage_sets_flag _ c _ Hc) in Hstep as [Hk Hv];
      cbn [ev_key ev_newValue] in Hk, Hv; congruence.
  - exfalso. revert Hstep. unfold external_clear.
    cbv beta iota zeta delta [bind liftW modify fst snd].
    intros Hstep.
    apply (handleStorage_sets_flag _ c _ Hc) in Hstep as [Hk _].
    cbn [ev_key] in Hk. discriminate.
Qed.

Lemma flag_raised_only_by_witness :
  let env := admin_backend 0 in
  let ev := Login "owner@cablehq.com" "admin-pass" in
  let s := owner_mounted in
  (exists email password,
     ev = Login email password /\
     signInWithEmailAndPassword env (Some (VStr (Js.trim email))) (Js.trim password)
     = Returned ADMIN_UID)
  \/
  (ev = AuthStateChanged (Some ADMIN_UID) /\
   localStorage s.2 !! OWNER_AUTH_STORAGE_KEY = Some (LSText "true") /\
   exists data, user_profiles s.2 !! ADMIN_UID = Some data /\ marked_admin data = true)
  \/
  ev = StorageChanged OWNER_AUTH_STORAGE_KEY (Some (LSText "true")).
Proof.
  intros env ev s.
  apply (flag_raised_only_by env ev s).
  - vm_compute. reflexivity.
  - vm_compute. reflexivity.
Defined.

(** C2 as stated fails: on a provider that is not authenticated, where
    nobody logged in and the backend knows no user, a change of the
    cached flag made elsewhere raises the authenticated flag; a change of
    the cached identifier then makes the provider report the admin. *)
Lemma storage_event_raises_flag :
  let s1 :=
    step (calm 0 "uid-2")
         (StorageChanged OWNER_AUTH_STORAGE_KEY (Some (LSText "true"))) owner_mounted in
  let s2 :=
    step (calm 1 "uid-2")
         (StorageChanged OWNER_UID_KEY (Some (LSText ADMIN_UID))) s1 in
  isAuthenticated owner_mounted.1 = false /\
  isAuthenticated s1.1 = true /\
  authCalls s1.2 = [] /\
  currentUser s1.2 = None /\
  isAdmin s2.1 = true.
Proof. vm_compute. repeat split; reflexivity. Qed.

(** C7, as the code has it.  When the backend accepts the credentials
    of an account other than the privileged one and the sign-out goes
    through, the admin [login] signs out of the backend at once and
    fails, reporting that only the admin account may enter; the Admin
    Session Record (the flag and identifier in memory and in the cache)
    and the directory are left exactly as they were, so a state that was
    not authenticated is not authenticated afterwards. *)
Theorem login_not_authorized env email password s uid :
  signInWithEmailAndPassword env (Some (VStr (Js.trim email))) (Js.trim password)
  = Returned uid ->
  uid <> ADMIN_UID ->
  signOut_rejects env = None ->
  let r := login env email password s in
  r.2 = Returned false /\
  toasts r.1.2 = (toasts s.2 ++ [mkToast ToastError NOT_AUTHORIZED])%list /\
  authCalls r.1.2 =
    ((authCalls s.2 ++ [SignIn (Some (VStr (Js.trim email))) (Js.trim password)])
     ++ [SignOut])%list /\
  currentUser r.1.2 = None /\
  r.1.1 = s.1 /\
  localStorage r.1.2 = localStorage s.2 /\
  user_profiles r.1.2 = user_profiles s.2 /\
  (isAuthenticated s.1 = false -> isAuthenticated r.1.1 = false).
Proof.
  destruct s as [c w]. cbn [fst snd]. intros Hs Hne Ho. cbv zeta.
  rewrite (login_other_account env email password c w uid Hs Hne Ho).
  cbn [fst snd toasts authCalls currentUser localStorage user_profiles].
  repeat split; auto.
Qed.

Lemma login_not_authorized_witness :
  let env := admin_backend 5 in
  let email := "bob@x.com" in
  let password := "bobs-pass" in
  let s := owner_mounted in
  let r := login env email password s in
  r.2 = Returned false /\
  toasts r.1.2 = (toasts s.2 ++ [mkToast ToastError NOT_AUTHORIZED])%list /\
  authCalls r.1.2 =
    ((authCalls s.2 ++ [SignIn (Some (VStr (Js.trim email))) (Js.trim password)])
     ++ [SignOut])%list /\
  currentUser r.1.2 = None /\
  r.1.1 = s.1 /\
  localStorage r.1.2 = localStorage s.2 /\
  user_profiles r.1.2 = user_profiles s.2 /\
  (isAuthenticated s.1 = false -> isAuthenticated r.1.1 = false).
Proof.
  intros env email password s.
  apply (login_not_authorized env email password s "uid-2").
  - vm_compute. reflexivity.
  - vm_compute. congruence.
  - reflexivity.
Defined.

(** C7 as stated fails: with the admin logged in, a [login] with the
    credentials of another account fails and signs out of the backend,
    but the Admin Session Record is not cleared: the flag is still set
    in memory and in the cache. *)
Lemma login_not_authorized_keeps_session :
  let r := login (admin_backend 5) "bob@x.com" "bobs-pass" owner_logged_in in
  isAuthenticated owner_logged_in.1 = true /\
  r.2 = Returned false /\
  currentUser r.1.2 = None /\
  isAuthenticated r.1.1 = true /\
  isAdmin r.1.1 = true /\
  localStorage r.1.2 !! OWNER_AUTH_STORAGE_KEY = Some (LSText "true") /\
  localStorage r.1.2 !! OWNER_UID_KEY = Some (LSText ADMIN_UID).
Proof. vm_compute. repeat split; reflexivity. Qed.

(** *** More on the admin [login] *)

Lemma marked_admin_merge (new data : Doc) :
  new !! "role" = None -> new !! "isAdmin" = None ->
  marked_admin (new ∪ data) = marked_admin data.
Proof.
  intros Hr Ha. unfold marked_admin.
  rewrite !lookup_union, Hr, Ha.
  destruct (data !! "role"), (data !! "isAdmin"); reflexivity.
Qed.

(** The admin [login] when everything goes through. *)
Lemma login_admin env email password c w :
  signInWithEmailAndPassword env (Some (VStr (Js.trim email))) (Js.trim password)
  = Returned ADMIN_UID ->
  getDoc_rejects env = None ->
  setDoc_rejects env = None ->
  login env email password (c, w) =
  ((mkOwnerAuth true (Some (LSText ADMIN_UID)) (isInitialized c),
    mkWorld
      (merge_into ADMIN_UID
         (if match user_profiles w !! ADMIN_UID with
             | Some data =>
                 negb (bool_decide (data !! "role" = Some (VStr "admin")))
                 && negb (bool_decide (data !! "isAdmin" = Some (VBool true)))
             | None => true
             end
          then object [ Field "uid" (VStr ADMIN_UID);
                        Field "email" (VStr (Js.trim email));
                        Field "role" (VStr "admin");
                        Field "isAdmin" (VBool true);
                        Field "createdAt" (VTime (serverTimestamp env));
                        Field "updatedAt" (VTime (serverTimestamp env)) ]
          else object [ Field "uid" (VStr ADMIN_UID);
                        Field "lastLoginAt" (VTime (serverTimestamp env));
                        Field "updatedAt" (VTime (serverTimestamp env)) ])
         (user_profiles w))
      (Some ADMIN_UID)
      (<[OWNER_UID_KEY := LSText ADMIN_UID]>
         (<[OWNER_AUTH_STORAGE_KEY := LSText "true"]>
            match getIdToken env with
            | Returned idToken =>
                if negb (String.eqb idToken "")
                then <[ID_TOKEN_KEY := LSText idToken]> (localStorage w)
                else localStorage w
            | Thrown _ => localStorage w
            end))
      (toasts w ++ [mkToast ToastSuccess "Admin login successful"])
      (authCalls w ++ [SignIn (Some (VStr (Js.trim email))) (Js.trim password)])),
   Returned true).
Proof.
  intros Hs Hr Hw.
  unfold login, auth_signIn, auth_signOut, getDoc, setDoc_merge, cache_id_token.
  rewrite Hs, Hr, Hw. run. rewrite String.eqb_refl. cbn [negb]. run.
  destruct (match user_profiles w !! ADMIN_UID with
            | Some data =>
                negb (bool_decide (data !! "role" = Some (VStr "admin"))) &&
                negb (bool_decide (data !! "isAdmin" = Some (VBool true)))
            | None => true
            end); run;
    (destruct (getIdToken env) as [tok|e]; [destruct (String.eqb tok "") |]; run;
     cbn [negb]; run; reflexivity).
Qed.

(** The admin [login] when something does not go through: it answers
    [false] and only the backend session, the toasts and the record of
    the backend calls may have changed. *)
Lemma login_admin_fails env email password c w :
  ~ (signInWithEmailAndPassword env (Some (VStr (Js.trim email))) (Js.trim password)
     = Returned ADMIN_UID /\
     getDoc_rejects env = None /\
     setDoc_rejects env = None) ->
  exists cu ts calls,
    login env email password (c, w) =
    ((c, mkWorld (user_profiles w) cu (localStorage w) ts calls), Returned false).
Proof.
  intros Hnot.
  unfold login, auth_signIn, auth_signOut, getDoc, setDoc_merge, cache_id_token.
  destruct (signInWithEmailAndPassword env (Some (VStr (Js.trim email))) (Js.trim password))
    as [uid|e]; run.
  2:{ destruct (bool_decide (err_code e = Some "auth/user-not-found")
                || bool_decide (err_code e = Some "auth/wrong-password")); run;
        eexists _, _, _; reflexivity. }
  destruct (String.eqb_spec uid ADMIN_UID) as [->|Hne]; cbn [negb].
  2:{ destruct (signOut_rejects env) as [e|]; run.
      - destruct (bool_decide (err_code e = Some "auth/user-not-found")
                  || bool_decide (err_code e = Some "auth/wrong-password")); run;
          eexists _, _, _; reflexivity.
      - eexists _, _, _; reflexivity. }
  destruct (getDoc_rejects env) as [e|]; run.
  { destruct (bool_decide (err_code e = Some "auth/user-not-found")
              || bool_decide (err_code e = Some "auth/wrong-password")); run;
      eexists _, _, _; reflexivity. }
  destruct (setDoc_rejects env) as [e|]; [| exfalso; apply Hnot; auto].
  destruct (match user_profiles w !! ADMIN_UID with
            | Some data =>
                negb (bool_decide (data !! "role" = Some (VStr "admin"))) &&
                negb (bool_decide (data !! "isAdmin" = Some (VBool true)))
            | None => true
            end); run;
    (destruct (bool_decide (err_code e = Some "auth/user-not-found")
               || bool_decide (err_code e = Some "auth/wrong-password")); run;
     eexists _, _, _; reflexivity).
Qed.

Lemma login_true_inv env email password c w :
  (login env email password (c, w)).2 = Returned true ->
  signInWithEmailAndPassword env (Some (VStr (Js.trim email))) (Js.trim password)
  = Returned ADMIN_UID /\
  getDoc_rejects env = None /\
  setDoc_rejects env = None.
Proof.
  intros Ht.
  destruct (signInWithEmailAndPassword env (Some (VStr (Js.trim email))) (Js.trim password))
    as [uid|e] eqn:Hs.
  2:{ destruct (login_admin_fails env email password c w) as (cu & ts & calls & Hl).
      { rewrite Hs. intros (H & _). discriminate. }
      rewrite Hl in Ht. discriminate. }
  destruct (decide (uid = ADMIN_UID /\ getDoc_rejects env = None
                    /\ setDoc_rejects env = None)) as [(-> & Hr & Hw)|Hnot];
    [auto |].
  destruct (login_admin_fails env email password c w) as (cu & ts & calls & Hl).
  { rewrite Hs. intros (H & H1 & H2). apply Hnot. split; [congruence | auto]. }
  rewrite Hl in Ht. discriminate.
Qed.

Lemma login_admin_marked env email password c w :
  signInWithEmailAndPassword env (Some (VStr (Js.trim email))) (Js.trim password)
  = Returned ADMIN_UID ->
  getDoc_rejects env = None ->
  setDoc_rejects env = None ->
  exists data,
    user_profiles (login env email password (c, w)).1.2 !! ADMIN_UID = Some data /\
    marked_admin data = true.
Proof.
  intros Hs Hr Hw.
  rewrite (login_admin env email password c w Hs Hr Hw). cbn [fst snd].
  cbn [user_profiles]. unfold merge_into. rewrite lookup_insert_eq.
  eexists. split; [reflexivity |].
  destruct (user_profiles w !! ADMIN_UID) as [data|]; cbn [default from_option].
  - destruct (bool_decide (data !! "role" = Some (VStr "admin"))) eqn:H1;
      destruct (bool_decide (data !! "isAdmin" = Some (VBool true))) eqn:H2;
      cbn [negb andb].
    1-3: unfold id; rewrite marked_admin_merge;
         [unfold marked_admin; rewrite H1, H2; reflexivity
         | unfold object; cbn [List.fold_left define]; by simplify_map_eq
         | unfold object; cbn [List.fold_left define]; by simplify_map_eq].
    unfold marked_admin, object. cbn [List.fold_left define].
    apply orb_true_iff. left. apply bool_decide_eq_true.
    rewrite lookup_union_l'; by simplify_map_eq.
  - unfold marked_admin, object. cbn [List.fold_left define].
    apply orb_true_iff. left. apply bool_decide_eq_true.
    rewrite lookup_union_l'; by simplify_map_eq.
Qed.

(** The admin [login] never throws.  It answers [true] exactly when the
    backend resolves the credentials to the privileged identifier and
    the directory answers the read and accepts the write; then the
    provider is authenticated as the admin, the flag and the identifier
    are cached, so that a provider mounted afterwards starts as the
    admin, and the Profile Record of the privileged identifier carries
    the privilege mark. *)
Theorem login_succeeds_iff env email password s :
  let r := login env email password s in
  (r.2 = Returned true \/ r.2 = Returned false) /\
  (r.2 = Returned true <->
   signInWithEmailAndPassword env (Some (VStr (Js.trim email))) (Js.trim password)
   = Returned ADMIN_UID /\
   getDoc_rejects env = None /\
   setDoc_rejects env = None) /\
  (r.2 = Returned true ->
   isAuthenticated r.1.1 = true /\
   isAdmin r.1.1 = true /\
   isAdmin (mount r.1.2) = true /\
   currentUser r.1.2 = Some ADMIN_UID /\
   exists data,
     user_profiles r.1.2 !! ADMIN_UID = Some data /\ marked_admin data = true).
Proof.
  destruct s as [c w]. cbv zeta.
  destruct (signInWithEmailAndPassword env (Some (VStr (Js.trim email))) (Js.trim password))
    as [uid|e] eqn:Hs.
  2:{ destruct (login_admin_fails env email password c w) as (cu & ts & calls & ->).
      { rewrite Hs. intros (H & _). discriminate. }
      cbn [snd]. split; [now right |].
      split; [split; [discriminate | intros (H & _); discriminate] | discriminate]. }
  destruct (decide (uid = ADMIN_UID /\ getDoc_rejects env = None
                    /\ setDoc_rejects env = None)) as [(-> & Hr & Hw)|Hnot].
  2:{ destruct (login_admin_fails env email password c w) as (cu & ts & calls & ->).
      { rewrite Hs. intros (H & H1 & H2). apply Hnot. split; [congruence | auto]. }
      cbn [snd]. split; [now right |].
      split; [split; [discriminate |] | discriminate].
      intros (H & H1 & H2). exfalso. apply Hnot. split; [congruence | auto]. }
  pose proof (login_admin_marked env email password c w Hs Hr Hw) as Hmark.
  rewrite (login_admin env email password c w Hs Hr Hw) in Hmark |- *. cbn [fst snd] in *.
  split; [now left |]. split; [split; auto |]. intros _.
  split; [reflexivity |]. split; [reflexivity |].
  split.
  { unfold isAdmin, mount. cbn [isAuthenticated userId localStorage].
    rewrite lookup_insert_eq.
    rewrite lookup_insert_ne by discriminate. rewrite lookup_insert_eq. reflexivity. }
  split; [reflexivity | exact Hmark].
Qed.

(** An admin [login] that answers [false] has changed neither the
    provider state, nor the local storage, nor the directory. *)
Theorem login_failure_frame env email password s :
  (login env email password s).2 = Returned false ->
  let r := login env email password s in
  r.1.1 = s.1 /\
  localStorage r.1.2 = localStorage s.2 /\
  user_profiles r.1.2 = user_profiles s.2.
Proof.
  destruct s as [c w]. cbv zeta. intros Hf.
  assert (~ (signInWithEmailAndPassword env (Some (VStr (Js.trim email)))
               (Js.trim password) = Returned ADMIN_UID
             /\ getDoc_rejects env = None /\ setDoc_rejects env = None)) as Hnot.
  { intros (Hs & Hr & Hw).
    rewrite (login_admin env email password c w Hs Hr Hw) in Hf. discriminate. }
  destruct (login_admin_fails env email password c w Hnot) as (cu & ts & calls & ->).
  repeat split; reflexivity.
Qed.

Lemma login_failure_frame_witness :
  let env := admin_backend 5 in
  let s := owner_logged_in in
  let r := login env "bob@x.com" "bobs-pass" s in
  r.1.1 = s.1 /\
  localStorage r.1.2 = localStorage s.2 /\
  user_profiles r.1.2 = user_profiles s.2.
Proof.
  intros env s.
  apply (login_failure_frame env "bob@x.com" "bobs-pass" s).
  vm_compute. reflexivity.
Defined.

(** When the Profile Record of the privileged identifier already carries
    the privilege mark, a successful admin [login] touches only [uid],
    [lastLoginAt] and [updatedAt]: every other field, the creation
    timestamp included, reads as before. *)
Theorem login_keeps_marked_profile env email password s data :
  (login env email password s).2 = Returned true ->
  user_profiles s.2 !! ADMIN_UID = Some data ->
  marked_admin data = true ->
  let profiles' := user_profiles (login env email password s).1.2 in
  field profiles' ADMIN_UID "uid" = Some (VStr ADMIN_UID) /\
  field profiles' ADMIN_UID "lastLoginAt" = Some (VTime (serverTimestamp env)) /\
  field profiles' ADMIN_UID "updatedAt" = Some (VTime (serverTimestamp env)) /\
  (forall k, k <> "uid" -> k <> "lastLoginAt" -> k <> "updatedAt" ->
             field profiles' ADMIN_UID k = data !! k) /\
  (forall id, id <> ADMIN_UID -> profiles' !! id = user_profiles s.2 !! id).
Proof.
  destruct s as [c w]. cbn [fst snd]. intros Ht Hd Hm. cbv zeta.
  apply login_true_inv in Ht as (Hs & Hr & Hw).
  rewrite (login_admin env email password c w Hs Hr Hw). cbn [fst snd user_profiles].
  rewrite Hd.
  assert (negb (bool_decide (data !! "role" = Some (VStr "admin")))
          && negb (bool_decide (data !! "isAdmin" = Some (VBool true))) = false) as ->.
  { unfold marked_admin in Hm.
    destruct (bool_decide (data !! "role" = Some (VStr "admin"))),
             (bool_decide (data !! "isAdmin" = Some (VBool true)));
      cbn in Hm |- *; congruence. }
  unfold field, merge_into. rewrite !lookup_insert_eq, Hd.
  cbn [default from_option mbind option_bind]. unfold id, object.
  cbn [List.fold_left define].
  repeat split.
  - rewrite lookup_union_l'; by simplify_map_eq.
  - rewrite lookup_union_l'; by simplify_map_eq.
  - rewrite lookup_union_l'; by simplify_map_eq.
  - intros k ? ? ?. rewrite lookup_union_r; [reflexivity |].
    rewrite !lookup_insert_ne by congruence. apply lookup_empty.
  - intros id' Hid. now rewrite lookup_insert_ne.
Qed.

Lemma login_keeps_marked_profile_witness :
  let env := admin_backend 9000 in
  let s := (logout (admin_backend 100) owner_logged_in).1 in
  let data : Doc :=
    object [ Field "uid" (VStr ADMIN_UID); Field "email" (VStr "owner@cablehq.com");
             Field "role" (VStr "admin"); Field "isAdmin" (VBool true);
             Field "createdAt" (VTime 0); Field "updatedAt" (VTime 0) ] in
  let profiles' := user_profiles (login env "owner@cablehq.com" "admin-pass" s).1.2 in
  field profiles' ADMIN_UID "uid" = Some (VStr ADMIN_UID) /\
  field profiles' ADMIN_UID "lastLoginAt" = Some (VTime (serverTimestamp env)) /\
  field profiles' ADMIN_UID "updatedAt" = Some (VTime (serverTimestamp env)) /\
  (forall k, k <> "uid" -> k <> "lastLoginAt" -> k <> "updatedAt" ->
             field profiles' ADMIN_UID k = data !! k) /\
  (forall id, id <> ADMIN_UID -> profiles' !! id = user_profiles s.2 !! id).
Proof.
  intros env s data.
  apply (login_keeps_marked_profile env "owner@cablehq.com" "admin-pass" s data).
  - vm_compute. reflexivity.
  - vm_compute. reflexivity.
  - vm_compute. reflexivity.
Defined.

(** *** Logout, the listener and the cache *)

(** The admin [logout] always returns, even when the backend sign-out
    is rejected: the flag and the identifier are cleared in memory and
    in the cache, the cached bearer credential is removed, the directory
    is left alone; a provider mounted afterwards is not authenticated,
    and no notification of the listener re-authenticates. *)
Theorem owner_logout_clears env env' firebaseUser s :
  let r := logout env s in
  r.2 = Returned tt /\
  isAuthenticated r.1.1 = false /\
  userId r.1.1 = None /\
  isAdmin r.1.1 = false /\
  localStorage r.1.2 !! OWNER_AUTH_STORAGE_KEY = None /\
  localStorage r.1.2 !! OWNER_UID_KEY = None /\
  localStorage r.1.2 !! ID_TOKEN_KEY = None /\
  user_profiles r.1.2 = user_profiles s.2 /\
  isAuthenticated (mount r.1.2) = false /\
  isAuthenticated (onAuthStateChanged env' firebaseUser r.1).1.1 = false.
Proof.
  destruct s as [c w]. cbv zeta.
  assert (exists cu calls,
            logout env (c, w) =
            ((mkOwnerAuth false None (isInitialized c),
              mkWorld (user_profiles w) cu
                      (delete ID_TOKEN_KEY
                         (delete OWNER_UID_KEY
                            (delete OWNER_AUTH_STORAGE_KEY (localStorage w))))
                      (toasts w ++ [mkToast ToastInfo "Admin logged out"]) calls),
             Returned tt)) as (cu & calls & ->).
  { unfold logout, auth_signOut.
    destruct (signOut_rejects env) as [e|]; run; eexists _, _; reflexivity. }
  cbn [fst snd isAuthenticated userId localStorage user_profiles].
  assert (delete ID_TOKEN_KEY
            (delete OWNER_UID_KEY (delete OWNER_AUTH_STORAGE_KEY (localStorage w)))
          !! OWNER_AUTH_STORAGE_KEY = None) as Hflag.
  { rewrite !lookup_delete_ne by discriminate. apply lookup_delete_eq. }
  repeat split; try reflexivity.
  - exact Hflag.
  - rewrite lookup_delete_ne by discriminate. apply lookup_delete_eq.
  - apply lookup_delete_eq.
  - unfold mount. cbn [isAuthenticated localStorage]. now rewrite Hflag.
  - unfold onAuthStateChanged, getDoc, cache_id_token.
    destruct firebaseUser as [uid|]; run; [| reflexivity].
    rewrite Hflag. reflexivity.
Qed.

(** The auth-state listener always returns and marks the provider as
    initialised; it never lowers the authenticated flag and never writes
    to the directory.  Notified of no user or of another identifier, it
    leaves the Admin Session Record, in memory and in the cache, exactly
    as it was: a session that was set stays set. *)
Theorem owner_listener_never_lowers env firebaseUser s :
  let r := onAuthStateChanged env firebaseUser s in
  r.2 = Returned tt /\
  isInitialized r.1.1 = true /\
  (isAuthenticated s.1 = true -> isAuthenticated r.1.1 = true) /\
  user_profiles r.1.2 = user_profiles s.2 /\
  (firebaseUser <> Some ADMIN_UID ->
   isAuthenticated r.1.1 = isAuthenticated s.1 /\
   userId r.1.1 = userId s.1 /\
   localStorage r.1.2 = localStorage s.2).
Proof.
  destruct s as [c w]. cbv zeta. unfold onAuthStateChanged, getDoc, cache_id_token.
  destruct firebaseUser as [uid|]; run; [| repeat split; auto].
  destruct (bool_decide (localStorage w !! OWNER_AUTH_STORAGE_KEY = Some (LSText "true")));
    cbn [andb]; [| run; repeat split; auto].
  destruct (String.eqb_spec uid ADMIN_UID) as [->|Hne]; [| run; repeat split; auto].
  destruct (getDoc_rejects env) as [e|]; run; [repeat split; auto; congruence |].
  destruct (user_profiles w !! ADMIN_UID) as [data|]; run;
    [| repeat split; auto; congruence].
  destruct (marked_admin data); run; [| repeat split; auto; congruence].
  destruct (getIdToken env) as [tok|e]; [destruct (String.eqb tok "") |]; run;
    cbn [negb]; run; repeat split; auto; congruence.
Qed.

Lemma owner_listener_never_lowers_witness :
  let env := admin_backend 10 in
  let s := owner_logged_in in
  let r := onAuthStateChanged env (Some "uid-2") s in
  isAuthenticated r.1.1 = true /\
  (isAuthenticated r.1.1 = isAuthenticated s.1 /\
   userId r.1.1 = userId s.1 /\
   localStorage r.1.2 = localStorage s.2).
Proof.
  intros env s.
  destruct (owner_listener_never_lowers env (Some "uid-2") s) as (_ & _ & Hkeep & _ & Hother).
  split.
  - apply Hkeep. vm_compute. reflexivity.
  - apply Hother. discriminate.
Defined.







(** Without that restriction the mirror breaks: the admin logged in,
    another document clears the storage; the event names no key, so
    [handleStorage] ignores it and the provider still reports the admin
    while the cache is empty. *)
Example cleared_storage_keeps_session :
  let s := step (calm 1 "uid-2") StorageCleared owner_logged_in in
  isAuthenticated s.1 = true /\
  isAdmin s.1 = true /\
  localStorage s.2 !! OWNER_AUTH_STORAGE_KEY = None /\
  localStorage s.2 !! OWNER_UID_KEY = None /\
  ~ mirrors_cache s.
Proof.
  cbv zeta. repeat split; try (vm_compute; reflexivity).
  intros [H _]. vm_compute in H. discriminate.
Qed.

(** [isUserAdmin] agrees with the admin [login]: in the world left by a
    [login] that answered [true], it answers [true] for the privileged
    identifier whenever the directory can be read, and [false] when the
    read fails; it never throws and changes nothing. *)
Theorem isUserAdmin_after_login env env' email password s :
  (login env email password s).2 = Returned true ->
  let w1 := (login env email password s).1.2 in
  isUserAdmin env' ADMIN_UID w1 =
  (w1, Returned match getDoc_rejects env' with None => true | Some _ => false end).
Proof.
  destruct s as [c w]. intros Ht. cbv zeta.
  apply login_true_inv in Ht as (Hs & Hr & Hw).
  destruct (login_admin_marked env email password c w Hs Hr Hw) as (data & Hd & Hm).
  set (w1 := (login env email password (c, w)).1.2) in *.
  unfold isUserAdmin, getDoc.
  destruct (getDoc_rejects env') as [e|]; run; [reflexivity |].
  rewrite Hd. run. unfold marked_admin in Hm. now rewrite Hm.
Qed.

Lemma isUserAdmin_after_login_witness :
  let env := admin_backend 0 in
  let env' := admin_backend 50 in
  let s := owner_mounted in
  let w1 := (login env "owner@cablehq.com" "admin-pass" s).1.2 in
  isUserAdmin env' ADMIN_UID w1 =
  (w1, Returned match getDoc_rejects env' with None => true | Some _ => false end).
Proof.
  intros env env' s.
  apply (isUserAdmin_after_login env env' "owner@cablehq.com" "admin-pass" s).
  vm_compute. reflexivity.
Defined.

End OwnerAuthFacts.

(** ** Input validation and the code hasher *)

Module ValidationFacts.
Import Js.

Lemma nullable_Matches r : nullable r = true -> Matches r "".
Proof.
  induction r as [| |p|r1 IH1 r2 IH2|r1 IH1 r2 IH2|r IH]; cbn [nullable];
    try discriminate; intros H.
  - constructor.
  - apply andb_prop in H as [H1 H2].
    change "" with ("" ++ "")%string. constructor; auto.
  - apply orb_prop in H as [H|H]; [apply MAltL | apply MAltR]; auto.
  - constructor.
Qed.

Lemma deriv_Matches r : forall c s, Matches (deriv c r) s -> Matches r (String c s).
Proof.
  induction r as [| |p|r1 IH1 r2 IH2|r1 IH1 r2 IH2|r IH]; intros c s; cbn [deriv].
  - inversion 1.
  - inversion 1.
  - destruct (p c) eqn:Hp; inversion 1; subst. now constructor.
  - destruct (nullable r1) eqn:Hn.
    + inversion 1 as [| | | ? ? ? Hl | ? ? ? Hr | |]; subst.
      * inversion Hl as [| |? ? s1 s2 H1 H2| | | |]; subst.
        change (String c (s1 ++ s2)) with (String c s1 ++ s2)%string.
        constructor; auto.
      * change (String c s) with ("" ++ String c s)%string.
        constructor; [now apply nullable_Matches | auto].
    + inversion 1 as [| |? ? s1 s2 H1 H2| | | |]; subst.
      change (String c (s1 ++ s2)) with (String c s1 ++ s2)%string.
      constructor; auto.
  - inversion 1; subst; [apply MAltL | apply MAltR]; auto.
  - inversion 1 as [| |? ? s1 s2 H1 H2| | | |]; subst.
    change (String c (s1 ++ s2)) with (String c s1 ++ s2)%string.
    constructor; auto.
Qed.

(** What [test] accepts is in the language of the expression. *)
Lemma test_Matches : forall s r, test r s = true -> Matches r s.
Proof.
  induction s as [|c s IH]; intros r; cbn [test].
  - apply nullable_Matches.
  - intros H. apply deriv_Matches. now apply IH.
Qed.

Lemma append_nil_l s : ("" ++ s)%string = s.
Proof. reflexivity. Qed.

Lemma append_cons c s1 s2 : (String c s1 ++ s2)%string = String c (s1 ++ s2).
Proof. reflexivity. Qed.

Lemma all_chars_app p s1 s2 :
  all_chars p (s1 ++ s2) = all_chars p s1 && all_chars p s2.
Proof.
  induction s1 as [|c s1 IH]; rewrite ?append_nil_l, ?append_cons; cbn [all_chars];
    [reflexivity |].
  now rewrite IH, andb_assoc.
Qed.

Lemma Matches_alphabet P r s :
  classes_within P r -> Matches r s -> all_chars P s = true.
Proof.
  intros Hc Hm. induction Hm; cbn [classes_within] in Hc;
    rewrite ?all_chars_app; cbn [all_chars].
  - reflexivity.
  - now rewrite (Hc c H).
  - destruct Hc as [H1 H2]. now rewrite IHHm1, IHHm2.
  - apply IHHm, Hc.
  - apply IHHm, Hc.
  - reflexivity.
  - now rewrite IHHm1, IHHm2.
Qed.

Lemma all_chars_impl (p q : ascii -> bool) s :
  (forall c, p c = true -> q c = true) -> all_chars p s = true -> all_chars q s = true.
Proof.
  intros Hpq. induction s as [|c s IH]; cbn [all_chars]; [reflexivity |].
  intros H. apply andb_prop in H as [Hc Hs]. now rewrite (Hpq c Hc), IH.
Qed.

Lemma all_chars_remove_all (p q : ascii -> bool) s :
  all_chars p (remove_all q s) = true ->
  all_chars (fun c => p c || q c) s = true.
Proof.
  induction s as [|c s IH]; cbn [remove_all all_chars]; [reflexivity |].
  destruct (q c) eqn:Hq.
  - intros H. now rewrite orb_true_r, IH.
  - cbn [all_chars]. intros H. apply andb_prop in H as [Hc Hs].
    now rewrite Hc, IH.
Qed.

Lemma count_char_app x s1 s2 :
  count_char x (s1 ++ s2) = (count_char x s1 + count_char x s2)%nat.
Proof.
  induction s1 as [|c s1 IH]; rewrite ?append_nil_l, ?append_cons; cbn [count_char];
    [reflexivity |].
  rewrite IH. lia.
Qed.

Lemma count_char_absent x p s :
  (forall c, p c = true -> Ascii.eqb x c = false) ->
  all_chars p s = true -> count_char x s = 0%nat.
Proof.
  intros Hp. induction s as [|c s IH]; cbn [all_chars count_char]; [reflexivity |].
  intros H. apply andb_prop in H as [Hc Hs]. now rewrite (Hp c Hc), IH.
Qed.

Lemma PHONE_RE_spec s : test PHONE_RE s = ten_digit_phone s.
Proof.
  unfold PHONE_RE, ten_digit_phone. rewrite test_Seq_Cls.
  destruct s as [|c s]; [reflexivity |]. rewrite test_Rep_Cls.
  now rewrite andb_assoc.
Qed.

(** [isValidPhone] accepts exactly the inputs that, once the surrounding
    white space is trimmed and every white space and hyphen inside is
    removed, are ten digits of which the first is 6, 7, 8 or 9. *)
Theorem isValidPhone_spec value :
  isValidPhone value =
  ten_digit_phone
    (remove_all (fun c => is_space c || Ascii.eqb c "-") (trim value)).
Proof. unfold isValidPhone. apply PHONE_RE_spec. Qed.

Lemma Matches_Seq_inv r1 r2 s :
  Matches (Seq r1 r2) s ->
  exists s1 s2, s = (s1 ++ s2)%string /\ Matches r1 s1 /\ Matches r2 s2.
Proof. intros H. inversion H; subst. eauto. Qed.

Lemma Matches_Cls_inv p s :
  Matches (Cls p) s -> exists c, s = String c "" /\ p c = true.
Proof. intros H. inversion H; subst. eauto. Qed.

Lemma EMAIL_RE_shape t :
  Matches EMAIL_RE t ->
  exists loc domain,
    t = (loc ++ String "@" domain)%string /\
    loc <> "" /\
    count_char "@" t = 1%nat /\
    (0 < count_char "." domain)%nat /\
    all_chars (fun c => negb (is_space c)) t = true.
Proof.
  unfold EMAIL_RE.
  set (L := fun c => alnum c || one_of "_!#$%&'*+/=?`{|}~^.-" c).
  set (D := fun c => alnum c || Ascii.eqb c "-").
  intros H.
  apply Matches_Seq_inv in H as (loc & rest & -> & Hloc & Hrest).
  apply Matches_Seq_inv in Hrest as (at_ & domain & -> & Hat & Hdom).
  apply Matches_Cls_inv in Hat as (c & -> & Hc).
  apply Ascii.eqb_eq in Hc. subst c.
  exists loc, domain. rewrite append_cons, append_nil_l.
  assert (all_chars L loc = true) as HL.
  { refine (Matches_alphabet _ _ _ _ Hloc). cbn [classes_within Plus].
    split; intros c Hc; exact Hc. }
  assert (all_chars (fun c => D c || Ascii.eqb "." c || alpha c) domain = true) as HD.
  { refine (Matches_alphabet _ _ _ _ Hdom). cbn [classes_within Plus AtLeast Rep].
    repeat split; intros c Hc; rewrite ?Hc, ?orb_true_r; reflexivity. }
  assert (forall c, L c = true -> Ascii.eqb "@" c = false) as HLat.
  { intros c. destruct c as [[] [] [] [] [] [] [] []]; vm_compute; congruence. }
  assert (forall c, D c || Ascii.eqb "." c || alpha c = true -> Ascii.eqb "@" c = false)
    as HDat.
  { intros c. destruct c as [[] [] [] [] [] [] [] []]; vm_compute; congruence. }
  assert (forall c, L c = true -> negb (is_space c) = true) as HLsp.
  { intros c. destruct c as [[] [] [] [] [] [] [] []]; vm_compute; congruence. }
  assert (forall c, D c || Ascii.eqb "." c || alpha c = true -> negb (is_space c) = true)
    as HDsp.
  { intros c. destruct c as [[] [] [] [] [] [] [] []]; vm_compute; congruence. }
  split; [reflexivity |]. split.
  { unfold Plus in Hloc.
    apply Matches_Seq_inv in Hloc as (a & b & -> & Ha & _).
    apply Matches_Cls_inv in Ha as (c & -> & _). rewrite append_cons. discriminate. }
  split.
  { rewrite count_char_app. cbn [count_char]. rewrite Ascii.eqb_refl.
    rewrite (count_char_absent "@" L loc HLat HL).
    rewrite (count_char_absent "@" _ domain HDat HD). reflexivity. }
  split.
  { apply Matches_Seq_inv in Hdom as (labels & tld & -> & Hlabels & _).
    unfold Plus at 1 in Hlabels.
    apply Matches_Seq_inv in Hlabels as (label & more & -> & Hlabel & _).
    apply Matches_Seq_inv in Hlabel as (name & dot & -> & _ & Hdot).
    apply Matches_Cls_inv in Hdot as (c & -> & Hc).
    apply Ascii.eqb_eq in Hc. subst c.
    rewrite !count_char_app. cbn [count_char]. rewrite Ascii.eqb_refl. lia. }
  rewrite all_chars_app. cbn [all_chars].
  rewrite (all_chars_impl L _ loc HLsp HL).
  now rewrite (all_chars_impl _ _ domain HDsp HD).
Qed.

(** The parts of a valid email: the trimmed input is a non-empty local
    part, one ["@"] and a domain; it holds no other ["@"] and no white
    space, and the domain holds a dot. *)
Theorem isValidEmail_shape value :
  isValidEmail value = true ->
  exists loc domain,
    trim value = (loc ++ String "@" domain)%string /\
    loc <> "" /\
    count_char "@" (trim value) = 1%nat /\
    (0 < count_char "." domain)%nat /\
    all_chars (fun c => negb (is_space c)) (trim value) = true.
Proof.
  unfold isValidEmail. intros H. apply EMAIL_RE_shape. now apply test_Matches.
Qed.

Lemma isValidEmail_shape_witness :
  exists loc domain,
    trim " a@b.com " = (loc ++ String "@" domain)%string /\
    loc <> "" /\
    count_char "@" (trim " a@b.com ") = 1%nat /\
    (0 < count_char "." domain)%nat /\
    all_chars (fun c => negb (is_space c)) (trim " a@b.com ") = true.
Proof.
  apply (isValidEmail_shape " a@b.com ").
  vm_compute. reflexivity.
Defined.

(** No input passes both checks: what [isValidPhone] accepts holds no
    ["@"], so [login] and the forms never take a phone number for an
    email, nor an email for a phone number. *)
Theorem valid_phone_not_email value :
  isValidPhone value = true -> isValidEmail value = false.
Proof.
  intros Hph. destruct (isValidEmail value) eqn:Hm; [exfalso | reflexivity].
  unfold isValidEmail in Hm. apply test_Matches, EMAIL_RE_shape in Hm.
  destruct Hm as (loc & domain & _ & _ & Hcount & _ & _).
  unfold isValidPhone in Hph. rewrite PHONE_RE_spec in Hph.
  assert (all_chars digit
            (remove_all (fun c => is_space c || Ascii.eqb c "-") (trim value)) = true)
    as Hd.
  { destruct (remove_all _ (trim value)) as [|c s]; [discriminate |].
    cbn [ten_digit_phone] in Hph.
    apply andb_prop in Hph as [H Hs]. apply andb_prop in H as [Hc _].
    cbn [all_chars]. rewrite Hs, andb_true_r.
    revert Hc. destruct c as [[] [] [] [] [] [] [] []]; vm_compute; congruence. }
  apply all_chars_remove_all in Hd.
  assert (count_char "@" (trim value) = 0%nat) as H0.
  { refine (count_char_absent "@" _ _ _ Hd).
    intros c. destruct c as [[] [] [] [] [] [] [] []]; vm_compute; congruence. }
  rewrite H0 in Hcount. discriminate.
Qed.

Lemma valid_phone_not_email_witness : isValidEmail " 98765-432 10" = false.
Proof.
  apply (valid_phone_not_email " 98765-432 10").
  vm_compute. reflexivity.
Defined.

End ValidationFacts.

(** ** The shape of a stored hash *)

Module HashFacts.
Import Sha256.

Lemma round_length st kw : List.length (round st kw) = List.length st.
Proof.
  unfold round.
  destruct st as [|a [|b [|c [|d [|e [|f [|g [|h [|i st]]]]]]]]]; reflexivity.
Qed.

Lemma fold_round_length kws st :
  List.length (List.fold_left round kws st) = List.length st.
Proof.
  revert st. induction kws as [|kw kws IH]; intros st; cbn [List.fold_left];
    [reflexivity |].
  now rewrite IH, round_length.
Qed.

Lemma compress_length h block : List.length (compress h block) = List.length h.
Proof.
  unfold compress. rewrite List.length_map, List.length_combine, fold_round_length.
  apply Nat.min_id.
Qed.

Lemma blocks_length n bytes h : List.length (blocks n bytes h) = List.length h.
Proof.
  revert bytes h. induction n as [|n IH]; intros bytes h; cbn [blocks];
    [reflexivity |].
  now rewrite IH, compress_length.
Qed.

Lemma be_bytes_range n x : Forall (fun b => 0 <= b < 256) (be_bytes n x).
Proof.
  induction n as [|n IH]; cbn [be_bytes]; constructor; [| exact IH].
  change 255 with (Z.ones 8). rewrite Z.land_ones by lia.
  change (2 ^ 8) with 256. apply Z.mod_pos_bound. lia.
Qed.

Lemma be_bytes_length n x : List.length (be_bytes n x) = n.
Proof. induction n as [|n IH]; cbn [be_bytes List.length]; congruence. Qed.

Lemma digest_length msg : List.length (digest msg) = 32%nat.
Proof.
  unfold digest. cbv zeta.
  generalize (blocks (List.length (pad msg) / 64) (pad msg) H0)
    (blocks_length (List.length (pad msg) / 64) (pad msg) H0).
  intros h Hh. replace (List.length H0) with 8%nat in Hh by (vm_compute; reflexivity).
  destruct h as [|a [|b [|c [|d [|e [|f [|g [|h' [|i h]]]]]]]]]; try discriminate.
  reflexivity.
Qed.

Lemma digest_range msg : Forall (fun b => 0 <= b < 256) (digest msg).
Proof.
  unfold digest. cbv zeta.
  generalize (blocks (List.length (pad msg) / 64) (pad msg) H0). intros h.
  induction h as [|x h IH]; cbn [List.map List.concat]; [constructor |].
  apply Forall_app. split; [apply be_bytes_range | exact IH].
Qed.

Lemma hex_digit_hex n : 0 <= n < 16 -> hex_char (hex_digit n) = true.
Proof.
  intros H. rewrite <- (Z2Nat.id n) by lia.
  assert (Z.to_nat n < 16)%nat as Hlt by lia.
  revert Hlt. generalize (Z.to_nat n). intros m Hlt.
  do 16 (destruct m as [|m]; [reflexivity |]). lia.
Qed.

Lemma bufferToHex_length bytes :
  String.length (bufferToHex bytes) = (2 * List.length bytes)%nat.
Proof.
  induction bytes as [|b bytes IH]; cbn [bufferToHex String.length List.length];
    [reflexivity |].
  rewrite IH. lia.
Qed.

Lemma bufferToHex_hex bytes :
  Forall (fun b => 0 <= b < 256) bytes -> all_chars hex_char (bufferToHex bytes) = true.
Proof.
  induction 1 as [|b bytes Hb _ IH]; cbn [bufferToHex all_chars]; [reflexivity |].
  rewrite IH, !hex_digit_hex; [reflexivity | |].
  - change 15 with (Z.ones 4). rewrite Z.land_ones by lia.
    change (2 ^ 4) with 16. apply Z.mod_pos_bound. lia.
  - rewrite Z.shiftr_div_pow2 by lia. change (2 ^ 4) with 16. split.
    + apply Z.div_pos; lia.
    + apply Z.div_lt_upper_bound; lia.
Qed.

(** Whatever the code, its stored hash is 64 lower-case hexadecimal
    characters. *)
Theorem hashOtp_shape otp :
  String.length (hashOtp otp) = 64%nat /\ all_chars hex_char (hashOtp otp) = true.
Proof.
  unfold hashOtp. split.
  - now rewrite bufferToHex_length, digest_length.
  - apply bufferToHex_hex, digest_range.
Qed.

End HashFacts.

(** ** The account helpers *)

Module AuthHelpersFacts.
Import FirebaseServices AuthHelpers.

Ltac run :=
  cbv beta iota zeta delta
    [bind ret throw try_catch try_finally modify liftW fst snd
     toast record_call
     with_user_profiles with_currentUser with_localStorage with_toasts with_authCalls];
  cbn [user_profiles currentUser localStorage toasts authCalls].

(** The record written by [signUpUser]. *)
Lemma signUpUser_granted env data w uid :
  sd_email data <> "" -> sd_password data <> "" -> sd_phoneNumber data <> "" ->
  createUserWithEmailAndPassword env (Js.trim (sd_email data)) (sd_password data)
  = Returned uid ->
  setDoc_rejects env = None ->
  signUpUser env data w =
  (mkWorld
     (<[uid := object [ Field "uid" (VStr uid);
                        Field "email" (VStr (Js.trim (sd_email data)));
                        Field "phoneNumber" (VStr (Js.trim (sd_phoneNumber data)));
                        Field "createdAt" (VTime (serverTimestamp env));
                        Field "updatedAt" (VTime (serverTimestamp env)) ]]>
        (user_profiles w))
     (Some uid) (localStorage w)
     (toasts w ++ [mkToast ToastSuccess "Account created successfully!"])
     (authCalls w ++ [CreateUser (Js.trim (sd_email data)) (sd_password data)]),
   Returned uid).
Proof.
  intros He Hp Hph Hc Hw. unfold signUpUser, auth_createUser, setDoc.
  apply String.eqb_neq in He, Hp, Hph. rewrite He, Hp, Hph. cbn [orb].
  run. rewrite Hc. run. rewrite Hw. run. reflexivity.
Qed.

Lemma signUpUser_returned env data w uid :
  (signUpUser env data w).2 = Returned uid ->
  sd_email data <> "" /\ sd_password data <> "" /\ sd_phoneNumber data <> "" /\
  createUserWithEmailAndPassword env (Js.trim (sd_email data)) (sd_password data)
  = Returned uid /\
  setDoc_rejects env = None.
Proof.
  unfold signUpUser, auth_createUser, setDoc.
  destruct (String.eqb_spec (sd_email data) "") as [He|He]; cbn [orb];
    [run; discriminate |].
  destruct (String.eqb_spec (sd_password data) "") as [Hp|Hp]; cbn [orb];
    [run; discriminate |].
  destruct (String.eqb_spec (sd_phoneNumber data) "") as [Hph|Hph]; cbn [orb];
    [run; discriminate |].
  run.
  destruct (createUserWithEmailAndPassword env (Js.trim (sd_email data)) (sd_password data))
    as [uid'|e]; run; [| discriminate].
  destruct (setDoc_rejects env) as [e|]; run; [discriminate |].
  intros [= ->]. auto.
Qed.




(** An account made by [signUpUser] is not verified: its Profile Record
    has no [verified] field.  So, when its email is one that the
    customer [login] accepts as valid (which [signUpUser] does not
    check) and the backend resolves it, with the password, to the
    account, that [login] returns and opens the backend session but sets
    no user and leaves the provider state, hence the authenticated
    boolean, as it was. *)
Theorem signUpUser_then_login env env' data c w uid :
  (signUpUser env data w).2 = Returned uid ->
  isValidEmail (sd_email data) = true ->
  signInWithEmailAndPassword env' (Some (VStr (Js.trim (sd_email data)))) (sd_password data)
  = Returned uid ->
  let w1 := (signUpUser env data w).1 in
  let r := UserAuthContext.login env' (sd_email data) (sd_password data) (c, w1) in
  field (user_profiles w1) uid "verified" = None /\
  r.2 = Returned tt /\
  r.1.1 = c /\
  currentUser r.1.2 = Some uid /\
  user_profiles r.1.2 = user_profiles w1.
Proof.
  intros Hret Hm Hs. cbv zeta.
  apply signUpUser_returned in Hret as (He & Hp & Hph & Hc & Hw).
  rewrite (signUpUser_granted env data w uid He Hp Hph Hc Hw). cbn [fst snd user_profiles].
  set (w1 := mkWorld _ _ _ _ _).
  assert (user_profiles w1 !! uid ≫= (fun d => d !! "verified") = None) as Hnone.
  { unfold w1. cbn [user_profiles]. rewrite lookup_insert_eq.
    cbn [mbind option_bind]. unfold object. cbn [List.fold_left define].
    by simplify_map_eq. }
  split; [exact Hnone |].
  destruct (UserAuthFacts.login_unverified env' (sd_email data) (sd_password data)
              (c, w1) uid Hm Hs) as (H1 & H2 & _ & H4 & H5 & _).
  { right. cbn [snd]. destruct (user_profiles w1 !! uid) as [d|]; [| exact I].
    cbn [mbind option_bind] in Hnone. now rewrite Hnone. }
  auto.
Qed.

Lemma signUpUser_then_login_witness :
  let env := calm 0 "uid-1" in
  let env' := calm 1000 "uid-1" in
  let data := mkSignUpData "a@b.com" "secret1" "9876543210" in
  let c := UserAuthContext.initial in
  let w := empty_world in
  let w1 := (signUpUser env data w).1 in
  let r := UserAuthContext.login env' (sd_email data) (sd_password data) (c, w1) in
  field (user_profiles w1) "uid-1" "verified" = None /\
  r.2 = Returned tt /\
  r.1.1 = c /\
  currentUser r.1.2 = Some "uid-1" /\
  user_profiles r.1.2 = user_profiles w1.
Proof.
  intros env env' data c w.
  apply (signUpUser_then_login env env' data c w "uid-1").
  - vm_compute. reflexivity.
  - vm_compute. reflexivity.
  - reflexivity.
Defined.

(** [signInUser] for credentials the backend accepts but with no
    Profile Record: the backend session is closed again and the call
    throws [NoAccountError]; when the sign-out itself is rejected, the
    call throws that rejection instead, reworded by the [catch], and the
    backend session stays open.  Directory, local storage and toasts
    are untouched. *)
Theorem signInUser_missing_profile env data w uid :
  si_email data <> "" -> si_password data <> "" ->
  signInWithEmailAndPassword env (Some (VStr (Js.trim (si_email data)))) (si_password data)
  = Returned uid ->
  getDoc_rejects env = None ->
  user_profiles w !! uid = None ->
  let r := signInUser env data w in
  match signOut_rejects env with
  | None => r.2 = Thrown NoAccountError /\ currentUser r.1 = None
  | Some e => r.2 = Thrown (signIn_error e) /\ currentUser r.1 = Some uid
  end /\
  user_profiles r.1 = user_profiles w /\
  localStorage r.1 = localStorage w /\
  toasts r.1 = toasts w.
Proof.
  intros He Hp Hs Hr Hnone. cbv zeta.
  unfold signInUser, auth_signIn, auth_signOut, getDoc.
  apply String.eqb_neq in He, Hp. rewrite He, Hp. cbn [orb].
  run. rewrite Hs. run. rewrite Hr. run. rewrite Hnone. run.
  destruct (signOut_rejects env) as [e|]; run; repeat split; reflexivity.
Qed.

Lemma signInUser_missing_profile_witness :
  let env := calm 0 "uid-9" in
  let data := mkSignInData "a@b.com" "secret1" in
  let w := asha_logged_out.2 in
  let r := signInUser env data w in
  match signOut_rejects env with
  | None => r.2 = Thrown NoAccountError /\ currentUser r.1 = None
  | Some e => r.2 = Thrown (signIn_error e) /\ currentUser r.1 = Some "uid-9"
  end /\
  user_profiles r.1 = user_profiles w /\
  localStorage r.1 = localStorage w /\
  toasts r.1 = toasts w.
Proof.
  intros env data w.
  apply (signInUser_missing_profile env data w "uid-9").
  - discriminate.
  - discriminate.
  - reflexivity.
  - reflexivity.
  - vm_compute. reflexivity.
Defined.

(** [signUpUser] takes an address that the customer [login] refuses:
    that [login] then throws before any backend call. *)
Example signUpUser_then_login_invalid_email :
  let data := mkSignUpData "a@b.c" "secret1" "9876543210" in
  let w1 := (signUpUser (calm 0 "uid-1") data empty_world).1 in
  let r := UserAuthContext.login (calm 1000 "uid-1") "a@b.c" "secret1"
             (UserAuthContext.initial, w1) in
  (signUpUser (calm 0 "uid-1") data empty_world).2 = Returned "uid-1" /\
  r.2 = Thrown (Error "Please enter a valid email address or phone number.") /\
  authCalls r.1.2 = authCalls w1.
Proof. vm_compute. repeat split; reflexivity. Qed.

End AuthHelpersFacts.
